(** * Session-process supervisor of claudecodeui: subprocess and SDK back ends

    A shallow embedding of [src/server/claude-cli.ts] and
    [src/server/claude-sdk.ts].

    - JavaScript strings are Rocq strings, one [ascii] per UTF-16 code unit
      below 256; a chunk of output is the text [data.toString()] gives.
    - The two process-wide [Map]s are finite maps keyed by session id.
    - The variables shared by the closures of [spawnClaude] and changed by
      the loop of [startClaudeSession] are records, passed explicitly.
    - Every effect on the outside world ([ws.send], [console.error],
      [process.kill], [abortController.abort], [fs.rm]) is appended to a
      trace kept in the world state; [ws.send] is taken not to throw.
    - What the outside world does is an input: the events Node reports for
      the child process, the messages the SDK query yields and how its
      iteration ends, whether [query], [mkdir] and [writeFile] throw, the
      ids [generateSessionId] returns.
    - A unit's own steps are composed in program order.  At the [await]s
      of [startClaudeSession] and of the [close] handler the code of other
      units may run; the model has the steps on both sides of such a point
      as functions of their own ([abort_existing], [register],
      [on_message], [finish]), and the statements below are about the
      steps of one unit. *)

From Stdlib Require Import Ascii ZArith Lia.
From stdpp Require Import gmap strings list fin_maps pretty.

Open Scope string_scope.
Open Scope list_scope.

(** ** JavaScript string primitives used by the two files *)

Module JS.

Definition LF : ascii := ascii_of_nat 10.

(** The one-character string [\n]. *)
Definition NL : string := String LF EmptyString.

(** [String.prototype.split] with the separator [\n]: the pieces between
    line feeds, the last piece being what follows the last line feed. *)
Fixpoint split_lf (s : string) : list string :=
  match s with
  | EmptyString => [EmptyString]
  | String c r =>
      if Ascii.eqb c LF then EmptyString :: split_lf r
      else match split_lf r with
           | l :: ls => String c l :: ls
           | [] => [String c EmptyString]
           end
  end.

(** White space and line terminators stripped by [String.prototype.trim],
    among the code units below 256: TAB, LF, VT, FF, CR, SP and NBSP. *)
Definition is_white_space (c : ascii) : bool :=
  let n := nat_of_ascii c in
  ((9 <=? n)%nat && (n <=? 13)%nat) || (n =? 32)%nat || (n =? 160)%nat.

Fixpoint trim_start (s : string) : string :=
  match s with
  | EmptyString => EmptyString
  | String c r => if is_white_space c then trim_start r else s
  end.

Fixpoint trim_end (s : string) : string :=
  match s with
  | EmptyString => EmptyString
  | String c r =>
      match trim_end r with
      | EmptyString => if is_white_space c then EmptyString else String c EmptyString
      | r' => String c r'
      end
  end.

(** [String.prototype.trim]. *)
Definition trim (s : string) : string := trim_end (trim_start s).

(** [s === ''] *)
Definition is_empty (s : string) : bool :=
  match s with EmptyString => true | String _ _ => false end.

(** Truthiness of a value of type [string | undefined]. *)
Definition truthy (s : option string) : bool :=
  match s with
  | Some (String _ _) => true
  | _ => false
  end.

(** [String.prototype.includes]. *)
Fixpoint includes (needle hay : string) : bool :=
  String.prefix needle hay ||
  match hay with
  | EmptyString => false
  | String _ r => includes needle r
  end.

(** [Array.prototype.join] with separator [sep]. *)
Fixpoint join (sep : string) (l : list string) : string :=
  match l with
  | [] => EmptyString
  | [x] => x
  | x :: r => x +:+ sep +:+ join sep r
  end.

(** [s.split(sep)] for a one-character separator. *)
Fixpoint split_char (sep : ascii) (s : string) : list string :=
  match s with
  | EmptyString => [EmptyString]
  | String c r =>
      if Ascii.eqb c sep then EmptyString :: split_char sep r
      else match split_char sep r with
           | l :: ls => String c l :: ls
           | [] => [String c EmptyString]
           end
  end.

(** [c] occurs in [s]. *)
Fixpoint occurs (c : ascii) (s : string) : bool :=
  match s with
  | EmptyString => false
  | String a r => Ascii.eqb a c || occurs c r
  end.


(** [s] has no line feed. *)
Definition no_lf (s : string) : bool := negb (occurs LF s).

End JS.

(** ** Envelopes sent on the channel

    Every [ws.send(JSON.stringify({type: ..., ...}))] of the two files sends
    one of four object shapes; [D] is the type of the [data] field of a
    [claude-response]. *)

Inductive Envelope (D : Type) : Type :=
| SessionCreated (sessionId : string)
| ClaudeResponse (data : D)
| ErrorEnvelope (error : string)
| ClaudeComplete (exitCode : option Z) (isNewSession : bool).

Arguments SessionCreated {D} sessionId.
Arguments ClaudeResponse {D} data.
Arguments ErrorEnvelope {D} error.
Arguments ClaudeComplete {D} exitCode isNewSession.

Definition is_session_created {D} (e : Envelope D) : bool :=
  match e with SessionCreated _ => true | _ => false end.

Definition is_claude_complete {D} (e : Envelope D) : bool :=
  match e with ClaudeComplete _ _ => true | _ => false end.

(** Number of envelopes of a list that satisfy [p]. *)
Definition count {D} (p : Envelope D -> bool) (l : list (Envelope D)) : nat :=
  length (filter (fun e => p e = true) l).

Arguments count {D} p l : simpl never.

(** Handles: a web socket and a child process (or SDK query) are only
    compared for identity. *)
Definition Ws := nat.
Definition Handle := nat.

(** ** The platform's JSON reader

    [spawnClaude] reads each line with [JSON.parse] and then only looks at
    [output.session_id].  The model takes these as an interface, so that
    what is proved about the decoder holds for whatever the platform's
    parser accepts. *)

Class JsonApi (J : Type) : Type := {
  (** [JSON.parse(line)]; [None] when it throws a [SyntaxError]. *)
  JSON_parse : string -> option J;
  (** The value is [null]: reading a property of it throws a [TypeError]. *)
  is_null : J -> bool;
  (** [output.session_id], [None] for [undefined]. *)
  session_id : J -> option string
}.

(** A reader for the JSON grammar (ECMA-404), used to run the model on
    concrete lines.  Numbers keep their literal text; [\u] escapes are
    outside the modelled subset and are rejected. *)
Module Json.

#[local] Set Warnings "-register-all".

Inductive value : Type :=
| Null
| Bool (b : bool)
| Number (literal : string)
| Str (s : string)
| Arr (items : list value)
| Obj (members : list (string * value)).

Definition DQUOTE : ascii := ascii_of_nat 34.
Definition BACKSLASH : ascii := ascii_of_nat 92.

(** Writes a JSON text with apostrophes in place of double quotes. *)
Fixpoint dq (s : string) : string :=
  match s with
  | EmptyString => EmptyString
  | String c r => String (if Ascii.eqb c "'"%char then DQUOTE else c) (dq r)
  end.

Definition is_ws (c : ascii) : bool :=
  let n := nat_of_ascii c in
  (n =? 32)%nat || (n =? 9)%nat || (n =? 10)%nat || (n =? 13)%nat.

Fixpoint skip_ws (s : string) : string :=
  match s with
  | String c r => if is_ws c then skip_ws r else s
  | EmptyString => EmptyString
  end.

Definition is_digit (c : ascii) : bool :=
  let n := nat_of_ascii c in (48 <=? n)%nat && (n <=? 57)%nat.

Fixpoint take_digits (s : string) : string * string :=
  match s with
  | String c r =>
      if is_digit c then let '(d, rest) := take_digits r in (String c d, rest)
      else (EmptyString, s)
  | EmptyString => (EmptyString, EmptyString)
  end.

Definition unescape (c : ascii) : option ascii :=
  if Ascii.eqb c DQUOTE then Some DQUOTE
  else if Ascii.eqb c BACKSLASH then Some BACKSLASH
  else if Ascii.eqb c "/"%char then Some "/"%char
  else if Ascii.eqb c "b"%char then Some (ascii_of_nat 8)
  else if Ascii.eqb c "f"%char then Some (ascii_of_nat 12)
  else if Ascii.eqb c "n"%char then Some (ascii_of_nat 10)
  else if Ascii.eqb c "r"%char then Some (ascii_of_nat 13)
  else if Ascii.eqb c "t"%char then Some (ascii_of_nat 9)
  else None.

(** The characters of a string literal after its opening quote. *)
Fixpoint string_body (s : string) : option (string * string) :=
  match s with
  | EmptyString => None
  | String c r =>
      if Ascii.eqb c DQUOTE then Some (EmptyString, r)
      else if Ascii.eqb c BACKSLASH then
        match r with
        | String e r' =>
            match unescape e, string_body r' with
            | Some ch, Some (body, rest) => Some (String ch body, rest)
            | _, _ => None
            end
        | EmptyString => None
        end
      else if (nat_of_ascii c <? 32)%nat then None
      else match string_body r with
           | Some (body, rest) => Some (String c body, rest)
           | None => None
           end
  end.

Definition fraction (s : string) : option (string * string) :=
  match s with
  | String "."%char r =>
      match take_digits r with
      | (EmptyString, _) => None
      | (d, rest) => Some (String "."%char d, rest)
      end
  | _ => Some (EmptyString, s)
  end.

Definition exponent (s : string) : option (string * string) :=
  match s with
  | String c r =>
      if Ascii.eqb c "e"%char || Ascii.eqb c "E"%char then
        let '(sign, r1) :=
          match r with
          | String "+"%char r' => ("+", r')
          | String "-"%char r' => ("-", r')
          | _ => (EmptyString, r)
          end in
        match take_digits r1 with
        | (EmptyString, _) => None
        | (d, rest) => Some (String c (sign +:+ d), rest)
        end
      else Some (EmptyString, s)
  | EmptyString => Some (EmptyString, s)
  end.

Definition number (s : string) : option (string * string) :=
  let '(sign, s1) :=
    match s with
    | String "-"%char r => ("-", r)
    | _ => (EmptyString, s)
    end in
  let int :=
    match s1 with
    | String "0"%char r => Some ("0", r)
    | _ => match take_digits s1 with
           | (EmptyString, _) => None
           | (d, rest) => Some (d, rest)
           end
    end in
  match int with
  | None => None
  | Some (i, r1) =>
      match fraction r1 with
      | None => None
      | Some (f, r2) =>
          match exponent r2 with
          | None => None
          | Some (e, r3) => Some (sign +:+ i +:+ f +:+ e, r3)
          end
      end
  end.

Definition keyword (kw : string) (v : value) (s : string) : option (value * string) :=
  if String.prefix kw s
  then Some (v, String.substring (String.length kw) (String.length s - String.length kw) s)
  else None.

Fixpoint parse_value (fuel : nat) (s : string) : option (value * string) :=
  match fuel with
  | O => None
  | S fuel' =>
      match skip_ws s with
      | EmptyString => None
      | String c r as s' =>
          if Ascii.eqb c DQUOTE then
            match string_body r with
            | Some (b, rest) => Some (Str b, rest)
            | None => None
            end
          else if Ascii.eqb c "["%char then
            match skip_ws r with
            | String "]"%char rest => Some (Arr [], rest)
            | _ => match parse_items fuel' r with
                   | Some (l, rest) => Some (Arr l, rest)
                   | None => None
                   end
            end
          else if Ascii.eqb c "{"%char then
            match skip_ws r with
            | String "}"%char rest => Some (Obj [], rest)
            | _ => match parse_members fuel' r with
                   | Some (l, rest) => Some (Obj l, rest)
                   | None => None
                   end
            end
          else if Ascii.eqb c "t"%char then keyword "true" (Bool true) s'
          else if Ascii.eqb c "f"%char then keyword "false" (Bool false) s'
          else if Ascii.eqb c "n"%char then keyword "null" Null s'
          else match number s' with
               | Some (n, rest) => Some (Number n, rest)
               | None => None
               end
      end
  end
with parse_items (fuel : nat) (s : string) : option (list value * string) :=
  match fuel with
  | O => None
  | S fuel' =>
      match parse_value fuel' s with
      | None => None
      | Some (v, r) =>
          match skip_ws r with
          | String "]"%char rest => Some ([v], rest)
          | String ","%char rest =>
              match parse_items fuel' rest with
              | Some (l, rest') => Some (v :: l, rest')
              | None => None
              end
          | _ => None
          end
      end
  end
with parse_members (fuel : nat) (s : string) : option (list (string * value) * string) :=
  match fuel with
  | O => None
  | S fuel' =>
      match skip_ws s with
      | String c r =>
          if Ascii.eqb c DQUOTE then
            match string_body r with
            | None => None
            | Some (k, r1) =>
                match skip_ws r1 with
                | String ":"%char r2 =>
                    match parse_value fuel' r2 with
                    | None => None
                    | Some (v, r3) =>
                        match skip_ws r3 with
                        | String "}"%char rest => Some ([(k, v)], rest)
                        | String ","%char rest =>
                            match parse_members fuel' rest with
                            | Some (l, rest') => Some ((k, v) :: l, rest')
                            | None => None
                            end
                        | _ => None
                        end
                    end
                | _ => None
                end
            end
          else None
      | EmptyString => None
      end
  end.

(** [JSON.parse]: one value, surrounded by optional white space. *)
Definition parse (s : string) : option value :=
  match parse_value (2 * String.length s + 2) s with
  | Some (v, rest) => if JS.is_empty (skip_ws rest) then Some v else None
  | None => None
  end.

(** [v[k]] on a parsed value: the last member named [k] of an object. *)
Fixpoint member (k : string) (l : list (string * value)) : option value :=
  match l with
  | [] => None
  | (k', v) :: r =>
      match member k r with
      | Some v' => Some v'
      | None => if String.eqb k k' then Some v else None
      end
  end.

Definition get (k : string) (v : value) : option value :=
  match v with
  | Obj l => member k l
  | _ => None
  end.

Definition string_member (k : string) (v : value) : option string :=
  match get k v with
  | Some (Str s) => Some s
  | _ => None
  end.

End Json.

(** The unit's messages type [session_id] as a string; a member of another
    JSON type is read as absent. *)
#[export] Instance json_api : JsonApi Json.value := {
  JSON_parse := Json.parse;
  is_null := fun v => match v with Json.Null => true | _ => false end;
  session_id := Json.string_member "session_id"
}.


(** ** Start options ([ClaudeSpawnOptions] of [types/index.ts]) *)

Record ToolSettings : Type := {
  allowedTools : list string;
  disallowedTools : list string;
  skipPermissions : bool
}.

Record ClaudeSpawnOptions : Type := {
  sessionId : option string;
  projectPath : option string;
  cwd : option string;
  resume : bool;
  toolsSettings : option ToolSettings;
  permissionMode : option string;
  (** [images[i].data] *)
  images : list string
}.

(** ** Materialising inline attachments

    The same loop stands in [spawnClaude] (lines 47-87) and in
    [startClaudeSession] (lines 37-70).  The file system is an environment:
    which [mkdir] and [writeFile] calls throw is not decided by the code. *)

Module Images.

Class FsEnv : Type := {
  (** [path.join(dir, name)] *)
  path_join : string -> string -> string;
  (** [fs.mkdir(dir, {recursive: true})] throws *)
  mkdir_throws : string -> bool;
  (** [fs.writeFile(path, ...)] throws *)
  writeFile_throws : string -> bool
}.

Definition NL : string := JS.NL.
Definition CR : ascii := ascii_of_nat 13.

(** The longest prefix without [c], and what follows it. *)
Fixpoint span_not (c : ascii) (s : string) : string * string :=
  match s with
  | EmptyString => (EmptyString, EmptyString)
  | String a r =>
      if Ascii.eqb a c then (EmptyString, s)
      else let '(p, rest) := span_not c r in (String a p, rest)
  end.

(** [s] starts with [p]: what follows [p]. *)
Fixpoint strip_prefix (p s : string) : option string :=
  match p, s with
  | EmptyString, _ => Some s
  | String a p', String b s' => if Ascii.eqb a b then strip_prefix p' s' else None
  | String _ _, EmptyString => None
  end.

(** A character that [.] does not match: a line terminator. *)
Definition is_line_terminator (c : ascii) : bool :=
  Ascii.eqb c JS.LF || Ascii.eqb c CR.

Fixpoint has_line_terminator (s : string) : bool :=
  match s with
  | EmptyString => false
  | String c r => is_line_terminator c || has_line_terminator r
  end.

(** [data.match(/^data:([^;]+);base64,(.+)$/)]: the two groups, or [None]
    for [null].  The first group cannot hold a semicolon and a semicolon
    must follow it, so it is the longest run without one. *)
Definition match_data_uri (data : string) : option (string * string) :=
  match strip_prefix "data:" data with
  | None => None
  | Some r =>
      let '(mimeType, r1) := span_not ";"%char r in
      if JS.is_empty mimeType then None
      else match strip_prefix ";base64," r1 with
           | None => None
           | Some base64Data =>
               if JS.is_empty base64Data || has_line_terminator base64Data then None
               else Some (mimeType, base64Data)
           end
  end.

(** [mimeType.split('/')[1] || 'png'] *)
Definition extension (mimeType : string) : string :=
  match JS.split_char "/"%char mimeType with
  | _ :: (String _ _ as e) :: _ => e
  | _ => "png"
  end.

(** [`image_${index}.${extension}`] *)
Definition filename (index : nat) (mimeType : string) : string :=
  "image_" +:+ pretty index +:+ "." +:+ extension mimeType.

(** What the loop has done so far: the files written, each with the base64
    text whose decoding ([Buffer.from(base64Data, 'base64')]) is its
    content, the paths pushed on [tempImagePaths], and the [console.error]
    lines. *)
Record Saved : Type := {
  written : list (string * string);
  tempImagePaths : list string;
  errors : list string
}.

Definition no_saved : Saved :=
  {| written := []; tempImagePaths := []; errors := [] |}.

(** The body of [for (const [index, image] of images.entries())], from
    [index] on.  The boolean tells whether the loop ran to its end; it is
    [false] when a [writeFile] threw, which leaves the loop for the [catch]. *)
Fixpoint save_images `{FsEnv} (tempDir : string) (index : nat) (imgs : list string)
    (acc : Saved) : bool * Saved :=
  match imgs with
  | [] => (true, acc)
  | data :: rest =>
      match match_data_uri data with
      | None =>
          save_images tempDir (S index) rest
            {| written := written acc;
               tempImagePaths := tempImagePaths acc;
               errors := errors acc ++ ["Invalid image data format"] |}
      | Some (mimeType, base64Data) =>
          let filepath := path_join tempDir (filename index mimeType) in
          if writeFile_throws filepath then (false, acc)
          else
            save_images tempDir (S index) rest
              {| written := written acc ++ [(filepath, base64Data)];
                 tempImagePaths := tempImagePaths acc ++ [filepath];
                 errors := errors acc |}
      end
  end.

(** [tempImagePaths.map((p, i) => `${i + 1}. ${p}`)], counting from [i]. *)
Fixpoint numbered (i : nat) (paths : list string) : list string :=
  match paths with
  | [] => []
  | p :: r => (pretty (i + 1) +:+ ". " +:+ p) :: numbered (S i) r
  end.

Definition imageNote (paths : list string) : string :=
  NL +:+ NL +:+ "[Images provided at the following paths:]" +:+ NL +:+
  JS.join NL (numbered 0 paths).

(** The outcome of the [if (images && images.length > 0) { try ... }] block:
    [tempDir] ([None] for [null]), the loop's record, and the prompt with
    the image note when one was added ([None]: the prompt is left as it
    was). *)
Record Outcome : Type := {
  tempDir : option string;
  saved : Saved;
  modifiedCommand : option string
}.

(** [dir] is [path.join(workingDir, '.tmp', 'images', Date.now().toString())]. *)
Definition process_images `{FsEnv} (dir : string) (command : string)
    (imgs : list string) : Outcome :=
  match imgs with
  | [] => {| tempDir := None; saved := no_saved; modifiedCommand := None |}
  | _ :: _ =>
      if mkdir_throws dir then
        {| tempDir := Some dir;
           saved := {| written := []; tempImagePaths := [];
                       errors := ["Error processing images for Claude:"] |};
           modifiedCommand := None |}
      else
        match save_images dir 0 imgs no_saved with
        | (true, s) =>
            {| tempDir := Some dir; saved := s;
               modifiedCommand :=
                 if negb (JS.is_empty (JS.trim command)) then
                   match tempImagePaths s with
                   | [] => None
                   | _ :: _ => Some (command +:+ imageNote (tempImagePaths s))
                   end
                 else None |}
        | (false, s) =>
            {| tempDir := Some dir;
               saved := {| written := written s;
                           tempImagePaths := tempImagePaths s;
                           errors := errors s ++ ["Error processing images for Claude:"] |};
               modifiedCommand := None |}
        end
  end.

(** The file the loop writes for the attachment [data] at position [index]
    when [writeFile] does not throw: its path and the base64 text that is
    decoded into it; [None] when the attachment is skipped. *)
Definition materialised `{FsEnv} (dir : string) (index : nat) (data : string)
    : option (string * string) :=
  match match_data_uri data with
  | Some (mimeType, base64Data) => Some (path_join dir (filename index mimeType), base64Data)
  | None => None
  end.

(** The files of the well-formed attachments of [imgs], in order, each
    named after the position of its attachment counted from [k]. *)
Definition files_from `{FsEnv} (dir : string) (k : nat) (imgs : list string)
    : list (string * string) :=
  omap id (imap (fun i data => materialised dir (k + i) data) imgs).

End Images.

(** ** Subprocess back end: [src/server/claude-cli.ts] *)

Module Cli.

(** An entry of [activeClaudeProcesses]. *)
Record ActiveProcess : Type := {
  process : Handle;
  entry_sessionId : string;
  ws : Ws
}.

(** The process-wide state and the trace of effects: the registry, the
    envelopes passed to [ws.send] with the socket they went to, the
    processes signalled with [kill], the [console.error] lines (message and
    argument) and the directories handed to [fs.rm]. *)
Record World (J : Type) : Type := {
  activeClaudeProcesses : gmap string ActiveProcess;
  sent : list (Ws * Envelope J);
  killed : list (Handle * string);
  console_error : list (string * string);
  removed : list string
}.

Arguments activeClaudeProcesses {J} w.
Arguments sent {J} w.
Arguments killed {J} w.
Arguments console_error {J} w.
Arguments removed {J} w.

(** How the promise returned by [spawnClaude] settled. *)
Inductive Settled : Type :=
| Resolved
| Rejected (reason : string).

(** The variables of one call of [spawnClaude] that its handlers share. *)
Record Closure : Type := {
  capturedSessionId : option string;
  sessionCreatedSent : bool;
  outputBuffer : string;
  errorBuffer : string;
  currentJsonBuffer : string;
  promise : option Settled
}.

(** One call of [spawnClaude]: its arguments, the child process it spawned
    and the scratch directory of its attachments. *)
Record Unit : Type := {
  command : string;
  options : ClaudeSpawnOptions;
  unit_ws : Ws;
  claudeProcess : Handle;
  unit_tempDir : option string
}.

(** What the child process does next, as Node reports it to the handlers. *)
Inductive Event : Type :=
| StdoutData (data : string)
| StderrData (data : string)
| Close (code : option Z)
| SpawnError (code : option string) (message : string).

Section Handlers.
Context {J : Type} `{JsonApi J}.

Definition ws_send (to : Ws) (e : Envelope J) (w : World J) : World J :=
  {| activeClaudeProcesses := activeClaudeProcesses w;
     sent := sent w ++ [(to, e)];
     killed := killed w;
     console_error := console_error w;
     removed := removed w |}.

Definition log_error (msg arg : string) (w : World J) : World J :=
  {| activeClaudeProcesses := activeClaudeProcesses w;
     sent := sent w;
     killed := killed w;
     console_error := console_error w ++ [(msg, arg)];
     removed := removed w |}.

Definition kill (p : Handle) (signal : string) (w : World J) : World J :=
  {| activeClaudeProcesses := activeClaudeProcesses w;
     sent := sent w;
     killed := killed w ++ [(p, signal)];
     console_error := console_error w;
     removed := removed w |}.

Definition fs_rm (dir : string) (w : World J) : World J :=
  {| activeClaudeProcesses := activeClaudeProcesses w;
     sent := sent w;
     killed := killed w;
     console_error := console_error w;
     removed := removed w ++ [dir] |}.

Definition with_registry (m : gmap string ActiveProcess) (w : World J) : World J :=
  {| activeClaudeProcesses := m;
     sent := sent w;
     killed := killed w;
     console_error := console_error w;
     removed := removed w |}.

Definition registry_set (k : string) (e : ActiveProcess) (w : World J) : World J :=
  with_registry (<[k := e]> (activeClaudeProcesses w)) w.

Definition registry_delete (k : string) (w : World J) : World J :=
  with_registry (delete k (activeClaudeProcesses w)) w.

Definition set_buffer (b : string) (c : Closure) : Closure :=
  {| capturedSessionId := capturedSessionId c;
     sessionCreatedSent := sessionCreatedSent c;
     outputBuffer := outputBuffer c;
     errorBuffer := errorBuffer c;
     currentJsonBuffer := b;
     promise := promise c |}.

Definition capture (sid : string) (c : Closure) : Closure :=
  {| capturedSessionId := Some sid;
     sessionCreatedSent := sessionCreatedSent c;
     outputBuffer := outputBuffer c;
     errorBuffer := errorBuffer c;
     currentJsonBuffer := currentJsonBuffer c;
     promise := promise c |}.

Definition mark_session_created (c : Closure) : Closure :=
  {| capturedSessionId := capturedSessionId c;
     sessionCreatedSent := true;
     outputBuffer := outputBuffer c;
     errorBuffer := errorBuffer c;
     currentJsonBuffer := currentJsonBuffer c;
     promise := promise c |}.

(** [resolve()] and [reject(...)]: only the first call settles the promise. *)
Definition settle (r : Settled) (c : Closure) : Closure :=
  {| capturedSessionId := capturedSessionId c;
     sessionCreatedSent := sessionCreatedSent c;
     outputBuffer := outputBuffer c;
     errorBuffer := errorBuffer c;
     currentJsonBuffer := currentJsonBuffer c;
     promise := match promise c with Some s => Some s | None => Some r end |}.

(** Lines 146-168: after [spawn], an entry registered under the caller's
    session id is killed and deleted; the closure starts with that id as
    [capturedSessionId]. *)
Definition spawn_registered (u : Unit) (w : World J) : Closure * World J :=
  let captured := sessionId (options u) in
  let w' :=
    match captured with
    | Some id =>
        if JS.truthy captured then
          match activeClaudeProcesses w !! id with
          | Some existing =>
              registry_delete id (kill (process existing) "SIGTERM" w)
          | None => w
          end
        else w
    | None => w
    end in
  ({| capturedSessionId := captured;
      sessionCreatedSent := false;
      outputBuffer := EmptyString;
      errorBuffer := EmptyString;
      currentJsonBuffer := EmptyString;
      promise := None |}, w').

(** Lines 189-222: the [try] block run on one complete, non-empty line. *)
Definition on_line (u : Unit) (line : string) (s : Closure * World J) : Closure * World J :=
  let '(c, w) := s in
  match JSON_parse line with
  | None => (c, log_error "Failed to parse Claude output line:" line w)
  | Some output =>
      if is_null output then
        (c, log_error "Failed to parse Claude output line:" line w)
      else
        let '(c1, w1) :=
          match session_id output with
          | Some sid =>
              if JS.truthy (Some sid) && negb (JS.truthy (capturedSessionId c)) then
                let c1 := capture sid c in
                let w1 :=
                  registry_set sid
                    {| process := claudeProcess u; entry_sessionId := sid; ws := unit_ws u |} w in
                if sessionCreatedSent c1 then (c1, w1)
                else (mark_session_created c1, ws_send (unit_ws u) (SessionCreated sid) w1)
              else (c, w)
          | None => (c, w)
          end in
        (c1, ws_send (unit_ws u) (ClaudeResponse output) w1)
  end.

(** Lines 178-223: the loop over [lines]. *)
Fixpoint on_lines (u : Unit) (lines : list string) (s : Closure * World J) : Closure * World J :=
  match lines with
  | [] => s
  | l :: rest =>
      let line := JS.trim l in
      let s' :=
        match rest with
        | [] =>
            if negb (JS.is_empty line) then (set_buffer line (fst s), snd s)
            else s
        | _ :: _ =>
            if JS.is_empty line then s else on_line u line s
        end in
      on_lines u rest s'
  end.

(** Lines 170-224: [claudeProcess.stdout.on('data', ...)], on the text of
    the chunk ([data.toString()]). *)
Definition stdout_on_data (u : Unit) (data : string) (s : Closure * World J) : Closure * World J :=
  let '(c, w) := s in
  let buffer := currentJsonBuffer c +:+ data in
  let c1 :=
    {| capturedSessionId := capturedSessionId c;
       sessionCreatedSent := sessionCreatedSent c;
       outputBuffer := outputBuffer c +:+ data;
       errorBuffer := errorBuffer c;
       currentJsonBuffer := EmptyString;
       promise := promise c |} in
  on_lines u (JS.split_lf buffer) (c1, w).

(** The framing done by that loop, on its own: the trimmed non-empty lines
    it hands to the [try] block, and the text it leaves in
    [currentJsonBuffer]. *)
Fixpoint frames (lines : list string) : list string * string :=
  match lines with
  | [] => ([], EmptyString)
  | l :: rest =>
      match rest with
      | [] => ([], JS.trim l)
      | _ :: _ =>
          let '(ls, b) := frames rest in
          (if JS.is_empty (JS.trim l) then ls else JS.trim l :: ls, b)
      end
  end.

(** The lines handed to the [try] block over a sequence of events, when
    [currentJsonBuffer] holds [buffer] at its start. *)
Fixpoint parsed_lines (buffer : string) (events : list Event) : list string :=
  match events with
  | [] => []
  | StdoutData data :: r =>
      let '(ls, b) := frames (JS.split_lf (buffer +:+ data)) in
      ls ++ parsed_lines b r
  | _ :: r => parsed_lines buffer r
  end.

(** The text after the last line feed of [s]: what the loop would carry
    if it did not trim. *)
Definition raw_tail (s : string) : string := List.last (JS.split_lf s) EmptyString.

(** The carried text [r] loses nothing when it is trimmed: it does not end
    with white space, or it is white space only. *)
Definition safe (r : string) : bool :=
  String.eqb (JS.trim_end r) r || JS.is_empty (JS.trim_end r).

(** Every boundary between two chunks is safe, when [r] is carried into
    the first chunk. *)
Fixpoint boundaries_safe (r : string) (chunks : list string) : bool :=
  match chunks with
  | [] => true
  | d :: ds =>
      match ds with
      | [] => true
      | _ :: _ => safe (raw_tail (r +:+ d)) && boundaries_safe (raw_tail (r +:+ d)) ds
      end
  end.

(** The line parses to a message whose [session_id] is truthy. *)
Definition carries_session_id (line : string) : bool :=
  match JSON_parse line with
  | Some output => negb (is_null output) && JS.truthy (session_id output)
  | None => false
  end.

Definition cli_not_found : string :=
  "Claude CLI not found. Please install it first: npm install -g @anthropic-ai/claude-cli".

(** Lines 226-243: [claudeProcess.stderr.on('data', ...)]. *)
Definition stderr_on_data (u : Unit) (data : string) (s : Closure * World J) : Closure * World J :=
  let '(c, w) := s in
  let c1 :=
    {| capturedSessionId := capturedSessionId c;
       sessionCreatedSent := sessionCreatedSent c;
       outputBuffer := outputBuffer c;
       errorBuffer := errorBuffer c +:+ data;
       currentJsonBuffer := currentJsonBuffer c;
       promise := promise c |} in
  let w1 := log_error "Claude stderr:" data w in
  if JS.includes "not found" data || JS.includes "command not found" data
  then (c1, ws_send (unit_ws u) (ErrorEnvelope cli_not_found) w1)
  else (c1, ws_send (unit_ws u) (ErrorEnvelope data) w1).

(** [!sessionId && !!command] *)
Definition isNewSession (u : Unit) : bool :=
  negb (JS.truthy (sessionId (options u))) && negb (JS.is_empty (command u)).

(** Lines 245-275: [claudeProcess.on('close', ...)]. *)
Definition on_close (u : Unit) (code : option Z) (s : Closure * World J) : Closure * World J :=
  let '(c, w) := s in
  let w1 := match unit_tempDir u with Some d => fs_rm d w | None => w end in
  let w2 :=
    match capturedSessionId c with
    | Some id => if JS.truthy (Some id) then registry_delete id w1 else w1
    | None => w1
    end in
  let w3 := ws_send (unit_ws u) (ClaudeComplete code (isNewSession u)) w2 in
  match code with
  | Some 0%Z => (settle Resolved c, w3)
  | Some n => (settle (Rejected ("Claude process exited with code " +:+ pretty n)) c, w3)
  | None => (settle (Rejected "Claude process exited with code null") c, w3)
  end.

(** Lines 277-304: [claudeProcess.on('error', ...)]. *)
Definition on_error (u : Unit) (code : option string) (message : string)
    (s : Closure * World J) : Closure * World J :=
  let '(c, w) := s in
  let w0 := log_error "Failed to start Claude process:" message w in
  let w1 := match unit_tempDir u with Some d => fs_rm d w0 | None => w0 end in
  let w2 :=
    match capturedSessionId c with
    | Some id => if JS.truthy (Some id) then registry_delete id w1 else w1
    | None => w1
    end in
  let w3 :=
    match code with
    | Some "ENOENT" => ws_send (unit_ws u) (ErrorEnvelope cli_not_found) w2
    | _ => ws_send (unit_ws u) (ErrorEnvelope message) w2
    end in
  (settle (Rejected message) c, w3).

Definition handle (u : Unit) (e : Event) (s : Closure * World J) : Closure * World J :=
  match e with
  | StdoutData data => stdout_on_data u data s
  | StderrData data => stderr_on_data u data s
  | Close code => on_close u code s
  | SpawnError code message => on_error u code message s
  end.

(** The handlers run on a sequence of events of the unit's process. *)
Definition run (u : Unit) (events : list Event) (s : Closure * World J) : Closure * World J :=
  fold_left (fun s e => handle u e s) events s.

(** Lines 315-324. *)
Definition abortClaudeSession (id : string) (w : World J) : bool * World J :=
  match activeClaudeProcesses w !! id with
  | Some p => (true, registry_delete id (kill (process p) "SIGTERM" w))
  | None => (false, w)
  end.

(** Lines 37-39 and 73-82: the argument that follows [--print], [None]
    when the flag is not passed. *)
Definition print_argument (command : string) (out : Images.Outcome) : option string :=
  if JS.is_empty (JS.trim command) then None
  else match Images.modifiedCommand out with
       | Some modified => Some modified
       | None => Some (JS.trim command)
       end.

(** [spawnClaude] from its call to the last event of the child process:
    attachments are materialised under [dir], the process [proc] is
    spawned, an entry under the caller's session id is killed, and the
    handlers run on the events the process produces for the given [--print]
    argument. *)
Definition spawnClaude `{Images.FsEnv} (dir : string) (cmd : string)
    (opts : ClaudeSpawnOptions) (to : Ws) (proc : Handle)
    (behaviour : option string -> list Event) (w : World J) : Closure * World J :=
  let out := Images.process_images dir cmd (images opts) in
  let u := {| command := cmd; options := opts; unit_ws := to;
              claudeProcess := proc; unit_tempDir := Images.tempDir out |} in
  run u (behaviour (print_argument cmd out)) (spawn_registered u w).

End Handlers.

Definition empty_world (J : Type) : World J :=
  {| activeClaudeProcesses := ∅; sent := []; killed := [];
     console_error := []; removed := [] |}.

End Cli.

(** ** SDK back end: [src/server/claude-sdk.ts] *)

Module Sdk.

(** An entry of [activeSessions]. *)
Record ActiveSession : Type := {
  query : Handle;
  entry_sessionId : string;
  ws : Ws;
  abortController : Handle
}.

Record SystemInfo : Type := {
  api_key_source : Json.value;
  info_cwd : Json.value;
  tools : Json.value;
  mcp_servers : Json.value;
  model : Json.value;
  permission_mode : Json.value
}.

(** The messages the query yields, by their [type] tag; a tag the [switch]
    has no case for is [OtherMessage]. *)
Inductive SDKMessage : Type :=
| SystemMessage (subtype : string) (sid : string) (info : SystemInfo)
| UserMessage (message : Json.value) (sid : string)
| AssistantMessage (message : Json.value) (sid : string)
| ResultMessage (subtype : string) (duration_ms total_cost_usd usage : Json.value)
    (result : option string)
| OtherMessage (type : string).

(** The [data] field of the [claude-response] envelopes of this file. *)
Inductive Data : Type :=
| SystemInit (sid : string) (system_info : SystemInfo)
| AssistantData (content : option Json.value) (message : Json.value) (sid : string)
| ResultData (subtype : string) (duration_ms total_cost_usd usage : Json.value)
    (result : option string).

(** How the asynchronous iteration ends: the query is exhausted, or the
    iteration throws an error with this [name] and [message]. *)
Inductive Ending : Type :=
| Done
| Throws (name message : string).

Record Stream : Type := {
  messages : list SDKMessage;
  ending : Ending
}.

(** What the call of [query] does: throw, or return a query that yields a
    stream. *)
Inductive Launch : Type :=
| QueryThrows (message : string)
| QueryReturns (claudeQuery : Handle) (stream : Stream).

(** [generateSessionId] reads the clock and a random number: the model
    takes the id it returns on its [n]-th call from the environment. *)
Class IdSource : Type := {
  generateSessionId : nat -> string
}.

(** The process-wide state and the trace of effects: the registry, the
    envelopes passed to [ws.send], the controllers on which [abort] was
    called, the [console.error] lines, the directories handed to [fs.rm]
    and the number of calls of [generateSessionId] so far. *)
Record World : Type := {
  activeSessions : gmap string ActiveSession;
  sent : list (Ws * Envelope Data);
  aborted : list Handle;
  console_error : list (string * string);
  removed : list string;
  generated : nat
}.

Definition empty_world : World :=
  {| activeSessions := ∅; sent := []; aborted := []; console_error := [];
     removed := []; generated := 0 |}.

(** The variables of one call of [startClaudeSession] changed by its loop. *)
Record Closure : Type := {
  capturedSessionId : string;
  sessionCreatedSent : bool;
  systemMessageSent : bool
}.

(** One call of [startClaudeSession]: its arguments, its abort controller
    and the scratch directory of its attachments. *)
Record Unit : Type := {
  command : string;
  options : ClaudeSpawnOptions;
  unit_ws : Ws;
  unit_abortController : Handle;
  unit_tempDir : option string
}.

Definition ws_send (to : Ws) (e : Envelope Data) (w : World) : World :=
  {| activeSessions := activeSessions w;
     sent := sent w ++ [(to, e)];
     aborted := aborted w;
     console_error := console_error w;
     removed := removed w;
     generated := generated w |}.

Definition log_error (msg arg : string) (w : World) : World :=
  {| activeSessions := activeSessions w;
     sent := sent w;
     aborted := aborted w;
     console_error := console_error w ++ [(msg, arg)];
     removed := removed w;
     generated := generated w |}.

Definition abort (controller : Handle) (w : World) : World :=
  {| activeSessions := activeSessions w;
     sent := sent w;
     aborted := aborted w ++ [controller];
     console_error := console_error w;
     removed := removed w;
     generated := generated w |}.

Definition fs_rm (dir : string) (w : World) : World :=
  {| activeSessions := activeSessions w;
     sent := sent w;
     aborted := aborted w;
     console_error := console_error w;
     removed := removed w ++ [dir];
     generated := generated w |}.

Definition with_registry (m : gmap string ActiveSession) (w : World) : World :=
  {| activeSessions := m;
     sent := sent w;
     aborted := aborted w;
     console_error := console_error w;
     removed := removed w;
     generated := generated w |}.

Definition registry_set (k : string) (e : ActiveSession) (w : World) : World :=
  with_registry (<[k := e]> (activeSessions w)) w.

Definition registry_delete (k : string) (w : World) : World :=
  with_registry (delete k (activeSessions w)) w.

Section Session.
Context `{IdSource}.

(** One call of [generateSessionId()]. *)
Definition fresh_id (w : World) : string * World :=
  (generateSessionId (generated w),
   {| activeSessions := activeSessions w;
      sent := sent w;
      aborted := aborted w;
      console_error := console_error w;
      removed := removed w;
      generated := S (generated w) |}).

(** [sessionId || generateSessionId()] (lines 18 and 152). *)
Definition sessionId_or_generated (opts : ClaudeSpawnOptions) (w : World) : string * World :=
  match sessionId opts with
  | Some id => if JS.truthy (Some id) then (id, w) else fresh_id w
  | None => fresh_id w
  end.

(** Lines 75-83. *)
Definition abort_existing (captured : string) (w : World) : World :=
  match activeSessions w !! captured with
  | Some existing => registry_delete captured (abort (abortController existing) w)
  | None => w
  end.

Definition entry (u : Unit) (claudeQuery : Handle) (sid : string) : ActiveSession :=
  {| query := claudeQuery; entry_sessionId := sid; ws := unit_ws u;
     abortController := unit_abortController u |}.

(** Lines 130-136. *)
Definition register (u : Unit) (claudeQuery : Handle) (captured : string) (w : World) : World :=
  registry_set captured (entry u claudeQuery captured) w.

(** Lines 141-234: the body of the [for await] loop. *)
Definition on_message (u : Unit) (claudeQuery : Handle) (m : SDKMessage)
    (s : Closure * World) : Closure * World :=
  let '(c, w) := s in
  match m with
  | SystemMessage subtype sid info =>
      if String.eqb subtype "init" then
        let '(oldSessionId, w1) := sessionId_or_generated (options u) w in
        let w2 :=
          if String.eqb oldSessionId sid then w1
          else registry_set sid (entry u claudeQuery sid) (registry_delete oldSessionId w1) in
        let w3 :=
          if sessionCreatedSent c then w2
          else ws_send (unit_ws u) (SessionCreated sid) w2 in
        ({| capturedSessionId := sid; sessionCreatedSent := true; systemMessageSent := true |},
         ws_send (unit_ws u) (ClaudeResponse (SystemInit sid info)) w3)
      else s
  | UserMessage _ _ => s
  | AssistantMessage message sid =>
      (c, ws_send (unit_ws u)
            (ClaudeResponse (AssistantData (Json.get "content" message) message sid)) w)
  | ResultMessage subtype duration_ms total_cost_usd usage result =>
      (c, ws_send (unit_ws u)
            (ClaudeResponse
               (ResultData subtype duration_ms total_cost_usd usage
                  (if JS.truthy result then result else None))) w)
  | OtherMessage _ => s
  end.

(** Lines 236-246: the [catch] of the loop. *)
Definition on_ending (u : Unit) (e : Ending) (w : World) : World :=
  match e with
  | Done => w
  | Throws name message =>
      if String.eqb name "AbortError" then w
      else ws_send (unit_ws u) (ErrorEnvelope message)
             (log_error "Error during Claude session:" message w)
  end.

(** [!sessionId && !!command] *)
Definition isNewSession (u : Unit) : bool :=
  negb (JS.truthy (sessionId (options u))) && negb (JS.is_empty (command u)).

(** Lines 248-266: what follows the loop. *)
Definition finish (u : Unit) (c : Closure) (w : World) : World :=
  let w1 := match unit_tempDir u with Some d => fs_rm d w | None => w end in
  let w2 := registry_delete (capturedSessionId c) w1 in
  ws_send (unit_ws u) (ClaudeComplete (Some 0%Z) (isNewSession u)) w2.

(** Lines 268-284: the outer [catch]. *)
Definition on_launch_failure (u : Unit) (captured : string) (message : string) (w : World) : World :=
  let w0 := log_error "Failed to start Claude session:" message w in
  let w1 := registry_delete captured w0 in
  let w2 := match unit_tempDir u with Some d => fs_rm d w1 | None => w1 end in
  ws_send (unit_ws u)
    (ErrorEnvelope (if JS.is_empty message then "Failed to start Claude session" else message)) w2.

(** The loop and what follows it, from the registration of the query on. *)
Definition run (u : Unit) (claudeQuery : Handle) (captured : string) (stream : Stream)
    (w : World) : World :=
  let '(c, w1) :=
    fold_left (fun s m => on_message u claudeQuery m s) (messages stream)
      ({| capturedSessionId := captured; sessionCreatedSent := false;
          systemMessageSent := false |}, register u claudeQuery captured w) in
  finish u c (on_ending u (ending stream) w1).

(** [startClaudeSession] once its attachments are materialised. *)
Definition start (u : Unit) (launch : Launch) (w : World) : World :=
  let '(captured, w0) := sessionId_or_generated (options u) w in
  let w1 := abort_existing captured w0 in
  match launch with
  | QueryThrows message => on_launch_failure u captured message w1
  | QueryReturns claudeQuery stream => run u claudeQuery captured stream w1
  end.

(** Lines 33 and 63-66: [enhancedPrompt]. *)
Definition enhancedPrompt (cmd : string) (out : Images.Outcome) : string :=
  match Images.modifiedCommand out with
  | Some modified => modified
  | None => cmd
  end.

(** [startClaudeSession]: attachments are materialised under [dir], then
    the query is created on the enhanced prompt; [behaviour] is what
    [query] does for a prompt. *)
Definition startClaudeSession `{Images.FsEnv} (dir : string) (cmd : string)
    (opts : ClaudeSpawnOptions) (to : Ws) (controller : Handle)
    (behaviour : string -> Launch) (w : World) : World :=
  let out := Images.process_images dir cmd (images opts) in
  let u := {| command := cmd; options := opts; unit_ws := to;
              unit_abortController := controller;
              unit_tempDir := Images.tempDir out |} in
  start u (behaviour (enhancedPrompt cmd out)) w.

(** Lines 287-296. *)
Definition abortClaudeSession (id : string) (w : World) : bool * World :=
  match activeSessions w !! id with
  | Some session => (true, registry_delete id (abort (abortController session) w))
  | None => (false, w)
  end.

End Session.

End Sdk.

(** ** Measures and invariants used in the statements *)

(** Number of [session-created] and of [claude-complete] envelopes in the
    trace of a world. *)
Definition cli_created {J : Type} (w : Cli.World J) : nat :=
  count is_session_created (map snd (Cli.sent w)).

Definition cli_completed {J : Type} (w : Cli.World J) : nat :=
  count is_claude_complete (map snd (Cli.sent w)).

(** The latch is only set once an id is captured. *)
Definition cli_latched (c : Cli.Closure) : Prop :=
  Cli.sessionCreatedSent c = true -> JS.truthy (Cli.capturedSessionId c) = true.

(** Two closures with the same captured id and the same latch. *)
Definition same_core (c c' : Cli.Closure) : Prop :=
  Cli.capturedSessionId c = Cli.capturedSessionId c' /\
  Cli.sessionCreatedSent c = Cli.sessionCreatedSent c'.

(** Number of [close] events in a sequence. *)
Fixpoint closes (events : list Cli.Event) : nat :=
  match events with
  | [] => 0
  | Cli.Close _ :: r => S (closes r)
  | _ :: r => closes r
  end.

(** Number of [session-created] and of [claude-complete] envelopes in the
    trace of an SDK world. *)
Definition sdk_created (w : Sdk.World) : nat :=
  count is_session_created (map snd (Sdk.sent w)).

Definition sdk_completed (w : Sdk.World) : nat :=
  count is_claude_complete (map snd (Sdk.sent w)).

(** The message is a [system] message of subtype [init]. *)
Definition is_init (m : Sdk.SDKMessage) : bool :=
  match m with
  | Sdk.SystemMessage subtype _ _ => String.eqb subtype "init"
  | _ => false
  end.

(** Every system-init message of the list reports the session id [sid]. *)
Definition reports (sid : string) (ms : list Sdk.SDKMessage) : Prop :=
  Forall (fun m => match m with
                   | Sdk.SystemMessage subtype sid' _ =>
                       String.eqb subtype "init" = true -> sid' = sid
                   | _ => True
                   end) ms.

(** The registry during the loop of a unit started with the session id [X]
    over the registry [R]: the query is registered under [X] until the
    first system-init message, and under the reported id after it. *)
Definition rekeyed (u : Sdk.Unit) (q : Handle) (X sid : string) (R : gmap string Sdk.ActiveSession)
    (seen : bool) (s : Sdk.Closure * Sdk.World) : Prop :=
  if seen then
    Sdk.capturedSessionId (fst s) = sid /\
    Sdk.activeSessions (snd s) = <[sid := Sdk.entry u q sid]> (delete X R)
  else
    Sdk.capturedSessionId (fst s) = X /\
    Sdk.activeSessions (snd s) = <[X := Sdk.entry u q X]> R.

(** ** Concrete environments and inputs, to run the model *)

Module Samples.

(** Ids shaped like those of [generateSessionId]: [temp-<clock>-<random>]. *)
#[export] Instance temp_ids : Sdk.IdSource := {
  Sdk.generateSessionId := fun n =>
    "temp-" +:+ pretty (1700000000000 + N.of_nat n)%N +:+ "-k3j9x2m1q"
}.

(** A file system on which nothing fails; [path.join] of a directory and
    a file name without separators. *)
#[export] Instance posix_fs : Images.FsEnv := {
  Images.path_join := fun dir name => dir +:+ "/" +:+ name;
  Images.mkdir_throws := fun _ => false;
  Images.writeFile_throws := fun _ => false
}.

(** Options of a new session: no session id, no attachment. *)
Definition new_session : ClaudeSpawnOptions :=
  {| sessionId := None; projectPath := None; cwd := Some "/home/me/project";
     resume := false; toolsSettings := None; permissionMode := None; images := [] |}.

(** Options of a resumed session. *)
Definition resumed (id : string) : ClaudeSpawnOptions :=
  {| sessionId := Some id; projectPath := None; cwd := Some "/home/me/project";
     resume := true; toolsSettings := None; permissionMode := None; images := [] |}.

Definition with_images (imgs : list string) : ClaudeSpawnOptions :=
  {| sessionId := None; projectPath := None; cwd := Some "/home/me/project";
     resume := false; toolsSettings := None; permissionMode := None; images := imgs |}.

Definition cli_unit (opts : ClaudeSpawnOptions) : Cli.Unit :=
  {| Cli.command := "list files"; Cli.options := opts; Cli.unit_ws := 1;
     Cli.claudeProcess := 100; Cli.unit_tempDir := None |}.

Definition sdk_unit (opts : ClaudeSpawnOptions) : Sdk.Unit :=
  {| Sdk.command := "list files"; Sdk.options := opts; Sdk.unit_ws := 1;
     Sdk.unit_abortController := 200; Sdk.unit_tempDir := None |}.

Definition info : Sdk.SystemInfo :=
  {| Sdk.api_key_source := Json.Str "user"; Sdk.info_cwd := Json.Str "/home/me/project";
     Sdk.tools := Json.Arr []; Sdk.mcp_servers := Json.Arr [];
     Sdk.model := Json.Str "claude"; Sdk.permission_mode := Json.Str "default" |}.

(** The envelopes of a trace, without their sockets. *)
Definition envelopes {D : Type} (l : list (Ws * Envelope D)) : list (Envelope D) := map snd l.

(** The subprocess handlers run on [events] for a unit spawned in the
    empty world. *)
Definition cli_run (opts : ClaudeSpawnOptions) (events : list Cli.Event)
    : Cli.Closure * Cli.World Json.value :=
  Cli.run (cli_unit opts) events
    (Cli.spawn_registered (cli_unit opts) (Cli.empty_world Json.value)).

(** One line of output: an assistant message whose text has a space. *)
Definition hello_line : string :=
  Json.dq "{'type':'assistant','text':'hello world'}" +:+ JS.NL.

(** The same bytes in two chunks, the first ending after the space. *)
Definition hello_chunks : list string :=
  [Json.dq "{'type':'assistant','text':'hello "; Json.dq "world'}" +:+ JS.NL].

(** The unit echoing the caller's prompt. *)
Definition user_line : string :=
  Json.dq "{'type':'user','message':{'role':'user','content':'list files'},'session_id':'abc'}"
  +:+ JS.NL.

Definition user_message : Json.value :=
  Json.Obj [("type", Json.Str "user");
            ("message", Json.Obj [("role", Json.Str "user"); ("content", Json.Str "list files")]);
            ("session_id", Json.Str "abc")].

(** Three attachments: a PNG, a data URI without the base64 marker, a JPEG. *)
Definition three_images : list string :=
  ["data:image/png;base64,iVBORw0KGgo="; "data:image/png,iVBORw0KGgo=";
   "data:image/jpeg;base64,/9j/4AAQSkZJRg=="].

Definition images_dir : string := "/home/me/project/.tmp/images/1700000000000".

(** An entry of each registry under the id [session-1]. *)
Definition cli_entry : Cli.ActiveProcess :=
  {| Cli.process := 7; Cli.entry_sessionId := "session-1"; Cli.ws := 3 |}.

Definition cli_world_1 : Cli.World Json.value :=
  Cli.registry_set "session-1" cli_entry (Cli.empty_world Json.value).

Definition sdk_entry : Sdk.ActiveSession :=
  {| Sdk.query := 8; Sdk.entry_sessionId := "session-1"; Sdk.ws := 3;
     Sdk.abortController := 9 |}.

Definition sdk_world_1 : Sdk.World :=
  Sdk.registry_set "session-1" sdk_entry Sdk.empty_world.

End Samples.


(** ** Further parts of the two files *)

(** What the [try] block relays for a line: the parsed value, unless the
    line does not parse or parses to [null]. *)
Definition relayed {J : Type} `{JsonApi J} (line : string) : option J :=
  match JSON_parse line with
  | Some output => if is_null output then None else Some output
  | None => None
  end.

(** The first [close] or [error] event of a sequence settles the promise
    of [spawnClaude] (lines 270-274 and 303). *)
Fixpoint settlement (events : list Cli.Event) : option Cli.Settled :=
  match events with
  | [] => None
  | Cli.Close (Some 0%Z) :: _ => Some Cli.Resolved
  | Cli.Close (Some n) :: _ =>
      Some (Cli.Rejected ("Claude process exited with code " +:+ pretty n))
  | Cli.Close None :: _ => Some (Cli.Rejected "Claude process exited with code null")
  | Cli.SpawnError _ message :: _ => Some (Cli.Rejected message)
  | _ :: r => settlement r
  end.

(** Number of [close] and [error] events in a sequence. *)
Fixpoint closes_and_errors (events : list Cli.Event) : nat :=
  match events with
  | [] => 0
  | Cli.Close _ :: r => S (closes_and_errors r)
  | Cli.SpawnError _ _ :: r => S (closes_and_errors r)
  | _ :: r => closes_and_errors r
  end.

(** The [data] of the [claude-response] the SDK loop sends for a message,
    [None] for the messages it sends none for. *)
Definition response (m : Sdk.SDKMessage) : option Sdk.Data :=
  match m with
  | Sdk.SystemMessage subtype sid info =>
      if String.eqb subtype "init" then Some (Sdk.SystemInit sid info) else None
  | Sdk.UserMessage _ _ => None
  | Sdk.AssistantMessage message sid =>
      Some (Sdk.AssistantData (Json.get "content" message) message sid)
  | Sdk.ResultMessage subtype duration_ms total_cost_usd usage result =>
      Some (Sdk.ResultData subtype duration_ms total_cost_usd usage
              (if JS.truthy result then result else None))
  | Sdk.OtherMessage _ => None
  end.

(** The envelopes the [catch] of the SDK loop adds for an ending. *)
Definition ending_envelopes (to : Ws) (e : Sdk.Ending) : list (Ws * Envelope Sdk.Data) :=
  match e with
  | Sdk.Done => []
  | Sdk.Throws name message =>
      if String.eqb name "AbortError" then [] else [(to, ErrorEnvelope message)]
  end.

(** The chunk ends with a line feed. *)
Definition ends_with_lf (d : string) : Prop := exists d', d = d' +:+ JS.NL.

(** The entry a subprocess unit sets for itself under the id [k]. *)
Definition own_entry (u : Cli.Unit) (k : string) : Cli.ActiveProcess :=
  {| Cli.process := Cli.claudeProcess u; Cli.entry_sessionId := k; Cli.ws := Cli.unit_ws u |}.

(** From [w] to [w'] no process was signalled, and every id of the registry
    holds what it held, the unit's own entry, or nothing. *)
Definition only_own {J : Type} (u : Cli.Unit) (w w' : Cli.World J) : Prop :=
  Cli.killed w' = Cli.killed w /\
  forall k,
    Cli.activeClaudeProcesses w' !! k = Cli.activeClaudeProcesses w !! k \/
    Cli.activeClaudeProcesses w' !! k = Some (own_entry u k) \/
    Cli.activeClaudeProcesses w' !! k = None.

(** The state of the SDK loop after the messages [ms]: the unit is
    registered under [captured] and the body of the loop is run on each
    message (lines 130-235). *)
Definition sdk_loop `{Sdk.IdSource} (u : Sdk.Unit) (q : Handle) (captured : string)
    (ms : list Sdk.SDKMessage) (w : Sdk.World) : Sdk.Closure * Sdk.World :=
  fold_left (fun s m => Sdk.on_message u q m s) ms
    ({| Sdk.capturedSessionId := captured; Sdk.sessionCreatedSent := false;
        Sdk.systemMessageSent := false |}, Sdk.register u q captured w).

(** The directories a call hands to [fs.rm]: its scratch directory, if any. *)
Definition cleanup (tempDir : option string) : list string :=
  match tempDir with
  | Some d => [d]
  | None => []
  end.

(** While the unit holds the captured id of [c]: the id announced by the
    envelope, if it is a [session-created], is the captured one and the
    unit is registered under it. *)
Definition announced {J : Type} (u : Cli.Unit) (c : Cli.Closure) (w : Cli.World J)
    (p : Ws * Envelope J) : Prop :=
  match snd p with
  | SessionCreated sid =>
      Cli.capturedSessionId c = Some sid /\ JS.truthy (Some sid) = true /\
      Cli.activeClaudeProcesses w !! sid = Some (own_entry u sid)
  | _ => True
  end.

(** The envelope, if it is a [session-created], announces an id under which
    [abortClaudeSession] finds the unit and signals its process. *)
Definition abortable {J : Type} `{JsonApi J} (u : Cli.Unit) (w : Cli.World J)
    (p : Ws * Envelope J) : Prop :=
  match snd p with
  | SessionCreated sid =>
      fst (Cli.abortClaudeSession sid w) = true /\
      Cli.killed (snd (Cli.abortClaudeSession sid w)) =
        Cli.killed w ++ [(Cli.claudeProcess u, "SIGTERM")]
  | _ => True
  end.

(** The state of a call of [startClaudeSession] whose query [q] was created,
    once the stream has yielded the messages [ms] and before it ends. *)
Definition sdk_during `{Sdk.IdSource} (u : Sdk.Unit) (q : Handle)
    (ms : list Sdk.SDKMessage) (w : Sdk.World) : Sdk.Closure * Sdk.World :=
  let '(captured, w0) := Sdk.sessionId_or_generated (Sdk.options u) w in
  sdk_loop u q captured ms (Sdk.abort_existing captured w0).

(** The unit is filed under [sid] once a system-init message was seen, and
    from the start when [sid] is the caller's id. *)
Definition sdk_filed (u : Sdk.Unit) (q : Handle) (sid : string) (seen : bool)
    (s : Sdk.Closure * Sdk.World) : Prop :=
  (seen = true ->
   Sdk.capturedSessionId (fst s) = sid /\
   Sdk.activeSessions (snd s) !! sid = Some (Sdk.entry u q sid)) /\
  (sessionId (Sdk.options u) = Some sid -> JS.truthy (Some sid) = true ->
   Sdk.activeSessions (snd s) !! sid = Some (Sdk.entry u q sid)).

(** ** The launch parameters

    What the two files hand to Claude: the argument list of
    [spawn('claude', args, ...)] (claude-cli.ts, lines 33-39 and 89-141)
    and the [Options] of [query] (claude-sdk.ts, lines 86-116).  [config]
    is the value [JSON.parse] returns for the text of [~/.claude.json],
    [None] when the file does not exist, cannot be read or does not parse:
    in each of these cases the [try] block adds nothing. *)

Module Spawn.

(** [toolsSettings || { allowedTools: [], disallowedTools: [], skipPermissions: false }] *)
Definition settings (opts : ClaudeSpawnOptions) : ToolSettings :=
  match toolsSettings opts with
  | Some s => s
  | None => {| allowedTools := []; disallowedTools := []; skipPermissions := false |}
  end.

(** [cwd || process.cwd()] *)
Definition workingDir (process_cwd : string) (opts : ClaudeSpawnOptions) : string :=
  match cwd opts with
  | Some d => if JS.truthy (Some d) then d else process_cwd
  | None => process_cwd
  end.

(** [v && Object.keys(v).length > 0] on a parsed value: a non-empty object,
    array or string. *)
Definition has_keys (v : Json.value) : bool :=
  match v with
  | Json.Obj (_ :: _) => true
  | Json.Arr (_ :: _) => true
  | Json.Str (String _ _) => true
  | _ => false
  end.

(** [config['mcp-servers']] when the test of lines 115 (109 in the SDK
    file) passes. *)
Definition mcp_servers (config : option Json.value) : option Json.value :=
  match config with
  | Some c =>
      match Json.get "mcp-servers" c with
      | Some servers => if has_keys servers then Some servers else None
      | None => None
      end
  | None => None
  end.

(** [args], one [push] after the other; [print] is the argument of
    [--print] after the attachments were handled. *)
Definition args (print : option string) (opts : ClaudeSpawnOptions)
    (claudeConfigPath : string) (config : option Json.value) : list string :=
  let args := match print with
              | Some p => ["--print"; p]
              | None => []
              end in
  let args := match sessionId opts with
              | Some id =>
                  if resume opts && JS.truthy (Some id) then args ++ ["--resume"; id] else args
              | None => args
              end in
  let args := args ++ ["--output-format"; "stream-json"; "--verbose"] in
  let args := match mcp_servers config with
              | Some _ => args ++ ["--config"; claudeConfigPath]
              | None => args
              end in
  let args := match permissionMode opts with
              | Some (String _ _ as mode) => args ++ ["--permission-mode"; mode]
              | _ => if skipPermissions (settings opts)
                     then args ++ ["--permission-mode"; "allow"] else args
              end in
  let args := match allowedTools (settings opts) with
              | [] => args
              | _ :: _ => args ++ ["--allowed-tools"; JS.join "," (allowedTools (settings opts))]
              end in
  match disallowedTools (settings opts) with
  | [] => args
  | _ :: _ => args ++ ["--disallowed-tools"; JS.join "," (disallowedTools (settings opts))]
  end.

(** Lines 306-311: [stdin] is closed when a command is given. *)
Definition stdin_ended (command : string) : bool :=
  negb (JS.is_empty (JS.trim command)).

(** The fields of [sdkOptions] that are data; the record also holds the
    abort controller and the [stderr] callback. *)
Record Options : Type := {
  opt_cwd : string;
  opt_permissionMode : string;
  opt_allowedTools : list string;
  opt_disallowedTools : list string;
  opt_continue : bool;
  opt_resume : option string;
  opt_mcpServers : option Json.value
}.

Definition sdkOptions (process_cwd : string) (opts : ClaudeSpawnOptions)
    (config : option Json.value) : Options :=
  {| opt_cwd := workingDir process_cwd opts;
     opt_permissionMode :=
       match permissionMode opts with
       | Some (String _ _ as mode) => mode
       | _ => if skipPermissions (settings opts) then "bypassPermissions" else "default"
       end;
     opt_allowedTools := allowedTools (settings opts);
     opt_disallowedTools := disallowedTools (settings opts);
     opt_continue := false;
     opt_resume :=
       match sessionId opts with
       | Some id => if resume opts && JS.truthy (Some id) then Some id else None
       | None => None
       end;
     opt_mcpServers := mcp_servers config |}.

End Spawn.

(** The envelope, if it is a [session-created], announces an id under which
    [abortClaudeSession] finds nothing. *)
Definition unregistered {J : Type} `{JsonApi J} (w : Cli.World J)
    (p : Ws * Envelope J) : Prop :=
  match snd p with
  | SessionCreated sid => Cli.abortClaudeSession sid w = (false, w)
  | _ => True
  end.

(** The complete lines of an output: the pieces of [output.split('\n')]
    but the last, each trimmed, without the blank ones. *)
Definition complete_lines (output : string) : list string :=
  filter (fun l => JS.is_empty l = false) (map JS.trim (removelast (JS.split_lf output))).

(** ** The SDK call with the child's stderr

    [sdkOptions.stderr] (claude-sdk.ts, lines 95-101) is handed to [query]:
    the SDK calls it with each chunk the child writes on stderr.  Nothing
    uninstalls it, so a chunk can come wherever the call waits: between
    the messages of the stream, while the scratch directory is removed
    (line 251), and after the call has returned. *)

Module SdkCall.

(** What the query does while the loop runs: it yields a message, or the
    SDK calls the [stderr] callback. *)
Inductive Event : Type :=
| Yields (m : Sdk.SDKMessage)
| Stderr (data : string).

(** Lines 95-101: the [stderr] callback. *)
Definition stderr (u : Sdk.Unit) (data : string) (w : Sdk.World) : Sdk.World :=
  Sdk.ws_send (Sdk.unit_ws u) (ErrorEnvelope data) (Sdk.log_error "Claude stderr:" data w).

Definition stderr_all (u : Sdk.Unit) (chunks : list string) (w : Sdk.World) : Sdk.World :=
  fold_left (fun w data => stderr u data w) chunks w.

(** One query: the events of the loop, how the iteration ends, the chunks
    of stderr that come while [fs.rm] is awaited and those that come after
    the call has returned. *)
Record Course : Type := {
  events : list Event;
  ending : Sdk.Ending;
  during_cleanup : list string;
  late : list string
}.

Section Call.
Context `{Sdk.IdSource}.

Definition handle (u : Sdk.Unit) (q : Handle) (e : Event)
    (s : Sdk.Closure * Sdk.World) : Sdk.Closure * Sdk.World :=
  match e with
  | Yields m => Sdk.on_message u q m s
  | Stderr data => (fst s, stderr u data (snd s))
  end.

(** Lines 130-266, from the registration of the query on. *)
Definition run (u : Sdk.Unit) (q : Handle) (captured : string) (k : Course)
    (w : Sdk.World) : Sdk.World :=
  let '(c, w1) :=
    fold_left (fun s e => handle u q e s) (events k)
      ({| Sdk.capturedSessionId := captured; Sdk.sessionCreatedSent := false;
          Sdk.systemMessageSent := false |}, Sdk.register u q captured w) in
  let w2 := Sdk.on_ending u (ending k) w1 in
  let w3 := match Sdk.unit_tempDir u with
            | Some d => stderr_all u (during_cleanup k) (Sdk.fs_rm d w2)
            | None => w2
            end in
  let w4 := Sdk.registry_delete (Sdk.capturedSessionId c) w3 in
  let w5 := Sdk.ws_send (Sdk.unit_ws u) (ClaudeComplete (Some 0%Z) (Sdk.isNewSession u)) w4 in
  stderr_all u (late k) w5.

(** [startClaudeSession] when [query] returns [q]. *)
Definition start (u : Sdk.Unit) (q : Handle) (k : Course) (w : Sdk.World) : Sdk.World :=
  let '(captured, w0) := Sdk.sessionId_or_generated (Sdk.options u) w in
  run u q captured k (Sdk.abort_existing captured w0).

End Call.

(** The envelope an event of the loop is relayed as, if any. *)
Definition relay (to : Ws) (e : Event) : option (Ws * Envelope Sdk.Data) :=
  match e with
  | Yields m =>
      match response m with
      | Some d => Some (to, ClaudeResponse d)
      | None => None
      end
  | Stderr data => Some (to, ErrorEnvelope data)
  end.

Definition errors (to : Ws) (chunks : list string) : list (Ws * Envelope Sdk.Data) :=
  map (fun data => (to, ErrorEnvelope data)) chunks.

(** A query whose child writes nothing on stderr. *)
Definition quiet (stream : Sdk.Stream) : Course :=
  {| events := map Yields (Sdk.messages stream); ending := Sdk.ending stream;
     during_cleanup := []; late := [] |}.

End SdkCall.

(** ** Further sample data *)

Module Cases.
Import Samples.

(** A line cut inside its first key, away from any white space. *)
Definition cut_chunks : list string :=
  [Json.dq "{'type':'assis"; Json.dq "tant','text':'hello world'}" +:+ JS.NL; user_line].

(** The closure of a unit that holds the beginning of a line. *)
Definition holding (buffer : string) : Cli.Closure :=
  {| Cli.capturedSessionId := None; Cli.sessionCreatedSent := false;
     Cli.outputBuffer := buffer; Cli.errorBuffer := EmptyString;
     Cli.currentJsonBuffer := buffer; Cli.promise := None |}.

(** A stream that reports the id [real-id] and answers. *)
Definition real_id_messages : list Sdk.SDKMessage :=
  [Sdk.SystemMessage "init" "real-id" info;
   Sdk.AssistantMessage (Json.Obj [("content", Json.Str "done")]) "real-id"].

(** A second request for the session [session-1], made while the process
    of [cli_unit (resumed "session-1")] runs. *)
Definition second_unit : Cli.Unit :=
  {| Cli.command := "run the tests"; Cli.options := resumed "session-1"; Cli.unit_ws := 2;
     Cli.claudeProcess := 101; Cli.unit_tempDir := None |}.

Definition init_line : string :=
  Json.dq "{'type':'system','subtype':'init','session_id':'session-1'}" +:+ JS.NL.

Definition answer_line : string :=
  Json.dq "{'type':'assistant','text':'done','session_id':'session-1'}" +:+ JS.NL.

(** The first unit for [session-1]: spawned in the empty world, its
    process has written its first line and runs. *)
Definition first_running : Cli.Closure * Cli.World Json.value :=
  cli_run (resumed "session-1") [Cli.StdoutData init_line].

(** The second request arrives. *)
Definition second_spawned : Cli.Closure * Cli.World Json.value :=
  Cli.spawn_registered second_unit (snd first_running).

End Cases.

(** * Properties *)

(** ** The two registries *)

Section Registry.
Context {J : Type} `{JsonApi J}.

Lemma cli_abort_unregistered (id : string) (w : Cli.World J) :
  Cli.activeClaudeProcesses w !! id = None ->
  Cli.abortClaudeSession id w = (false, w).
Proof. intros Hnone. unfold Cli.abortClaudeSession. by rewrite Hnone. Qed.

Lemma cli_abort_registered (id : string) (p : Cli.ActiveProcess) (w : Cli.World J) :
  Cli.activeClaudeProcesses w !! id = Some p ->
  Cli.abortClaudeSession id w =
    (true, Cli.registry_delete id (Cli.kill (Cli.process p) "SIGTERM" w)).
Proof. intros Hsome. unfold Cli.abortClaudeSession. by rewrite Hsome. Qed.

Lemma sdk_abort_unregistered (id : string) (w : Sdk.World) :
  Sdk.activeSessions w !! id = None ->
  Sdk.abortClaudeSession id w = (false, w).
Proof. intros Hnone. unfold Sdk.abortClaudeSession. by rewrite Hnone. Qed.

Lemma sdk_abort_registered (id : string) (e : Sdk.ActiveSession) (w : Sdk.World) :
  Sdk.activeSessions w !! id = Some e ->
  Sdk.abortClaudeSession id w =
    (true, Sdk.registry_delete id (Sdk.abort (Sdk.abortController e) w)).
Proof. intros Hsome. unfold Sdk.abortClaudeSession. by rewrite Hsome. Qed.

(** C6.  [abortClaudeSession(id)], in both files: when the registry has no
    entry under [id] it returns [false] and the world (registry and every
    trace) is the one it was called in; when the registry has an entry it
    returns [true], the entry's process is sent [SIGTERM] (subprocess) or
    its controller is aborted (SDK), that is the only signal added, the
    entry under [id] is gone, every other entry is kept and nothing is sent
    on any channel. *)
Theorem abortClaudeSession_contract (id : string) (cw : Cli.World J) (sw : Sdk.World) :
  (Cli.activeClaudeProcesses cw !! id = None ->
     Cli.abortClaudeSession id cw = (false, cw)) /\
  (forall p, Cli.activeClaudeProcesses cw !! id = Some p ->
     exists cw',
       Cli.abortClaudeSession id cw = (true, cw') /\
       Cli.killed cw' = Cli.killed cw ++ [(Cli.process p, "SIGTERM")] /\
       Cli.activeClaudeProcesses cw' = delete id (Cli.activeClaudeProcesses cw) /\
       Cli.activeClaudeProcesses cw' !! id = None /\
       Cli.sent cw' = Cli.sent cw) /\
  (Sdk.activeSessions sw !! id = None ->
     Sdk.abortClaudeSession id sw = (false, sw)) /\
  (forall e, Sdk.activeSessions sw !! id = Some e ->
     exists sw',
       Sdk.abortClaudeSession id sw = (true, sw') /\
       Sdk.aborted sw' = Sdk.aborted sw ++ [Sdk.abortController e] /\
       Sdk.activeSessions sw' = delete id (Sdk.activeSessions sw) /\
       Sdk.activeSessions sw' !! id = None /\
       Sdk.sent sw' = Sdk.sent sw).
Proof.
  split; [apply cli_abort_unregistered |].
  split.
  { intros p Hp. eexists. split; [by apply cli_abort_registered |].
    cbn. repeat split; try done. apply lookup_delete_eq. }
  split; [apply sdk_abort_unregistered |].
  intros e He. eexists. split; [by apply sdk_abort_registered |].
  cbn. repeat split; try done. apply lookup_delete_eq.
Qed.

End Registry.

(** ** Starting a unit for a session id that is already registered *)

Section Restart.
Context {J : Type} `{JsonApi J} `{Sdk.IdSource}.

Lemma sdk_sessionId_supplied (opts : ClaudeSpawnOptions) (X : string) (w : Sdk.World) :
  sessionId opts = Some X -> JS.truthy (Some X) = true ->
  Sdk.sessionId_or_generated opts w = (X, w).
Proof.
  intros Hid Htruthy. unfold Sdk.sessionId_or_generated. by rewrite Hid, Htruthy.
Qed.

Lemma cli_spawn_kills_registered (u : Cli.Unit) (X : string) (existing : Cli.ActiveProcess)
    (w : Cli.World J) :
  sessionId (Cli.options u) = Some X -> JS.truthy (Some X) = true ->
  Cli.activeClaudeProcesses w !! X = Some existing ->
  snd (Cli.spawn_registered u w) =
    Cli.registry_delete X (Cli.kill (Cli.process existing) "SIGTERM" w).
Proof.
  intros Hid Htruthy Hreg. unfold Cli.spawn_registered.
  rewrite Hid, Htruthy, Hreg. reflexivity.
Qed.

Lemma sdk_abort_existing_registered (X : string) (existing : Sdk.ActiveSession) (w : Sdk.World) :
  Sdk.activeSessions w !! X = Some existing ->
  Sdk.abort_existing X w =
    Sdk.registry_delete X (Sdk.abort (Sdk.abortController existing) w).
Proof. intros Hreg. unfold Sdk.abort_existing. by rewrite Hreg. Qed.

End Restart.

(** ** Counting envelopes *)

Section Counting.
Context {D : Type}.

Lemma count_nil (p : Envelope D -> bool) : count p [] = 0.
Proof. reflexivity. Qed.

Lemma count_app (p : Envelope D -> bool) (l1 l2 : list (Envelope D)) :
  count p (l1 ++ l2) = count p l1 + count p l2.
Proof. unfold count. by rewrite filter_app, length_app. Qed.

Lemma count_cons (p : Envelope D -> bool) (e : Envelope D) (l : list (Envelope D)) :
  count p (e :: l) = (if p e then 1 else 0) + count p l.
Proof.
  unfold count. rewrite filter_cons. destruct (p e) eqn:Hp.
  - rewrite decide_True by done. reflexivity.
  - rewrite decide_False by congruence. reflexivity.
Qed.

End Counting.

(** ** The subprocess decoder, line by line *)

Ltac cli_count :=
  unfold cli_created, cli_completed;
  cbn [Cli.sent Cli.ws_send Cli.registry_set Cli.with_registry Cli.registry_delete
       Cli.log_error Cli.kill Cli.fs_rm];
  rewrite ?map_app, ?count_app; cbn [map snd];
  rewrite ?count_cons, ?count_nil;
  cbn [is_session_created is_claude_complete]; try lia.

Ltac on_line_cases line c :=
  unfold Cli.on_line, Cli.carries_session_id;
  destruct c as [[[|? ?]|] [|] ? ? ? ?];
  (destruct (JSON_parse line) as [output|];
   [ destruct (is_null output);
     [ | destruct (session_id output) as [[|? ?]|] ]
   | ]); cbn.

Section CliLines.
Context {J : Type} `{JsonApi J}.
Implicit Types (u : Cli.Unit) (c : Cli.Closure) (w : Cli.World J).

Lemma on_line_unparsed u line c w :
  JSON_parse line = None ->
  Cli.on_line u line (c, w) =
    (c, Cli.log_error "Failed to parse Claude output line:" line w).
Proof. intros Hp. unfold Cli.on_line. by rewrite Hp. Qed.

Lemma on_line_parsed u line output c w :
  JSON_parse line = Some output -> is_null output = false ->
  exists c' w',
    Cli.on_line u line (c, w) =
      (c', Cli.ws_send (Cli.unit_ws u) (ClaudeResponse output) w') /\
    exists pre, Cli.sent w' = Cli.sent w ++ pre.
Proof.
  intros Hp Hn. unfold Cli.on_line. rewrite Hp, Hn.
  destruct (session_id output) as [sid|]; [|by exists c, w; split; [|exists []; rewrite app_nil_r]].
  destruct (JS.truthy (Some sid) && negb (JS.truthy (Cli.capturedSessionId c)));
    [|by exists c, w; split; [|exists []; rewrite app_nil_r]].
  cbn. destruct (Cli.sessionCreatedSent c).
  - eexists _, _. split; [reflexivity|]. exists []. cbn. by rewrite app_nil_r.
  - eexists _, _. split; [reflexivity|]. eexists. cbn. reflexivity.
Qed.

Lemma on_line_buffers u line c w :
  let c' := fst (Cli.on_line u line (c, w)) in
  Cli.currentJsonBuffer c' = Cli.currentJsonBuffer c /\
  Cli.outputBuffer c' = Cli.outputBuffer c /\
  Cli.promise c' = Cli.promise c.
Proof. on_line_cases line c; auto. Qed.

Lemma on_line_created u line c w :
  cli_latched c ->
  let s' := Cli.on_line u line (c, w) in
  cli_created (snd s') =
    cli_created w +
    (if negb (JS.truthy (Cli.capturedSessionId c)) && Cli.carries_session_id line
     then 1 else 0) /\
  JS.truthy (Cli.capturedSessionId (fst s')) =
    JS.truthy (Cli.capturedSessionId c) || Cli.carries_session_id line /\
  cli_latched (fst s').
Proof.
  unfold cli_latched. intros Hl.
  on_line_cases line c; cbn in Hl; try (specialize (Hl eq_refl); discriminate);
    repeat split; intros; try done; cli_count.
Qed.

Lemma on_line_completed u line c w :
  cli_completed (snd (Cli.on_line u line (c, w))) = cli_completed w.
Proof.
  on_line_cases line c; try done; cli_count.
Qed.

Lemma on_line_registry u line c w :
  JS.truthy (Cli.capturedSessionId c) = true \/ Cli.carries_session_id line = false ->
  let s' := Cli.on_line u line (c, w) in
  Cli.activeClaudeProcesses (snd s') = Cli.activeClaudeProcesses w /\
  Cli.killed (snd s') = Cli.killed w /\
  Cli.capturedSessionId (fst s') = Cli.capturedSessionId c.
Proof.
  on_line_cases line c; intros [Hc|Hc]; try discriminate; auto.
Qed.

Lemma on_line_prefix u line c w :
  exists out, Cli.sent (snd (Cli.on_line u line (c, w))) = Cli.sent w ++ out.
Proof.
  on_line_cases line c; rewrite <- ?app_assoc; try (by eexists); by exists []; rewrite app_nil_r.
Qed.

End CliLines.

(** ** The subprocess decoder, chunk by chunk *)

Section CliChunks.
Context {J : Type} `{JsonApi J}.
Implicit Types (u : Cli.Unit) (c : Cli.Closure) (w : Cli.World J).

Lemma frames_cons2 (l l2 : string) (rest : list string) :
  Cli.frames (l :: l2 :: rest) =
    ((if JS.is_empty (JS.trim l) then fst (Cli.frames (l2 :: rest))
      else JS.trim l :: fst (Cli.frames (l2 :: rest))),
     snd (Cli.frames (l2 :: rest))).
Proof.
  change (Cli.frames (l :: l2 :: rest)) with
    (let '(ls, b) := Cli.frames (l2 :: rest) in
     (if JS.is_empty (JS.trim l) then ls else JS.trim l :: ls, b)).
  by destruct (Cli.frames (l2 :: rest)).
Qed.

Lemma on_lines_cons2 u (l l2 : string) (rest : list string) (s : Cli.Closure * Cli.World J) :
  Cli.on_lines u (l :: l2 :: rest) s =
    Cli.on_lines u (l2 :: rest)
      (if JS.is_empty (JS.trim l) then s else Cli.on_line u (JS.trim l) s).
Proof. reflexivity. Qed.

Lemma on_lines_last u (l : string) c w :
  Cli.on_lines u [l] (c, w) =
    (if JS.is_empty (JS.trim l) then c else Cli.set_buffer (JS.trim l) c, w).
Proof. cbn. by destruct (JS.is_empty (JS.trim l)). Qed.

(** The loop hands exactly the lines of [frames] to the [try] block, in
    their order, and leaves the carried text in the buffer. *)
Lemma on_lines_frames u (lines : list string) c w :
  lines <> [] ->
  Cli.currentJsonBuffer c = EmptyString ->
  let s' := fold_left (fun s l => Cli.on_line u l s) (fst (Cli.frames lines)) (c, w) in
  Cli.on_lines u lines (c, w) = (Cli.set_buffer (snd (Cli.frames lines)) (fst s'), snd s').
Proof.
  revert c w. induction lines as [|l rest IH]; [done|]. intros c w _ Hb.
  destruct rest as [|l2 rest].
  - rewrite on_lines_last. cbn. destruct (JS.trim l) eqn:Ht; cbn; [|done].
    destruct c; cbn in *; by subst.
  - rewrite on_lines_cons2, frames_cons2. cbn [fst snd].
    destruct (JS.is_empty (JS.trim l)).
    + by apply IH.
    + destruct (Cli.on_line u (JS.trim l) (c, w)) as [c1 w1] eqn:Hstep.
      cbn [fold_left]. rewrite Hstep. apply IH; [done|].
      pose proof (on_line_buffers u (JS.trim l) c w) as (Hbuf & _).
      rewrite Hstep in Hbuf. cbn in Hbuf. congruence.
Qed.

Lemma split_lf_not_nil (s : string) : JS.split_lf s <> [].
Proof. destruct s as [|a s]; cbn; [done|]. destruct (Ascii.eqb a JS.LF); [done|]. by destruct (JS.split_lf s). Qed.

(** [stdout.on('data')] as the fold of the [try] block over the framed lines. *)
Lemma stdout_on_data_frames u (data : string) c w :
  let fr := Cli.frames (JS.split_lf (Cli.currentJsonBuffer c +:+ data)) in
  let c0 :=
    {| Cli.capturedSessionId := Cli.capturedSessionId c;
       Cli.sessionCreatedSent := Cli.sessionCreatedSent c;
       Cli.outputBuffer := Cli.outputBuffer c +:+ data;
       Cli.errorBuffer := Cli.errorBuffer c;
       Cli.currentJsonBuffer := EmptyString;
       Cli.promise := Cli.promise c |} in
  let s' := fold_left (fun s l => Cli.on_line u l s) (fst fr) (c0, w) in
  Cli.stdout_on_data u data (c, w) = (Cli.set_buffer (snd fr) (fst s'), snd s').
Proof.
  cbv zeta. unfold Cli.stdout_on_data.
  by rewrite on_lines_frames; [|apply split_lf_not_nil|].
Qed.

(** What a fold of the [try] block over lines does to the count of
    [session-created] envelopes, to the captured id and to the latch. *)
Lemma fold_on_line_created u (ls : list string) c w :
  cli_latched c ->
  let s' := fold_left (fun s l => Cli.on_line u l s) ls (c, w) in
  cli_created (snd s') =
    cli_created w +
    (if negb (JS.truthy (Cli.capturedSessionId c)) && existsb Cli.carries_session_id ls
     then 1 else 0) /\
  JS.truthy (Cli.capturedSessionId (fst s')) =
    JS.truthy (Cli.capturedSessionId c) || existsb Cli.carries_session_id ls /\
  cli_latched (fst s').
Proof.
  revert c w. induction ls as [|l ls IH]; intros c w Hl; cbn [fold_left existsb].
  - cbn. rewrite andb_false_r, orb_false_r. repeat split; [lia | done].
  - destruct (on_line_created u l c w Hl) as (Hn & Ht & Hl').
    destruct (Cli.on_line u l (c, w)) as [c1 w1]. cbn [fst snd] in *.
    destruct (IH c1 w1 Hl') as (Hn2 & Ht2 & Hl2). cbv zeta in *.
    rewrite Hn2, Ht2, Hn, Ht. split; [|split; [|done]].
    + destruct (JS.truthy (Cli.capturedSessionId c)), (Cli.carries_session_id l),
        (existsb Cli.carries_session_id ls); cbn; lia.
    + by rewrite orb_assoc.
Qed.

Lemma fold_on_line_completed u (ls : list string) c w :
  cli_completed (snd (fold_left (fun s l => Cli.on_line u l s) ls (c, w))) = cli_completed w.
Proof.
  revert c w. induction ls as [|l ls IH]; intros c w; cbn [fold_left]; [done|].
  pose proof (on_line_completed u l c w) as Hc.
  destruct (Cli.on_line u l (c, w)) as [c1 w1]. rewrite IH. exact Hc.
Qed.

Lemma fold_on_line_registry u (ls : list string) c w :
  JS.truthy (Cli.capturedSessionId c) = true \/
    Forall (fun l => Cli.carries_session_id l = false) ls ->
  let s' := fold_left (fun s l => Cli.on_line u l s) ls (c, w) in
  Cli.activeClaudeProcesses (snd s') = Cli.activeClaudeProcesses w /\
  Cli.killed (snd s') = Cli.killed w /\
  Cli.capturedSessionId (fst s') = Cli.capturedSessionId c.
Proof.
  revert c w. induction ls as [|l ls IH]; intros c w Hor; cbn [fold_left]; [done|].
  assert (JS.truthy (Cli.capturedSessionId c) = true \/ Cli.carries_session_id l = false) as Hl.
  { destruct Hor as [Hc|Hf]; [by left | right; by inversion Hf]. }
  destruct (on_line_registry u l c w Hl) as (Hr & Hk & Hc).
  destruct (Cli.on_line u l (c, w)) as [c1 w1]. cbn [fst snd] in *.
  destruct (IH c1 w1) as (Hr2 & Hk2 & Hc2).
  { destruct Hor as [Hc'|Hf]; [left; by rewrite Hc | right; by inversion Hf]. }
  cbv zeta. rewrite Hr2, Hk2, Hc2. done.
Qed.

Lemma fold_on_line_prefix u (ls : list string) c w :
  exists out,
    Cli.sent (snd (fold_left (fun s l => Cli.on_line u l s) ls (c, w))) = Cli.sent w ++ out.
Proof.
  revert c w. induction ls as [|l ls IH]; intros c w; cbn [fold_left].
  - exists []. by rewrite app_nil_r.
  - destruct (on_line_prefix u l c w) as [o1 Ho1].
    destruct (Cli.on_line u l (c, w)) as [c1 w1]. cbn [snd] in Ho1.
    destruct (IH c1 w1) as [o2 Ho2]. exists (o1 ++ o2).
    by rewrite Ho2, Ho1, app_assoc.
Qed.

End CliChunks.

(** ** The subprocess handlers over a sequence of events *)

Section CliRuns.
Context {J : Type} `{JsonApi J}.
Implicit Types (u : Cli.Unit) (c : Cli.Closure) (w : Cli.World J).

Lemma stderr_on_data_frame u (data : string) c w :
  let s' := Cli.stderr_on_data u data (c, w) in
  Cli.capturedSessionId (fst s') = Cli.capturedSessionId c /\
  Cli.sessionCreatedSent (fst s') = Cli.sessionCreatedSent c /\
  Cli.currentJsonBuffer (fst s') = Cli.currentJsonBuffer c /\
  cli_created (snd s') = cli_created w /\
  cli_completed (snd s') = cli_completed w /\
  Cli.activeClaudeProcesses (snd s') = Cli.activeClaudeProcesses w /\
  Cli.killed (snd s') = Cli.killed w /\
  exists out, Cli.sent (snd s') = Cli.sent w ++ out.
Proof.
  unfold Cli.stderr_on_data. cbv zeta.
  destruct (JS.includes "not found" data || JS.includes "command not found" data);
    cbn [fst snd]; repeat split; try done; try cli_count; by eexists.
Qed.

Lemma on_close_frame u (code : option Z) c w :
  let s' := Cli.on_close u code (c, w) in
  Cli.capturedSessionId (fst s') = Cli.capturedSessionId c /\
  Cli.sessionCreatedSent (fst s') = Cli.sessionCreatedSent c /\
  Cli.currentJsonBuffer (fst s') = Cli.currentJsonBuffer c /\
  cli_created (snd s') = cli_created w /\
  cli_completed (snd s') = cli_completed w + 1 /\
  Cli.activeClaudeProcesses (snd s') ⊆ Cli.activeClaudeProcesses w /\
  Cli.killed (snd s') = Cli.killed w /\
  Cli.sent (snd s') =
    Cli.sent w ++ [(Cli.unit_ws u, ClaudeComplete code (Cli.isNewSession u))].
Proof.
  unfold Cli.on_close. cbv zeta. destruct c as [cap flag ob eb buf pr].
  cbn [Cli.capturedSessionId Cli.sessionCreatedSent Cli.currentJsonBuffer].
  assert (forall w0 : Cli.World J,
    Cli.activeClaudeProcesses
      (match cap with
       | Some id => if JS.truthy (Some id) then Cli.registry_delete id w0 else w0
       | None => w0
       end) ⊆ Cli.activeClaudeProcesses w0) as Hsub.
  { intros w0. destruct cap as [id|]; [|done].
    destruct (JS.truthy (Some id)); [apply delete_subseteq | done]. }
  specialize (Hsub (match Cli.unit_tempDir u with Some d => Cli.fs_rm d w | None => w end)).
  destruct code as [[|p|p]|]; cbn [fst snd];
    destruct (Cli.unit_tempDir u), cap as [id|];
    try destruct (JS.truthy (Some id));
    repeat split; try done; cli_count.
Qed.

Lemma on_error_frame u (code : option string) (message : string) c w :
  let s' := Cli.on_error u code message (c, w) in
  Cli.capturedSessionId (fst s') = Cli.capturedSessionId c /\
  Cli.sessionCreatedSent (fst s') = Cli.sessionCreatedSent c /\
  Cli.currentJsonBuffer (fst s') = Cli.currentJsonBuffer c /\
  cli_created (snd s') = cli_created w /\
  cli_completed (snd s') = cli_completed w /\
  Cli.activeClaudeProcesses (snd s') ⊆ Cli.activeClaudeProcesses w /\
  Cli.killed (snd s') = Cli.killed w /\
  exists out, Cli.sent (snd s') = Cli.sent w ++ out.
Proof.
  unfold Cli.on_error. cbv zeta. destruct c as [cap flag ob eb buf pr].
  cbn [Cli.capturedSessionId Cli.sessionCreatedSent Cli.currentJsonBuffer].
  assert (forall w0 : Cli.World J,
    Cli.activeClaudeProcesses
      (match cap with
       | Some id => if JS.truthy (Some id) then Cli.registry_delete id w0 else w0
       | None => w0
       end) ⊆ Cli.activeClaudeProcesses w0) as Hsub.
  { intros w0. destruct cap as [id|]; [|done].
    destruct (JS.truthy (Some id)); [apply delete_subseteq | done]. }
  specialize (Hsub (match Cli.unit_tempDir u with
                    | Some d => Cli.fs_rm d (Cli.log_error "Failed to start Claude process:" message w)
                    | None => Cli.log_error "Failed to start Claude process:" message w
                    end)).
  set (enoent := match code with Some "ENOENT" => true | _ => false end).
  assert (forall w0 : Cli.World J,
    match code with
    | Some "ENOENT" => Cli.ws_send (Cli.unit_ws u) (ErrorEnvelope Cli.cli_not_found) w0
    | _ => Cli.ws_send (Cli.unit_ws u) (ErrorEnvelope message) w0
    end = Cli.ws_send (Cli.unit_ws u)
            (ErrorEnvelope (if enoent then Cli.cli_not_found else message)) w0) as Hsend.
  { intros w0. subst enoent.
    repeat (match goal with |- context [match ?x with _ => _ end] => destruct x end; try done). }
  rewrite Hsend. cbn [fst snd].
  destruct (Cli.unit_tempDir u), cap as [id|];
    try destruct (JS.truthy (Some id));
    repeat split; try done; try cli_count; by eexists.
Qed.

Lemma run_cons u (e : Cli.Event) (events : list Cli.Event) (s : Cli.Closure * Cli.World J) :
  Cli.run u (e :: events) s = Cli.run u events (Cli.handle u e s).
Proof. reflexivity. Qed.

Lemma run_app u (ev1 ev2 : list Cli.Event) (s : Cli.Closure * Cli.World J) :
  Cli.run u (ev1 ++ ev2) s = Cli.run u ev2 (Cli.run u ev1 s).
Proof. unfold Cli.run. apply fold_left_app. Qed.

(** One event: the [session-created] count grows by one exactly when no id
    was captured before it and one of the lines it completes carries one. *)
Lemma handle_created u (e : Cli.Event) c w :
  cli_latched c ->
  let s' := Cli.handle u e (c, w) in
  let ls := Cli.parsed_lines (Cli.currentJsonBuffer c) [e] in
  cli_created (snd s') =
    cli_created w +
    (if negb (JS.truthy (Cli.capturedSessionId c)) && existsb Cli.carries_session_id ls
     then 1 else 0) /\
  JS.truthy (Cli.capturedSessionId (fst s')) =
    JS.truthy (Cli.capturedSessionId c) || existsb Cli.carries_session_id ls /\
  cli_latched (fst s') /\
  forall events,
    Cli.parsed_lines (Cli.currentJsonBuffer c) (e :: events) =
    ls ++ Cli.parsed_lines (Cli.currentJsonBuffer (fst s')) events.
Proof.
  intros Hl. destruct e as [data|data|code|code message]; cbn [Cli.handle Cli.parsed_lines].
  - rewrite stdout_on_data_frames.
    destruct (Cli.frames (JS.split_lf (Cli.currentJsonBuffer c +:+ data))) as [ls b].
    cbn [fst snd]. rewrite app_nil_r.
    match goal with |- context [fold_left _ ls (?c0, w)] =>
      destruct (fold_on_line_created u ls c0 w Hl) as (Hn & Ht & Hl');
      destruct (fold_left (fun s l => Cli.on_line u l s) ls (c0, w)) as [c1 w1]
    end.
    cbn [fst snd] in *. repeat split; try done.
  - destruct (stderr_on_data_frame u data c w) as (Hc & Hf & Hb & Hn & _).
    cbv zeta in *. rewrite Hn, Hb. cbn [existsb]. rewrite andb_false_r, orb_false_r.
    unfold cli_latched in *. rewrite Hc, Hf. repeat split; try done; lia.
  - destruct (on_close_frame u code c w) as (Hc & Hf & Hb & Hn & _).
    cbv zeta in *. rewrite Hn, Hb. cbn [existsb]. rewrite andb_false_r, orb_false_r.
    unfold cli_latched in *. rewrite Hc, Hf. repeat split; try done; lia.
  - destruct (on_error_frame u code message c w) as (Hc & Hf & Hb & Hn & _).
    cbv zeta in *. rewrite Hn, Hb. cbn [existsb]. rewrite andb_false_r, orb_false_r.
    unfold cli_latched in *. rewrite Hc, Hf. repeat split; try done; lia.
Qed.

Lemma run_created u (events : list Cli.Event) c w :
  cli_latched c ->
  cli_created (snd (Cli.run u events (c, w))) =
    cli_created w +
    (if negb (JS.truthy (Cli.capturedSessionId c)) &&
        existsb Cli.carries_session_id (Cli.parsed_lines (Cli.currentJsonBuffer c) events)
     then 1 else 0).
Proof.
  revert c w. induction events as [|e events IH]; intros c w Hl.
  - cbn. rewrite andb_false_r. lia.
  - rewrite run_cons.
    destruct (handle_created u e c w Hl) as (Hn & Ht & Hl' & Hp).
    destruct (Cli.handle u e (c, w)) as [c1 w1]. cbn [fst snd] in *.
    rewrite (IH c1 w1 Hl'), Hn, (Hp events), existsb_app, Ht.
    destruct (JS.truthy (Cli.capturedSessionId c)),
      (existsb Cli.carries_session_id (Cli.parsed_lines (Cli.currentJsonBuffer c) [e])),
      (existsb Cli.carries_session_id (Cli.parsed_lines (Cli.currentJsonBuffer c1) events));
      cbn [negb andb orb]; lia.
Qed.

Lemma handle_completed u (e : Cli.Event) c w :
  cli_completed (snd (Cli.handle u e (c, w))) = cli_completed w + closes [e].
Proof.
  destruct e as [data|data|code|code message]; cbn [Cli.handle].
  - rewrite stdout_on_data_frames. cbn [snd]. rewrite fold_on_line_completed. cbn. lia.
  - destruct (stderr_on_data_frame u data c w) as (_ & _ & _ & _ & Hc & _).
    cbv zeta in Hc. rewrite Hc. cbn. lia.
  - destruct (on_close_frame u code c w) as (_ & _ & _ & _ & Hc & _).
    cbv zeta in Hc. rewrite Hc. reflexivity.
  - destruct (on_error_frame u code message c w) as (_ & _ & _ & _ & Hc & _).
    cbv zeta in Hc. rewrite Hc. cbn. lia.
Qed.

Lemma closes_cons (e : Cli.Event) (events : list Cli.Event) :
  closes (e :: events) = closes [e] + closes events.
Proof. by destruct e. Qed.

(** The handlers send one [claude-complete] per [close] event. *)
Lemma run_completed u (events : list Cli.Event) c w :
  cli_completed (snd (Cli.run u events (c, w))) = cli_completed w + closes events.
Proof.
  revert c w. induction events as [|e events IH]; intros c w.
  - cbn. lia.
  - rewrite run_cons, closes_cons.
    pose proof (handle_completed u e c w) as Hc.
    destruct (Cli.handle u e (c, w)) as [c1 w1]. rewrite IH. cbn [snd] in Hc. lia.
Qed.

Lemma handle_prefix u (e : Cli.Event) c w :
  exists out, Cli.sent (snd (Cli.handle u e (c, w))) = Cli.sent w ++ out.
Proof.
  destruct e as [data|data|code|code message]; cbn [Cli.handle].
  - rewrite stdout_on_data_frames. cbn [snd]. apply fold_on_line_prefix.
  - by destruct (stderr_on_data_frame u data c w) as (_ & _ & _ & _ & _ & _ & _ & Hs).
  - destruct (on_close_frame u code c w) as (_ & _ & _ & _ & _ & _ & _ & Hs). by eexists.
  - by destruct (on_error_frame u code message c w) as (_ & _ & _ & _ & _ & _ & _ & Hs).
Qed.

(** The handlers only append to the trace of sent envelopes. *)
Lemma run_prefix u (events : list Cli.Event) c w :
  exists out, Cli.sent (snd (Cli.run u events (c, w))) = Cli.sent w ++ out.
Proof.
  revert c w. induction events as [|e events IH]; intros c w.
  - exists []. cbn. by rewrite app_nil_r.
  - rewrite run_cons. destruct (handle_prefix u e c w) as [o1 Ho1].
    destruct (Cli.handle u e (c, w)) as [c1 w1]. cbn [snd] in Ho1.
    destruct (IH c1 w1) as [o2 Ho2]. exists (o1 ++ o2). by rewrite Ho2, Ho1, app_assoc.
Qed.

(** While no line carries a session id, or once an id is captured, the
    handlers add no entry to the registry and signal no process. *)
Lemma run_registry u (events : list Cli.Event) c w :
  JS.truthy (Cli.capturedSessionId c) = true \/
    Forall (fun l => Cli.carries_session_id l = false)
      (Cli.parsed_lines (Cli.currentJsonBuffer c) events) ->
  let s' := Cli.run u events (c, w) in
  Cli.activeClaudeProcesses (snd s') ⊆ Cli.activeClaudeProcesses w /\
  Cli.killed (snd s') = Cli.killed w /\
  Cli.capturedSessionId (fst s') = Cli.capturedSessionId c.
Proof.
  revert c w. induction events as [|e events IH]; intros c w Hor; [done|].
  cbv zeta. rewrite run_cons.
  assert (exists c1 w1, Cli.handle u e (c, w) = (c1, w1) /\
            Cli.activeClaudeProcesses w1 ⊆ Cli.activeClaudeProcesses w /\
            Cli.killed w1 = Cli.killed w /\
            Cli.capturedSessionId c1 = Cli.capturedSessionId c /\
            (JS.truthy (Cli.capturedSessionId c) = true \/
               Forall (fun l => Cli.carries_session_id l = false)
                 (Cli.parsed_lines (Cli.currentJsonBuffer c1) events)))
    as (c1 & w1 & Hstep & Hr & Hk & Hc & Hor').
  { destruct e as [data|data|code|code message]; cbn [Cli.handle Cli.parsed_lines] in *.
    - rewrite stdout_on_data_frames.
      destruct (Cli.frames (JS.split_lf (Cli.currentJsonBuffer c +:+ data))) as [ls b].
      cbn [fst snd].
      match goal with |- context [fold_left _ ls (?c0, w)] =>
        destruct (fold_on_line_registry u ls c0 w) as (Hr & Hk & Hc);
        [ destruct Hor as [Ht|Hf]; [by left | right; by apply Forall_app in Hf as [Hf _]] |];
        destruct (fold_left (fun s l => Cli.on_line u l s) ls (c0, w)) as [c1 w1]
      end.
      cbn [fst snd] in *. eexists _, _. split; [reflexivity|].
      rewrite Hr, Hk. cbn. repeat split; try done.
      destruct Hor as [Ht|Hf]; [by left | right; by apply Forall_app in Hf as [_ Hf]].
    - destruct (stderr_on_data_frame u data c w) as (Hc & _ & Hb & _ & _ & Hr & Hk & _).
      destruct (Cli.stderr_on_data u data (c, w)) as [c1 w1]. cbn [fst snd] in *.
      eexists _, _. split; [reflexivity|]. rewrite Hr, Hb. done.
    - destruct (on_close_frame u code c w) as (Hc & _ & Hb & _ & _ & Hr & Hk & _).
      destruct (Cli.on_close u code (c, w)) as [c1 w1]. cbn [fst snd] in *.
      eexists _, _. split; [reflexivity|]. rewrite Hb. done.
    - destruct (on_error_frame u code message c w) as (Hc & _ & Hb & _ & _ & Hr & Hk & _).
      destruct (Cli.on_error u code message (c, w)) as [c1 w1]. cbn [fst snd] in *.
      eexists _, _. split; [reflexivity|]. rewrite Hb. done. }
  rewrite Hstep. destruct (IH c1 w1) as (Hr2 & Hk2 & Hc2).
  { by rewrite Hc. }
  cbv zeta in *. split; [by etrans | split; congruence].
Qed.


End CliRuns.

(** ** The SDK loop *)

Ltac sdk_count :=
  unfold sdk_created, sdk_completed;
  cbn [Sdk.sent Sdk.ws_send Sdk.registry_set Sdk.with_registry Sdk.registry_delete
       Sdk.log_error Sdk.abort Sdk.fs_rm];
  rewrite ?map_app, ?count_app; cbn [map snd];
  rewrite ?count_cons, ?count_nil;
  cbn [is_session_created is_claude_complete]; try lia.

Section SdkRuns.
Context `{Sdk.IdSource}.
Implicit Types (u : Sdk.Unit) (c : Sdk.Closure) (w : Sdk.World).

Lemma sessionId_or_generated_frame (opts : ClaudeSpawnOptions) w :
  let r := Sdk.sessionId_or_generated opts w in
  Sdk.sent (snd r) = Sdk.sent w /\
  Sdk.activeSessions (snd r) = Sdk.activeSessions w /\
  Sdk.aborted (snd r) = Sdk.aborted w.
Proof.
  unfold Sdk.sessionId_or_generated, Sdk.fresh_id.
  destruct (sessionId opts) as [id|]; [destruct (JS.truthy (Some id))|]; done.
Qed.

Lemma on_message_counts u (q : Handle) (m : Sdk.SDKMessage) c w :
  let s' := Sdk.on_message u q m (c, w) in
  sdk_created (snd s') =
    sdk_created w + (if negb (Sdk.sessionCreatedSent c) && is_init m then 1 else 0) /\
  Sdk.sessionCreatedSent (fst s') = Sdk.sessionCreatedSent c || is_init m /\
  sdk_completed (snd s') = sdk_completed w /\
  exists out, Sdk.sent (snd s') = Sdk.sent w ++ out.
Proof.
  destruct m as [subtype sid info| | | |]; cbn [Sdk.on_message is_init].
  - destruct (String.eqb subtype "init"); cbn [fst snd].
    + pose proof (sessionId_or_generated_frame (Sdk.options u) w) as (Hs & _).
      destruct (Sdk.sessionId_or_generated (Sdk.options u) w) as [old w1].
      cbn [fst snd] in *.
      destruct (String.eqb old sid), (Sdk.sessionCreatedSent c); cbn [fst snd];
        repeat split; try (by rewrite ?orb_true_r);
        try (sdk_count; rewrite Hs; cbn; lia);
        cbn; rewrite Hs, <- ?app_assoc; by eexists.
    + rewrite andb_false_r, orb_false_r. repeat split; try lia.
      exists []. by rewrite app_nil_r.
  - rewrite andb_false_r, orb_false_r. cbn [fst snd]. repeat split; try done; try lia.
    exists []. by rewrite app_nil_r.
  - rewrite andb_false_r, orb_false_r. cbn [fst snd].
    repeat split; try done; try sdk_count. by eexists.
  - rewrite andb_false_r, orb_false_r. cbn [fst snd].
    repeat split; try done; try sdk_count. by eexists.
  - rewrite andb_false_r, orb_false_r. cbn [fst snd]. repeat split; try done; try lia.
    exists []. by rewrite app_nil_r.
Qed.

Lemma fold_on_message_counts u (q : Handle) (ms : list Sdk.SDKMessage) c w :
  let s' := fold_left (fun s m => Sdk.on_message u q m s) ms (c, w) in
  sdk_created (snd s') =
    sdk_created w + (if negb (Sdk.sessionCreatedSent c) && existsb is_init ms then 1 else 0) /\
  sdk_completed (snd s') = sdk_completed w /\
  exists out, Sdk.sent (snd s') = Sdk.sent w ++ out.
Proof.
  revert c w. induction ms as [|m ms IH]; intros c w; cbn [fold_left existsb].
  - cbn. rewrite andb_false_r. repeat split; try lia. exists []. by rewrite app_nil_r.
  - destruct (on_message_counts u q m c w) as (Hn & Hf & Hc & o1 & Ho1).
    destruct (Sdk.on_message u q m (c, w)) as [c1 w1]. cbn [fst snd] in *.
    destruct (IH c1 w1) as (Hn2 & Hc2 & o2 & Ho2). cbv zeta in *.
    rewrite Hn2, Hc2, Hn, Hc, Hf. repeat split.
    + destruct (Sdk.sessionCreatedSent c), (is_init m), (existsb is_init ms);
        cbn [negb andb orb]; lia.
    + exists (o1 ++ o2). by rewrite Ho2, Ho1, app_assoc.
Qed.

Lemma on_ending_counts u (e : Sdk.Ending) w :
  sdk_created (Sdk.on_ending u e w) = sdk_created w /\
  sdk_completed (Sdk.on_ending u e w) = sdk_completed w /\
  exists out, Sdk.sent (Sdk.on_ending u e w) = Sdk.sent w ++ out.
Proof.
  destruct e as [|name message]; cbn [Sdk.on_ending].
  - repeat split. exists []. by rewrite app_nil_r.
  - destruct (String.eqb name "AbortError").
    + repeat split. exists []. by rewrite app_nil_r.
    + repeat split; try sdk_count. by eexists.
Qed.

Lemma finish_sent u c w :
  Sdk.sent (Sdk.finish u c w) =
    Sdk.sent w ++ [(Sdk.unit_ws u, ClaudeComplete (Some 0%Z) (Sdk.isNewSession u))].
Proof. unfold Sdk.finish. by destruct (Sdk.unit_tempDir u). Qed.

(** Once the query is created, the unit sends one [session-created] when
    the stream has a system-init message and none otherwise, and its last
    envelope is its only [claude-complete]. *)
Lemma run_counts u (q : Handle) (captured : string) (stream : Sdk.Stream) w :
  let w' := Sdk.run u q captured stream w in
  sdk_created w' = sdk_created w + (if existsb is_init (Sdk.messages stream) then 1 else 0) /\
  sdk_completed w' = sdk_completed w + 1 /\
  exists pre,
    Sdk.sent w' =
      Sdk.sent w ++ pre ++ [(Sdk.unit_ws u, ClaudeComplete (Some 0%Z) (Sdk.isNewSession u))].
Proof.
  unfold Sdk.run.
  match goal with |- context [fold_left ?f ?ms (?c0, ?w0)] =>
    destruct (fold_on_message_counts u q ms c0 w0) as (Hn & Hc & o1 & Ho1);
    destruct (fold_left f ms (c0, w0)) as [c1 w1]
  end.
  cbn [fst snd Sdk.sessionCreatedSent negb andb] in *.
  destruct (on_ending_counts u (Sdk.ending stream) w1) as (Hn2 & Hc2 & o2 & Ho2).
  cbv zeta. repeat split.
  - unfold sdk_created in *. rewrite finish_sent, map_app, count_app, Hn2, Hn.
    cbn [map snd]. rewrite count_cons, count_nil. cbn. lia.
  - unfold sdk_completed in *. rewrite finish_sent, map_app, count_app, Hc2, Hc.
    cbn [map snd]. rewrite count_cons, count_nil. cbn. lia.
  - exists (o1 ++ o2). rewrite finish_sent, Ho2, Ho1. cbn. by rewrite <- !app_assoc.
Qed.

Lemma abort_existing_sent (captured : string) w :
  Sdk.sent (Sdk.abort_existing captured w) = Sdk.sent w.
Proof. unfold Sdk.abort_existing. by destruct (Sdk.activeSessions w !! captured). Qed.

(** When [query] throws, the outer [catch] sends one [error] envelope and
    nothing else. *)
Lemma start_launch_failure_sent u (message : string) w :
  Sdk.sent (Sdk.start u (Sdk.QueryThrows message) w) =
    Sdk.sent w ++
    [(Sdk.unit_ws u,
      ErrorEnvelope (if JS.is_empty message then "Failed to start Claude session" else message))].
Proof.
  unfold Sdk.start.
  pose proof (sessionId_or_generated_frame (Sdk.options u) w) as (Hs & _).
  destruct (Sdk.sessionId_or_generated (Sdk.options u) w) as [captured w0].
  cbn [fst snd] in Hs. unfold Sdk.on_launch_failure.
  destruct (Sdk.unit_tempDir u); cbn; by rewrite abort_existing_sent, Hs.
Qed.

End SdkRuns.


(** ** Re-keying the SDK registry on the reported id *)

Section SdkRekey.
Context `{Sdk.IdSource}.
Implicit Types (u : Sdk.Unit) (c : Sdk.Closure) (w : Sdk.World).

Lemma on_message_rekeyed u (q : Handle) (X sid : string) (R : gmap string Sdk.ActiveSession)
    (m : Sdk.SDKMessage) (seen : bool) (s : Sdk.Closure * Sdk.World) :
  sessionId (Sdk.options u) = Some X -> JS.truthy (Some X) = true -> X <> sid ->
  reports sid [m] ->
  rekeyed u q X sid R seen s ->
  rekeyed u q X sid R (seen || is_init m) (Sdk.on_message u q m s).
Proof.
  intros Hid Htruthy Hne Hrep Hinv. destruct s as [c w].
  unfold reports in Hrep. apply Forall_inv in Hrep.
  destruct m as [subtype sid' info| | | |]; cbn [Sdk.on_message is_init];
    try (rewrite orb_false_r; exact Hinv).
  destruct (String.eqb subtype "init") eqn:Hinit; [|rewrite orb_false_r; exact Hinv].
  specialize (Hrep eq_refl). subst sid'. rewrite orb_true_r.
  rewrite (sdk_sessionId_supplied _ X w Hid Htruthy).
  assert (String.eqb X sid = false) as -> by (by apply String.eqb_neq).
  unfold rekeyed in *. cbn [fst snd Sdk.capturedSessionId]. split; [done|].
  assert (Sdk.activeSessions
            (Sdk.registry_set sid (Sdk.entry u q sid) (Sdk.registry_delete X w)) =
          <[sid := Sdk.entry u q sid]> (delete X R)) as Hreg.
  { cbn. cbn [fst snd] in Hinv. destruct seen; destruct Hinv as (_ & ->).
    - rewrite delete_insert_ne by done. rewrite delete_delete_eq. apply insert_insert_eq.
    - by rewrite delete_insert_eq. }
  destruct (Sdk.sessionCreatedSent c); exact Hreg.
Qed.

Lemma fold_on_message_rekeyed u (q : Handle) (X sid : string)
    (R : gmap string Sdk.ActiveSession) (ms : list Sdk.SDKMessage) (seen : bool)
    (s : Sdk.Closure * Sdk.World) :
  sessionId (Sdk.options u) = Some X -> JS.truthy (Some X) = true -> X <> sid ->
  reports sid ms ->
  rekeyed u q X sid R seen s ->
  rekeyed u q X sid R (seen || existsb is_init ms)
    (fold_left (fun s m => Sdk.on_message u q m s) ms s).
Proof.
  intros Hid Htruthy Hne. revert seen s.
  induction ms as [|m ms IH]; intros seen s Hrep Hinv; cbn [fold_left existsb].
  - by rewrite orb_false_r.
  - inversion Hrep as [|? ? Hm Hms]; subst. rewrite orb_assoc. apply IH; [done|].
    apply on_message_rekeyed; try done. unfold reports. by repeat constructor.
Qed.

Lemma on_ending_registry u (e : Sdk.Ending) w :
  Sdk.activeSessions (Sdk.on_ending u e w) = Sdk.activeSessions w.
Proof.
  destruct e as [|name message]; [done|]. cbn. by destruct (String.eqb name "AbortError").
Qed.

Lemma finish_registry u c w :
  Sdk.activeSessions (Sdk.finish u c w) =
    delete (Sdk.capturedSessionId c) (Sdk.activeSessions w).
Proof. unfold Sdk.finish. by destruct (Sdk.unit_tempDir u). Qed.

Lemma abort_existing_registry (X : string) w :
  delete X (Sdk.activeSessions (Sdk.abort_existing X w)) = delete X (Sdk.activeSessions w).
Proof.
  unfold Sdk.abort_existing. destruct (Sdk.activeSessions w !! X); [|done].
  cbn. apply delete_delete_eq.
Qed.

(** A unit started with the caller's session id [X], whose stream reports
    the id [sid], different from [X]: once it has terminated the registry
    has an entry neither under [X] nor, when the id was reported, under
    [sid], and its other entries are those it had. *)
Lemma sdk_rekey_supplied_id u (q : Handle) (X sid : string) (stream : Sdk.Stream) w :
  sessionId (Sdk.options u) = Some X -> JS.truthy (Some X) = true -> X <> sid ->
  reports sid (Sdk.messages stream) ->
  Sdk.activeSessions (Sdk.start u (Sdk.QueryReturns q stream) w) =
    if existsb is_init (Sdk.messages stream)
    then delete sid (delete X (Sdk.activeSessions w))
    else delete X (Sdk.activeSessions w).
Proof.
  intros Hid Htruthy Hne Hrep. unfold Sdk.start.
  rewrite (sdk_sessionId_supplied _ X w Hid Htruthy). unfold Sdk.run.
  pose proof (fold_on_message_rekeyed u q X sid
                (Sdk.activeSessions (Sdk.abort_existing X w)) (Sdk.messages stream) false
                ({| Sdk.capturedSessionId := X; Sdk.sessionCreatedSent := false;
                    Sdk.systemMessageSent := false |},
                 Sdk.register u q X (Sdk.abort_existing X w))
                Hid Htruthy Hne Hrep) as Hinv.
  destruct (fold_left _ (Sdk.messages stream) _) as [c1 w1].
  rewrite finish_registry, on_ending_registry.
  cbn [orb] in Hinv. unfold rekeyed in Hinv. cbn [fst snd] in Hinv.
  assert (Sdk.capturedSessionId
            {| Sdk.capturedSessionId := X; Sdk.sessionCreatedSent := false;
               Sdk.systemMessageSent := false |} = X /\
          Sdk.activeSessions (Sdk.register u q X (Sdk.abort_existing X w)) =
            <[X := Sdk.entry u q X]> (Sdk.activeSessions (Sdk.abort_existing X w)))
    as Hstart by done.
  specialize (Hinv Hstart).
  destruct (existsb is_init (Sdk.messages stream)); destruct Hinv as (-> & ->).
  - by rewrite delete_insert_eq, abort_existing_registry.
  - by rewrite delete_insert_eq, abort_existing_registry.
Qed.

End SdkRekey.

(** ** Identity capture *)

Section IdentityCapture.
Context {J : Type} `{JsonApi J} `{Sdk.IdSource}.

Lemma spawn_registered_frame (u : Cli.Unit) (w : Cli.World J) :
  let s := Cli.spawn_registered u w in
  Cli.capturedSessionId (fst s) = sessionId (Cli.options u) /\
  Cli.sessionCreatedSent (fst s) = false /\
  Cli.currentJsonBuffer (fst s) = EmptyString /\
  Cli.sent (snd s) = Cli.sent w /\
  Cli.activeClaudeProcesses (snd s) ⊆ Cli.activeClaudeProcesses w.
Proof.
  unfold Cli.spawn_registered. cbn [fst snd Cli.capturedSessionId Cli.sessionCreatedSent
    Cli.currentJsonBuffer]. repeat split.
  - destruct (sessionId (Cli.options u)) as [id|]; [|done].
    destruct (JS.truthy (Some id)); [|done].
    by destruct (Cli.activeClaudeProcesses w !! id).
  - destruct (sessionId (Cli.options u)) as [id|]; [|done].
    destruct (JS.truthy (Some id)); [|done].
    destruct (Cli.activeClaudeProcesses w !! id); [|done]. apply delete_subseteq.
Qed.

(** C2, as amended.  A unit sends at most one [session-created] envelope.
    In the subprocess file it sends one exactly when the caller supplied
    no session id and a line of the output parses to a message with a
    session id; none otherwise.  In the SDK file it sends one exactly when
    the query was created and its stream has a system-init message; none
    otherwise. *)
Theorem session_created_at_most_once :
  (forall (u : Cli.Unit) (events : list Cli.Event) (w : Cli.World J),
      exists out,
        Cli.sent (snd (Cli.run u events (Cli.spawn_registered u w))) = Cli.sent w ++ out /\
        count is_session_created (map snd out) =
          (if JS.truthy (sessionId (Cli.options u)) then 0
           else if existsb Cli.carries_session_id (Cli.parsed_lines EmptyString events)
                then 1 else 0)) /\
  (forall (u : Sdk.Unit) (launch : Sdk.Launch) (w : Sdk.World),
      exists out,
        Sdk.sent (Sdk.start u launch w) = Sdk.sent w ++ out /\
        count is_session_created (map snd out) =
          match launch with
          | Sdk.QueryThrows _ => 0
          | Sdk.QueryReturns _ stream =>
              if existsb is_init (Sdk.messages stream) then 1 else 0
          end).
Proof.
  split.
  - intros u events w.
    destruct (spawn_registered_frame u w) as (Hc & Hf & Hb & Hs & _).
    destruct (Cli.spawn_registered u w) as [c0 w0]. cbn [fst snd] in *.
    destruct (run_prefix u events c0 w0) as [out Hout].
    exists out. rewrite Hout, Hs. split; [done|].
    assert (cli_latched c0) as Hl by (unfold cli_latched; congruence).
    pose proof (run_created u events c0 w0 Hl) as Hn.
    unfold cli_created in Hn. rewrite Hout, map_app, count_app, Hc, Hb in Hn.
    destruct (JS.truthy (sessionId (Cli.options u))); cbn [negb andb] in Hn; lia.
  - intros u [message|q stream] w.
    + rewrite start_launch_failure_sent. eexists. split; [done|].
      cbn [map snd]. by rewrite count_cons, count_nil.
    + unfold Sdk.start.
      pose proof (sessionId_or_generated_frame (Sdk.options u) w) as (Hs & _).
      destruct (Sdk.sessionId_or_generated (Sdk.options u) w) as [captured w0].
      cbn [fst snd] in Hs.
      destruct (run_counts u q captured stream (Sdk.abort_existing captured w0))
        as (Hn & _ & pre & Hpre).
      cbv zeta in *. rewrite abort_existing_sent, Hs in Hpre.
      eexists. split; [exact Hpre|].
      unfold sdk_created in Hn.
      rewrite Hpre, abort_existing_sent, Hs, map_app, count_app in Hn. lia.
Qed.

End IdentityCapture.

(** ** The terminal envelope *)

Section Terminal.
Context {J : Type} `{JsonApi J} `{Sdk.IdSource}.

Lemma cli_run_close (u : Cli.Unit) (events : list Cli.Event) (code : option Z)
    (c : Cli.Closure) (w : Cli.World J) :
  exists pre,
    Cli.sent (snd (Cli.run u (events ++ [Cli.Close code]) (c, w))) =
      Cli.sent w ++ pre ++ [(Cli.unit_ws u, ClaudeComplete code (Cli.isNewSession u))].
Proof.
  rewrite run_app. destruct (run_prefix u events c w) as [pre Hpre].
  destruct (Cli.run u events (c, w)) as [c1 w1]. cbn [snd] in Hpre.
  exists pre. change (Cli.run u [Cli.Close code] (c1, w1)) with (Cli.on_close u code (c1, w1)).
  destruct (on_close_frame u code c1 w1) as (_ & _ & _ & _ & _ & _ & _ & Hs).
  cbv zeta in Hs. by rewrite Hs, Hpre, app_assoc.
Qed.

(** A subprocess whose events end with its only [close]: the unit's last
    envelope is its only [claude-complete], with the exit code. *)
Lemma cli_terminal_envelope (u : Cli.Unit) (events : list Cli.Event) (code : option Z)
    (w : Cli.World J) :
  closes events = 0 ->
  exists out,
    Cli.sent (snd (Cli.run u (events ++ [Cli.Close code]) (Cli.spawn_registered u w))) =
      Cli.sent w ++ out ++ [(Cli.unit_ws u, ClaudeComplete code (Cli.isNewSession u))] /\
    count is_claude_complete (map snd out) = 0.
Proof.
  intros Hcl.
  destruct (spawn_registered_frame u w) as (_ & _ & _ & Hs & _).
  destruct (Cli.spawn_registered u w) as [c0 w0]. cbn [fst snd] in Hs.
  destruct (cli_run_close u events code c0 w0) as [out Hout].
  exists out. rewrite Hs in Hout. split; [exact Hout|].
  pose proof (run_completed u (events ++ [Cli.Close code]) c0 w0) as Hn.
  unfold cli_completed in Hn.
  rewrite Hout, Hs, !map_app, !count_app in Hn. cbn [map snd] in Hn.
  rewrite count_cons, count_nil in Hn. cbn [is_claude_complete] in Hn.
  assert (closes (events ++ [Cli.Close code]) = 1) as Hone.
  { clear - Hcl. induction events as [|e events IH]; [done|].
    rewrite closes_cons in Hcl. cbn [app]. rewrite closes_cons. destruct e; cbn in *; auto; lia. }
  lia.
Qed.

(** An SDK unit whose query was created, however its stream ends (normally,
    on an error, on an abort): its last envelope is its only
    [claude-complete]. *)
Lemma sdk_terminal_envelope (u : Sdk.Unit) (q : Handle) (stream : Sdk.Stream) (w : Sdk.World) :
  exists out,
    Sdk.sent (Sdk.start u (Sdk.QueryReturns q stream) w) =
      Sdk.sent w ++ out ++ [(Sdk.unit_ws u, ClaudeComplete (Some 0%Z) (Sdk.isNewSession u))] /\
    count is_claude_complete (map snd out) = 0.
Proof.
  unfold Sdk.start.
  pose proof (sessionId_or_generated_frame (Sdk.options u) w) as (Hs & _).
  destruct (Sdk.sessionId_or_generated (Sdk.options u) w) as [captured w0].
  cbn [fst snd] in Hs.
  destruct (run_counts u q captured stream (Sdk.abort_existing captured w0))
    as (_ & Hn & out & Hout).
  cbv zeta in *. rewrite abort_existing_sent, Hs in Hout.
  exists out. split; [exact Hout|].
  unfold sdk_completed in Hn.
  rewrite Hout, abort_existing_sent, Hs, !map_app, !count_app in Hn. cbn [map snd] in Hn.
  rewrite count_cons, count_nil in Hn. cbn [is_claude_complete] in Hn. lia.
Qed.

End Terminal.

(** ** Lines that do not parse, and messages of kind user *)

Section Relay.
Context {J : Type} `{JsonApi J} `{Sdk.IdSource}.

(** C7, as amended.  A complete line that does not parse is reported with
    [console.error] and with nothing else: no envelope is sent for it, the
    closure and the registry are left as they were, and the loop goes on
    with the lines that follow. *)
Theorem unparsed_line_is_logged_and_skipped (u : Cli.Unit) (l : string) (rest : list string)
    (c : Cli.Closure) (w : Cli.World J) :
  rest <> [] ->
  JS.is_empty (JS.trim l) = false ->
  JSON_parse (JS.trim l) = None ->
  let w' := Cli.log_error "Failed to parse Claude output line:" (JS.trim l) w in
  Cli.on_lines u (l :: rest) (c, w) = Cli.on_lines u rest (c, w') /\
  Cli.sent w' = Cli.sent w /\
  Cli.activeClaudeProcesses w' = Cli.activeClaudeProcesses w /\
  Cli.console_error w' =
    Cli.console_error w ++ [("Failed to parse Claude output line:", JS.trim l)].
Proof.
  intros Hrest Hne Hparse. cbv zeta. repeat split.
  destruct rest as [|l2 rest]; [done|].
  by rewrite on_lines_cons2, Hne, on_line_unparsed.
Qed.

(** C8, as amended.  The SDK loop sends nothing for a message of kind
    user and leaves its state as it was.  The subprocess decoder does not
    look at the kind of a message: every line that parses to a value other
    than [null] is relayed as a [claude-response], a message of kind user
    like any other. *)
Theorem user_echo_suppressed_by_sdk_only :
  (forall (u : Sdk.Unit) (q : Handle) (message : Json.value) (sid : string)
          (s : Sdk.Closure * Sdk.World),
      Sdk.on_message u q (Sdk.UserMessage message sid) s = s) /\
  (forall (u : Cli.Unit) (line : string) (output : J) (c : Cli.Closure) (w : Cli.World J),
      JSON_parse line = Some output -> is_null output = false ->
      exists pre,
        Cli.sent (snd (Cli.on_line u line (c, w))) =
          Cli.sent w ++ pre ++ [(Cli.unit_ws u, ClaudeResponse output)]).
Proof.
  split.
  - by intros u q message sid [c w].
  - intros u line output c w Hp Hn.
    destruct (on_line_parsed u line output c w Hp Hn) as (c' & w' & Hstep & pre & Hpre).
    exists pre. rewrite Hstep. cbn. by rewrite Hpre, app_assoc.
Qed.

End Relay.

(** ** Units that never report a session id *)

Section Unregistered.
Context {J : Type} `{JsonApi J}.

(** C10.  In the subprocess file, as long as no line of the output has
    parsed to a message with a session id, the handlers add no entry to
    the registry: whatever the events so far, the registry holds at most
    the entries it held before the unit was spawned, [abortClaudeSession]
    answers [false] for every id that had no entry then, and for every id
    when the registry was empty.  The entry is added by the first line that
    carries a session id when none is captured. *)
Theorem unit_unregistered_until_session_id (u : Cli.Unit) :
  (forall (events : list Cli.Event) (w : Cli.World J),
      Forall (fun l => Cli.carries_session_id l = false)
        (Cli.parsed_lines EmptyString events) ->
      let w' := snd (Cli.run u events (Cli.spawn_registered u w)) in
      Cli.activeClaudeProcesses w' ⊆ Cli.activeClaudeProcesses w /\
      (forall id, Cli.activeClaudeProcesses w !! id = None ->
                  Cli.abortClaudeSession id w' = (false, w')) /\
      (Cli.activeClaudeProcesses w = ∅ ->
       forall id, Cli.abortClaudeSession id w' = (false, w'))) /\
  (forall (line : string) (c : Cli.Closure) (w : Cli.World J),
      Cli.carries_session_id line = true ->
      JS.truthy (Cli.capturedSessionId c) = false ->
      exists sid,
        Cli.activeClaudeProcesses (snd (Cli.on_line u line (c, w))) !! sid =
          Some {| Cli.process := Cli.claudeProcess u; Cli.entry_sessionId := sid;
                  Cli.ws := Cli.unit_ws u |}).
Proof.
  split.
  - intros events w Hno. cbv zeta.
    destruct (spawn_registered_frame u w) as (Hc & Hf & Hb & Hs & Hsub).
    destruct (Cli.spawn_registered u w) as [c0 w0]. cbn [fst snd] in *.
    destruct (run_registry u events c0 w0) as (Hr & _).
    { right. by rewrite Hb. }
    cbv zeta in Hr.
    assert (Cli.activeClaudeProcesses (Cli.run u events (c0, w0)).2 ⊆
            Cli.activeClaudeProcesses w) as Hsub' by (by etrans).
    split; [done|].
    assert (forall id, Cli.activeClaudeProcesses w !! id = None ->
              Cli.abortClaudeSession id (Cli.run u events (c0, w0)).2 =
                (false, (Cli.run u events (c0, w0)).2)) as Habort.
    { intros id Hid. apply cli_abort_unregistered.
      by apply (lookup_weaken_None _ _ _ Hid). }
    split; [done|]. intros Hempty id. apply Habort. by rewrite Hempty, lookup_empty.
  - intros line c w Hcarry Hcap.
    unfold Cli.carries_session_id in Hcarry. unfold Cli.on_line.
    destruct (JSON_parse line) as [output|]; [|done].
    destruct (is_null output); [done|]. cbn in Hcarry.
    destruct (session_id output) as [sid|]; [|done].
    exists sid. rewrite Hcarry, Hcap. cbn.
    destruct (Cli.sessionCreatedSent c); cbn; apply lookup_insert_eq.
Qed.

End Unregistered.

(** ** Attachments *)

Section DataUri.

Lemma strip_prefix_spec (p s r : string) :
  Images.strip_prefix p s = Some r <-> s = p +:+ r.
Proof.
  revert s. induction p as [|a p IH]; intros s; cbn [Images.strip_prefix].
  - change (EmptyString +:+ r) with r. split; congruence.
  - change (String a p +:+ r) with (String a (p +:+ r)).
    destruct s as [|b s]; [split; discriminate|].
    destruct (Ascii.eqb_spec a b) as [->|Hne].
    + rewrite IH. split; congruence.
    + split; [discriminate | congruence].
Qed.

Lemma append_cons (a : ascii) (p r : string) : String a p +:+ r = String a (p +:+ r).
Proof. reflexivity. Qed.

Lemma append_nil (r : string) : EmptyString +:+ r = r.
Proof. reflexivity. Qed.

Lemma span_not_spec (c : ascii) (s a b : string) :
  Images.span_not c s = (a, b) <->
  s = a +:+ b /\ JS.occurs c a = false /\
  (b = EmptyString \/ exists b', b = String c b').
Proof.
  revert a b. induction s as [|x s IH]; intros a b; cbn [Images.span_not].
  - split.
    + intros [= <- <-]. auto.
    + intros (Hs & _ & _). destruct a; [|discriminate].
      rewrite append_nil in Hs. by subst.
  - destruct (Ascii.eqb_spec x c) as [->|Hne].
    + split.
      * intros [= <- <-]. repeat split. right. by eexists.
      * intros (Hs & Ho & Hb). destruct a as [|y a].
        -- rewrite append_nil in Hs. by subst.
        -- rewrite append_cons in Hs. cbn in Ho. injection Hs as <- _.
           by rewrite Ascii.eqb_refl in Ho.
    + destruct (Images.span_not c s) as [p rest] eqn:Hspan.
      split.
      * intros [= <- <-]. destruct (proj1 (IH p rest) eq_refl) as (-> & Ho & Hb).
        repeat split; [|done]. cbn. rewrite Ho.
        by destruct (Ascii.eqb_spec x c).
      * intros (Hs & Ho & Hb). destruct a as [|y a].
        -- rewrite append_nil in Hs. subst b. destruct Hb as [|[b' [= -> _]]]; done.
        -- rewrite append_cons in Hs. cbn in Ho. injection Hs as <- Hs.
           apply orb_false_iff in Ho as [_ Ho].
           assert ((p, rest) = (a, b)) as Hab by (apply IH; auto).
           by injection Hab as -> ->.
Qed.

(** The attachments the loop accepts: [data:], a non-empty media type
    without a semicolon, [;base64,], and a non-empty payload without a line
    terminator. *)
Lemma match_data_uri_spec (data mimeType base64Data : string) :
  Images.match_data_uri data = Some (mimeType, base64Data) <->
  data = "data:" +:+ mimeType +:+ ";base64," +:+ base64Data /\
  mimeType <> EmptyString /\ JS.occurs ";"%char mimeType = false /\
  base64Data <> EmptyString /\ Images.has_line_terminator base64Data = false.
Proof.
  unfold Images.match_data_uri. split.
  - destruct (Images.strip_prefix "data:" data) as [r|] eqn:Hp; [|done].
    apply strip_prefix_spec in Hp as ->.
    destruct (Images.span_not ";"%char r) as [m r1] eqn:Hspan.
    apply span_not_spec in Hspan as (-> & Ho & _).
    destruct m as [|x m]; [done|]. cbn [JS.is_empty].
    destruct (Images.strip_prefix ";base64," r1) as [b|] eqn:Hb; [|done].
    apply strip_prefix_spec in Hb as ->.
    destruct b as [|y b]; [done|]. cbn [JS.is_empty orb].
    destruct (Images.has_line_terminator (String y b)) eqn:Hlt; [done|].
    intros [= <- <-]. repeat split; done.
  - intros (-> & Hm & Ho & Hb & Hlt).
    assert (Images.strip_prefix "data:" ("data:" +:+ mimeType +:+ ";base64," +:+ base64Data)
            = Some (mimeType +:+ ";base64," +:+ base64Data)) as -> by (by apply strip_prefix_spec).
    assert (Images.span_not ";"%char (mimeType +:+ ";base64," +:+ base64Data)
            = (mimeType, ";base64," +:+ base64Data)) as ->.
    { apply span_not_spec. repeat split; [done|]. right. by eexists. }
    destruct mimeType as [|x m]; [done|]. cbn [JS.is_empty].
    assert (Images.strip_prefix ";base64," (";base64," +:+ base64Data) = Some base64Data)
      as -> by (by apply strip_prefix_spec).
    destruct base64Data as [|y b]; [done|]. cbn [JS.is_empty orb]. by rewrite Hlt.
Qed.

End DataUri.

Section Attachments.
Context `{Images.FsEnv}.

Lemma files_from_cons (dir : string) (k : nat) (data : string) (imgs : list string) :
  Images.files_from dir k (data :: imgs) =
    match Images.materialised dir k data with
    | Some f => f :: Images.files_from dir (S k) imgs
    | None => Images.files_from dir (S k) imgs
    end.
Proof.
  unfold Images.files_from. rewrite imap_cons. cbn [omap list_omap].
  replace (k + 0) with k by lia.
  assert (imap ((fun i d => Images.materialised dir (k + i) d) ∘ S) imgs =
          imap (fun i d => Images.materialised dir (S k + i) d) imgs) as ->.
  { apply imap_ext. intros i x _. cbn. f_equal. lia. }
  by destruct (Images.materialised dir k data).
Qed.

(** When no [writeFile] throws, the loop runs to its end, writes the file of
    every well-formed attachment and logs one line per skipped one. *)
Lemma save_images_all (dir : string) (imgs : list string) (k : nat) (acc : Images.Saved) :
  (forall path, Images.writeFile_throws path = false) ->
  let r := Images.save_images dir k imgs acc in
  fst r = true /\
  Images.written (snd r) = Images.written acc ++ Images.files_from dir k imgs /\
  Images.tempImagePaths (snd r) =
    Images.tempImagePaths acc ++ map fst (Images.files_from dir k imgs) /\
  Images.errors (snd r) =
    Images.errors acc ++
    replicate (length (filter (fun d => Images.match_data_uri d = None) imgs))
      "Invalid image data format".
Proof.
  intros Hok. revert k acc. induction imgs as [|data imgs IH]; intros k acc.
  - cbn. by rewrite !app_nil_r.
  - cbn [Images.save_images]. rewrite files_from_cons, filter_cons.
    unfold Images.materialised.
    destruct (Images.match_data_uri data) as [[mimeType base64Data]|] eqn:Hm.
    + rewrite Hok. rewrite decide_False by done.
      destruct (IH (S k) {|
          Images.written := Images.written acc ++
            [(Images.path_join dir (Images.filename k mimeType), base64Data)];
          Images.tempImagePaths := Images.tempImagePaths acc ++
            [Images.path_join dir (Images.filename k mimeType)];
          Images.errors := Images.errors acc |}) as (Hr & Hw & Hp & He).
      cbv zeta in *. cbn [Images.written Images.tempImagePaths Images.errors] in *.
      rewrite Hr, Hw, Hp, He. cbn [map fst]. by rewrite <- !app_assoc.
    + rewrite decide_True by done.
      destruct (IH (S k) {|
          Images.written := Images.written acc;
          Images.tempImagePaths := Images.tempImagePaths acc;
          Images.errors := Images.errors acc ++ ["Invalid image data format"] |})
        as (Hr & Hw & Hp & He).
      cbv zeta in *. cbn [Images.written Images.tempImagePaths Images.errors] in *.
      rewrite Hr, Hw, Hp, He. cbn [length replicate]. by rewrite <- !app_assoc.
Qed.

Lemma files_from_lookup (dir : string) (imgs : list string) (k i : nat) (data : string)
    (f : string * string) :
  imgs !! i = Some data ->
  Images.materialised dir (k + i) data = Some f ->
  f ∈ Images.files_from dir k imgs.
Proof.
  intros Hi Hf. unfold Images.files_from. apply list_elem_of_omap.
  exists (Some f). split; [|done].
  apply list_elem_of_lookup. exists i.
  rewrite list_lookup_imap, Hi. cbn. by rewrite Hf.
Qed.

End Attachments.

Section AttachmentsAndSession.
Context `{Images.FsEnv} `{Sdk.IdSource} {J : Type} `{JsonApi J}.

Lemma files_from_length (dir : string) (imgs : list string) (k : nat) :
  length (Images.files_from dir k imgs) =
  length (filter (fun d => Images.match_data_uri d <> None) imgs).
Proof.
  revert k. induction imgs as [|data imgs IH]; intros k; [done|].
  rewrite files_from_cons, filter_cons. unfold Images.materialised.
  destruct (Images.match_data_uri data) as [[m p]|].
  - rewrite decide_True by done. cbn. by rewrite IH.
  - rewrite decide_False by (intros Hne; by apply Hne). apply IH.
Qed.

Lemma files_from_all_skipped (dir : string) (imgs : list string) (k : nat) :
  Forall (fun d => Images.match_data_uri d = None) imgs -> Images.files_from dir k imgs = [].
Proof.
  revert k. induction imgs as [|data imgs IH]; intros k Hall; [done|].
  inversion Hall as [|? ? Hd Hr]; subst.
  rewrite files_from_cons. unfold Images.materialised. rewrite Hd. by apply IH.
Qed.

(** What the [try] block of the attachments does when neither [mkdir] nor
    [writeFile] throws. *)
Lemma process_images_all (dir cmd : string) (imgs : list string) :
  Images.mkdir_throws dir = false ->
  (forall path, Images.writeFile_throws path = false) ->
  let out := Images.process_images dir cmd imgs in
  Images.written (Images.saved out) = Images.files_from dir 0 imgs /\
  Images.tempImagePaths (Images.saved out) = map fst (Images.files_from dir 0 imgs) /\
  (Images.files_from dir 0 imgs = [] -> Images.modifiedCommand out = None).
Proof.
  intros Hmk Hwr. unfold Images.process_images.
  destruct imgs as [|data imgs]; [done|]. rewrite Hmk.
  destruct (save_images_all dir (data :: imgs) 0 Images.no_saved Hwr) as (Hr & Hw & Hp & _).
  destruct (Images.save_images dir 0 (data :: imgs) Images.no_saved) as [[|] s];
    [|discriminate].
  cbn [fst snd Images.written Images.tempImagePaths Images.no_saved app] in *.
  cbv zeta. cbn [Images.saved Images.modifiedCommand]. repeat split; try done.
  intros Hnil. rewrite Hp, Hnil. cbn. by destruct (negb _).
Qed.

(** Whatever the file system does, the loop writes files of well-formed
    attachments only, in their order: what it wrote is a prefix of
    [files_from]. *)
Lemma save_images_prefix (dir : string) (imgs : list string) (k : nat) (acc : Images.Saved) :
  exists done rest,
    Images.files_from dir k imgs = done ++ rest /\
    Images.written (snd (Images.save_images dir k imgs acc)) = Images.written acc ++ done /\
    Images.tempImagePaths (snd (Images.save_images dir k imgs acc)) =
      Images.tempImagePaths acc ++ map fst done.
Proof.
  revert k acc. induction imgs as [|data imgs IH]; intros k acc.
  - exists [], []. cbn. by rewrite !app_nil_r.
  - cbn [Images.save_images]. rewrite files_from_cons. unfold Images.materialised.
    destruct (Images.match_data_uri data) as [[mimeType base64Data]|].
    + destruct (Images.writeFile_throws _).
      * eexists [], _. cbn. by rewrite !app_nil_r.
      * match goal with |- context [Images.save_images dir (S k) imgs ?a] =>
          destruct (IH (S k) a) as (done & rest & Hf & Hw & Hp)
        end.
        exists ((Images.path_join dir (Images.filename k mimeType), base64Data) :: done), rest.
        rewrite Hf, Hw, Hp. cbn. by rewrite <- !app_assoc.
    + match goal with |- context [Images.save_images dir (S k) imgs ?a] =>
        destruct (IH (S k) a) as (done & rest & Hf & Hw & Hp)
      end.
      exists done, rest. by rewrite Hf, Hw, Hp.
Qed.

Lemma process_images_prefix (dir cmd : string) (imgs : list string) :
  exists done rest,
    Images.files_from dir 0 imgs = done ++ rest /\
    Images.written (Images.saved (Images.process_images dir cmd imgs)) = done /\
    Images.tempImagePaths (Images.saved (Images.process_images dir cmd imgs)) = map fst done.
Proof.
  unfold Images.process_images. destruct imgs as [|data imgs]; [by exists [], []|].
  destruct (Images.mkdir_throws dir); [by eexists [], _|].
  destruct (save_images_prefix dir (data :: imgs) 0 Images.no_saved)
    as (done & rest & Hf & Hw & Hp).
  exists done, rest. split; [done|].
  by destruct (Images.save_images dir 0 (data :: imgs) Images.no_saved) as [[|] sv].
Qed.

(** C9.  An attachment that does not match the data-URI pattern is
    skipped: whatever the file system does, the files written are files of
    well-formed attachments only, and when every attachment is malformed
    nothing is written and the prompt is the command itself.  The session
    goes on: with the SDK the query is created on the enhanced prompt and
    the unit ends with [claude-complete] of exit code 0; a subprocess that
    closes with code 0 ends the same way.  When neither [mkdir] nor
    [writeFile] fails, every well-formed attachment of the batch is
    written: the files are exactly those of the well-formed attachments,
    in order, each under the name of its position in the batch. *)
Theorem malformed_attachment_is_skipped (dir cmd : string) (opts : ClaudeSpawnOptions) :
  let out := Images.process_images dir cmd (images opts) in
  let isNew := negb (JS.truthy (sessionId opts)) && negb (JS.is_empty cmd) in
  (exists rest,
      Images.files_from dir 0 (images opts) = Images.written (Images.saved out) ++ rest) /\
  (Forall (fun d => Images.match_data_uri d = None) (images opts) ->
     Images.written (Images.saved out) = [] /\
     Sdk.enhancedPrompt cmd out = cmd) /\
  (forall to controller behaviour claudeQuery stream (w : Sdk.World),
      behaviour (Sdk.enhancedPrompt cmd out) = Sdk.QueryReturns claudeQuery stream ->
      exists pre,
        Sdk.sent (Sdk.startClaudeSession dir cmd opts to controller behaviour w) =
          Sdk.sent w ++ pre ++ [(to, ClaudeComplete (Some 0%Z) isNew)]) /\
  (forall to proc behaviour events (w : Cli.World J),
      behaviour (Cli.print_argument cmd out) = events ++ [Cli.Close (Some 0%Z)] ->
      exists pre,
        Cli.sent (snd (Cli.spawnClaude dir cmd opts to proc behaviour w)) =
          Cli.sent w ++ pre ++ [(to, ClaudeComplete (Some 0%Z) isNew)]) /\
  (Images.mkdir_throws dir = false ->
   (forall path, Images.writeFile_throws path = false) ->
   Images.written (Images.saved out) = Images.files_from dir 0 (images opts) /\
   Images.tempImagePaths (Images.saved out) =
     map fst (Images.files_from dir 0 (images opts)) /\
   length (Images.written (Images.saved out)) =
     length (filter (fun d => Images.match_data_uri d <> None) (images opts)) /\
   (forall i data mimeType base64Data,
       images opts !! i = Some data ->
       Images.match_data_uri data = Some (mimeType, base64Data) ->
       (Images.path_join dir (Images.filename i mimeType), base64Data)
         ∈ Images.written (Images.saved out))).
Proof.
  cbv zeta.
  destruct (process_images_prefix dir cmd (images opts)) as (done & rest & Hf & Hw & Hp).
  split; [exists rest; by rewrite Hw|].
  split.
  { intros Hall. rewrite (files_from_all_skipped dir (images opts) 0 Hall) in Hf.
    symmetry in Hf. apply app_eq_nil in Hf as [-> _]. split; [done|].
    unfold Sdk.enhancedPrompt, Images.process_images in *.
    destruct (images opts) as [|data imgs]; [done|].
    destruct (Images.mkdir_throws dir); [done|].
    destruct (Images.save_images dir 0 (data :: imgs) Images.no_saved) as [[|] sv]; [|done].
    cbn [Images.saved Images.modifiedCommand Images.tempImagePaths] in *.
    rewrite Hp. cbn. by destruct (negb _). }
  split.
  { intros to controller behaviour claudeQuery stream w Hb.
    unfold Sdk.startClaudeSession. rewrite Hb.
    match goal with |- context [Sdk.start ?u _ w] =>
      destruct (sdk_terminal_envelope u claudeQuery stream w) as (pre & Hpre & _)
    end.
    by exists pre. }
  split.
  { intros to proc behaviour events w Hb.
    unfold Cli.spawnClaude. rewrite Hb.
    match goal with |- context [Cli.spawn_registered ?u w] =>
      destruct (spawn_registered_frame u w) as (_ & _ & _ & Hs & _);
      destruct (Cli.spawn_registered u w) as [c0 w0];
      destruct (cli_run_close u events (Some 0%Z) c0 w0) as [pre Hpre]
    end.
    cbn [fst snd] in Hs. rewrite Hs in Hpre. by exists pre. }
  intros Hmk Hwr.
  destruct (process_images_all dir cmd (images opts) Hmk Hwr) as (Hall & Hpaths & _).
  cbv zeta in *. split; [done|]. split; [done|].
  split; [by rewrite Hall, files_from_length|].
  intros i data mimeType base64Data Hi Hm. rewrite Hall.
  apply (files_from_lookup dir (images opts) 0 i data); [done|].
  unfold Images.materialised. by rewrite Hm.
Qed.

End AttachmentsAndSession.



(** ** Chunk boundaries *)

Section Splitting.

Lemma append_nil_r (s : string) : s +:+ EmptyString = s.
Proof. induction s as [|a s IH]; [done|]. by rewrite append_cons, IH. Qed.

Lemma append_assoc (s t v : string) : (s +:+ t) +:+ v = s +:+ (t +:+ v).
Proof. induction s as [|a s IH]; [done|]. by rewrite !append_cons, IH. Qed.

Lemma split_lf_cons (c : ascii) (s : string) :
  JS.split_lf (String c s) =
    if Ascii.eqb c JS.LF then EmptyString :: JS.split_lf s
    else match JS.split_lf s with
         | l :: ls => String c l :: ls
         | [] => [String c EmptyString]
         end.
Proof. reflexivity. Qed.

(** Splitting a concatenation: the lines completed by [s], then the lines
    of what [s] leaves unterminated followed by [t]. *)
Lemma split_lf_app (s t : string) :
  JS.split_lf (s +:+ t) = removelast (JS.split_lf s) ++ JS.split_lf (Cli.raw_tail s +:+ t).
Proof.
  unfold Cli.raw_tail. induction s as [|c s IH]; [done|].
  rewrite append_cons, !split_lf_cons.
  destruct (Ascii.eqb c JS.LF) eqn:Hc.
  - rewrite IH. pose proof (split_lf_not_nil s) as Hne.
    destruct (JS.split_lf s) as [|x l]; [done|]. reflexivity.
  - rewrite IH. pose proof (split_lf_not_nil s) as Hne.
    destruct (JS.split_lf s) as [|x [|y l]]; [done| |].
    + cbn [removelast List.last app]. by rewrite append_cons, split_lf_cons, Hc.
    + reflexivity.
Qed.

Lemma split_lf_no_lf (s : string) : JS.no_lf s = true -> JS.split_lf s = [s].
Proof.
  unfold JS.no_lf. induction s as [|c s IH]; [done|]. cbn [JS.occurs].
  rewrite split_lf_cons. destruct (Ascii.eqb c JS.LF); [done|]. cbn [orb].
  intros Hs. by rewrite (IH Hs).
Qed.

Lemma raw_tail_no_lf (s : string) : JS.no_lf (Cli.raw_tail s) = true.
Proof.
  unfold Cli.raw_tail, JS.no_lf. induction s as [|c s IH]; [done|].
  rewrite split_lf_cons. pose proof (split_lf_not_nil s) as Hne.
  destruct (Ascii.eqb c JS.LF) eqn:Hc.
  - destruct (JS.split_lf s) as [|x l]; [done|]. exact IH.
  - destruct (JS.split_lf s) as [|x [|y l]]; [done| |].
    + cbn [List.last] in *. cbn [JS.occurs]. by rewrite Hc.
    + exact IH.
Qed.

Lemma raw_tail_of_no_lf (s : string) : JS.no_lf s = true -> Cli.raw_tail s = s.
Proof. intros Hs. unfold Cli.raw_tail. by rewrite split_lf_no_lf. Qed.

(** The framing of a list of lines followed by a non-empty list. *)
Lemma frames_app (l1 l2 : list string) :
  l2 <> [] ->
  Cli.frames (l1 ++ l2) =
    (filter (fun l => JS.is_empty l = false) (map JS.trim l1) ++ fst (Cli.frames l2),
     snd (Cli.frames l2)).
Proof.
  intros Hne. induction l1 as [|x l1 IH].
  - cbn. by destruct (Cli.frames l2).
  - assert (exists y l, l1 ++ l2 = y :: l) as (y & l & Hyl).
    { destruct l1 as [|y l1]; [destruct l2 as [|y l2]; [done|by exists y, l2] | by eexists _, _]. }
    cbn [app]. rewrite Hyl, frames_cons2, <- Hyl, IH. cbn [fst snd map].
    rewrite filter_cons. destruct (JS.is_empty (JS.trim x)); by destruct (decide _).
Qed.

Lemma frames_split_lf_fst (s : string) :
  fst (Cli.frames (JS.split_lf s)) =
    filter (fun l => JS.is_empty l = false) (map JS.trim (removelast (JS.split_lf s))).
Proof.
  pose proof (split_lf_not_nil s) as Hne.
  rewrite (app_removelast_last EmptyString Hne) at 1.
  rewrite frames_app by done. cbn. by rewrite app_nil_r.
Qed.

Lemma frames_split_lf_snd (s : string) :
  snd (Cli.frames (JS.split_lf s)) = JS.trim (Cli.raw_tail s).
Proof.
  pose proof (split_lf_not_nil s) as Hne.
  rewrite (app_removelast_last EmptyString Hne) at 1.
  by rewrite frames_app.
Qed.

(** The lines completed by a text are those completed by a prefix of it,
    then those completed once the rest follows what the prefix left. *)
Lemma frames_split_lf_app (s t : string) :
  fst (Cli.frames (JS.split_lf (s +:+ t))) =
    fst (Cli.frames (JS.split_lf s)) ++ fst (Cli.frames (JS.split_lf (Cli.raw_tail s +:+ t))).
Proof.
  rewrite split_lf_app, frames_app by apply split_lf_not_nil.
  cbn [fst]. by rewrite (frames_split_lf_fst s).
Qed.

Lemma raw_tail_app (s t : string) : Cli.raw_tail (s +:+ t) = Cli.raw_tail (Cli.raw_tail s +:+ t).
Proof.
  unfold Cli.raw_tail at 1. rewrite split_lf_app.
  pose proof (split_lf_not_nil (Cli.raw_tail s +:+ t)) as Hne.
  rewrite (app_removelast_last EmptyString Hne), app_assoc, List.last_last.
  unfold Cli.raw_tail at 1. 
  by rewrite (app_removelast_last EmptyString Hne) at 1; rewrite List.last_last.
Qed.

(** ** Trimming and concatenation *)

Lemma trim_start_all_ws (r f : string) :
  JS.trim_start r = EmptyString -> JS.trim_start (r +:+ f) = JS.trim_start f.
Proof.
  induction r as [|c r IH]; [done|]. cbn [JS.trim_start]. rewrite append_cons.
  cbn [JS.trim_start]. destruct (JS.is_white_space c); [exact IH | discriminate].
Qed.

Lemma trim_start_some (r f : string) :
  JS.trim_start r <> EmptyString -> JS.trim_start (r +:+ f) = JS.trim_start r +:+ f.
Proof.
  induction r as [|c r IH]; [done|]. cbn [JS.trim_start]. rewrite append_cons.
  cbn [JS.trim_start]. destruct (JS.is_white_space c); [exact IH | done].
Qed.

Lemma trim_start_idemp (r : string) : JS.trim_start (JS.trim_start r) = JS.trim_start r.
Proof.
  induction r as [|c r IH]; [done|]. cbn [JS.trim_start].
  destruct (JS.is_white_space c) eqn:Hc; [exact IH|]. cbn [JS.trim_start]. by rewrite Hc.
Qed.

Lemma trim_end_cons (c : ascii) (r : string) :
  JS.trim_end (String c r) =
    match JS.trim_end r with
    | EmptyString => if JS.is_white_space c then EmptyString else String c EmptyString
    | r' => String c r'
    end.
Proof. reflexivity. Qed.

Lemma trim_end_empty_start (r : string) :
  JS.trim_end r = EmptyString -> JS.trim_start r = EmptyString.
Proof.
  induction r as [|c r IH]; [done|]. rewrite trim_end_cons. cbn [JS.trim_start].
  destruct (JS.trim_end r); [|discriminate].
  destruct (JS.is_white_space c); [intros _; by apply IH | discriminate].
Qed.

Lemma trim_end_fixed_start (r : string) :
  JS.trim_end r = r -> JS.trim_end (JS.trim_start r) = JS.trim_start r.
Proof.
  induction r as [|c r IH]; [done|]. intros Hfix. cbn [JS.trim_start].
  destruct (JS.is_white_space c) eqn:Hc; [|exact Hfix].
  apply IH. rewrite trim_end_cons in Hfix.
  destruct (JS.trim_end r) as [|x t] eqn:Ht.
  - rewrite Hc in Hfix. discriminate.
  - by injection Hfix.
Qed.

(** Trimming a Cli.safe carried text before the rest of its line is appended
    gives the same trimmed line. *)
Lemma trim_carry (r f : string) :
  Cli.safe r = true -> JS.trim (JS.trim r +:+ f) = JS.trim (r +:+ f).
Proof.
  unfold Cli.safe, JS.trim. intros Hsafe.
  destruct (JS.trim_start r) as [|x t] eqn:Hstart.
  - cbn [JS.trim_end]. rewrite append_nil. by rewrite trim_start_all_ws.
  - apply orb_true_iff in Hsafe as [Hfix|Hempty].
    + apply String.eqb_eq in Hfix. pose proof (trim_end_fixed_start r Hfix) as Hts.
      rewrite Hstart in Hts. rewrite Hts.
      rewrite (trim_start_some r f) by (by rewrite Hstart). rewrite Hstart.
      rewrite <- Hstart at 1. rewrite trim_start_some by (by rewrite trim_start_idemp, Hstart).
      by rewrite trim_start_idemp, Hstart.
    + destruct (JS.trim_end r) eqn:Hend; [|done].
      apply trim_end_empty_start in Hend. congruence.
Qed.

Lemma no_lf_trim_start (r : string) : JS.no_lf r = true -> JS.no_lf (JS.trim_start r) = true.
Proof.
  unfold JS.no_lf. induction r as [|c r IH]; [done|]. cbn [JS.trim_start JS.occurs].
  destruct (JS.is_white_space c); [|done].
  destruct (Ascii.eqb c JS.LF); [done|]. exact IH.
Qed.

Lemma no_lf_trim_end (r : string) : JS.no_lf r = true -> JS.no_lf (JS.trim_end r) = true.
Proof.
  unfold JS.no_lf. induction r as [|c r IH]; [done|]. rewrite trim_end_cons.
  cbn [JS.occurs]. destruct (Ascii.eqb c JS.LF) eqn:Hc; [done|]. cbn [orb].
  intros Hr. specialize (IH Hr).
  destruct (JS.trim_end r) as [|x t].
  - destruct (JS.is_white_space c); [done|]. cbn [JS.occurs]. by rewrite Hc.
  - cbn [JS.occurs] in *. by rewrite Hc.
Qed.

Lemma no_lf_trim (r : string) : JS.no_lf r = true -> JS.no_lf (JS.trim r) = true.
Proof. intros Hr. unfold JS.trim. by apply no_lf_trim_end, no_lf_trim_start. Qed.

(** A text without line feed put before a chunk extends its first line. *)
Lemma split_lf_carry (x d : string) :
  JS.no_lf x = true ->
  JS.split_lf (x +:+ d) =
    match JS.split_lf d with
    | f :: rest => (x +:+ f) :: rest
    | [] => []
    end.
Proof.
  intros Hx. rewrite split_lf_app, (split_lf_no_lf x Hx), (raw_tail_of_no_lf x Hx).
  cbn [removelast app].
  pose proof (split_lf_not_nil d) as Hne. revert Hx.
  unfold JS.no_lf. induction x as [|c x IH]; intros Hx.
  - rewrite append_nil. by destruct (JS.split_lf d).
  - cbn [JS.occurs] in Hx. rewrite append_cons, split_lf_cons.
    destruct (Ascii.eqb c JS.LF); [done|]. cbn [orb] in Hx.
    rewrite (IH Hx). by destruct (JS.split_lf d).
Qed.

Lemma frames_head (x y : string) (rest : list string) :
  JS.trim x = JS.trim y -> Cli.frames (x :: rest) = Cli.frames (y :: rest).
Proof.
  intros Hxy. destruct rest as [|z rest]; [cbn; by rewrite Hxy|].
  by rewrite !frames_cons2, Hxy.
Qed.

(** The loop finds the same lines, and carries the same text, whether a
    Cli.safe carried text was trimmed or not. *)
Lemma frames_carry (r d : string) :
  JS.no_lf r = true -> Cli.safe r = true ->
  Cli.frames (JS.split_lf (JS.trim r +:+ d)) = Cli.frames (JS.split_lf (r +:+ d)).
Proof.
  intros Hr Hsafe.
  rewrite (split_lf_carry (JS.trim r) d (no_lf_trim r Hr)), (split_lf_carry r d Hr).
  destruct (JS.split_lf d) as [|f rest]; [done|].
  apply frames_head. by apply trim_carry.
Qed.

(** When every boundary between chunks is Cli.safe, the decoder hands the same
    lines to the [try] block as when the chunks arrive as one. *)
Lemma parsed_lines_chunks (chunks : list string) (r : string) :
  JS.no_lf r = true -> Cli.safe r = true -> Cli.boundaries_safe r chunks = true ->
  Cli.parsed_lines (JS.trim r) (map Cli.StdoutData chunks) =
    fst (Cli.frames (JS.split_lf (r +:+ String.concat EmptyString chunks))).
Proof.
  revert r. induction chunks as [|d ds IH]; intros r Hr Hsafe Hb.
  - cbn. rewrite append_nil_r, (split_lf_no_lf r Hr). reflexivity.
  - cbn [map Cli.parsed_lines]. rewrite (frames_carry r d Hr Hsafe).
    destruct (Cli.frames (JS.split_lf (r +:+ d))) as [ls b] eqn:Hfr.
    assert (b = JS.trim (Cli.raw_tail (r +:+ d))) as ->
      by (by rewrite <- frames_split_lf_snd, Hfr).
    assert (ls = fst (Cli.frames (JS.split_lf (r +:+ d)))) as -> by (by rewrite Hfr).
    destruct ds as [|d2 ds].
    + cbn. by rewrite !app_nil_r.
    + cbn [Cli.boundaries_safe] in Hb. apply andb_true_iff in Hb as [Hs1 Hb1].
      rewrite (IH (Cli.raw_tail (r +:+ d)) (raw_tail_no_lf _) Hs1 Hb1).
      change (String.concat EmptyString (d :: d2 :: ds))
        with (d +:+ String.concat EmptyString (d2 :: ds)).
      by rewrite <- (append_assoc r d), (frames_split_lf_app (r +:+ d)).
Qed.

End Splitting.

Section Chunking.
Context {J : Type} `{JsonApi J}.
Implicit Types (u : Cli.Unit) (c : Cli.Closure) (w : Cli.World J).

Lemma on_line_core u (l : string) c c' w :
  same_core c c' ->
  snd (Cli.on_line u l (c, w)) = snd (Cli.on_line u l (c', w)) /\
  same_core (fst (Cli.on_line u l (c, w))) (fst (Cli.on_line u l (c', w))).
Proof.
  unfold same_core. destruct c as [cap flag ? ? ? ?], c' as [cap' flag' ? ? ? ?].
  cbn. intros [-> ->]. unfold Cli.on_line.
  destruct (JSON_parse l) as [output|]; [|done].
  destruct (is_null output); [done|].
  destruct (session_id output) as [[|a sid]|]; [done| |done].
  by destruct cap' as [[|a' cap']|], flag'.
Qed.

Lemma fold_on_line_core u (ls : list string) c c' w :
  same_core c c' ->
  snd (fold_left (fun s l => Cli.on_line u l s) ls (c, w)) =
    snd (fold_left (fun s l => Cli.on_line u l s) ls (c', w)) /\
  same_core (fst (fold_left (fun s l => Cli.on_line u l s) ls (c, w)))
            (fst (fold_left (fun s l => Cli.on_line u l s) ls (c', w))).
Proof.
  revert c c' w. induction ls as [|l ls IH]; intros c c' w Hcore; [done|].
  cbn [fold_left]. destruct (on_line_core u l c c' w Hcore) as (Hw & Hc).
  destruct (Cli.on_line u l (c, w)) as [c1 w1], (Cli.on_line u l (c', w)) as [c1' w1'].
  cbn [fst snd] in *. subst w1'. by apply IH.
Qed.

(** The handlers run on a sequence of chunks do to the world what the
    [try] block does on the lines framed from them. *)
Lemma run_chunks u (chunks : list string) c c' w :
  same_core c c' ->
  let s := Cli.run u (map Cli.StdoutData chunks) (c, w) in
  let s' := fold_left (fun s l => Cli.on_line u l s)
              (Cli.parsed_lines (Cli.currentJsonBuffer c) (map Cli.StdoutData chunks)) (c', w) in
  snd s = snd s' /\ same_core (fst s) (fst s').
Proof.
  revert c c' w. induction chunks as [|d ds IH]; intros c c' w Hcore; [done|].
  cbv zeta. cbn [map Cli.parsed_lines]. rewrite run_cons. cbn [Cli.handle].
  rewrite stdout_on_data_frames.
  destruct (Cli.frames (JS.split_lf (Cli.currentJsonBuffer c +:+ d))) as [ls b].
  cbn [fst snd]. rewrite fold_left_app.
  match goal with |- context [fold_left _ ls (?c0, w)] =>
    destruct (fold_on_line_core u ls c0 c' w) as (Hw & Hc); [by destruct Hcore|];
    destruct (fold_left (fun s l => Cli.on_line u l s) ls (c0, w)) as [c1 w1]
  end.
  destruct (fold_left (fun s l => Cli.on_line u l s) ls (c', w)) as [c1' w1'].
  cbn [fst snd] in *. subst w1'.
  apply (IH (Cli.set_buffer b c1) c1' w1). by destruct c1.
Qed.

(** Chunking does not matter when every boundary between chunks is Cli.safe:
    the world after the chunks is the world after their concatenation
    delivered as one chunk. *)
Lemma decode_chunking_invariant u (chunks : list string) c w :
  Cli.currentJsonBuffer c = EmptyString ->
  Cli.boundaries_safe EmptyString chunks = true ->
  snd (Cli.run u (map Cli.StdoutData chunks) (c, w)) =
    snd (Cli.run u [Cli.StdoutData (String.concat EmptyString chunks)] (c, w)).
Proof.
  intros Hb Hsafe.
  destruct (run_chunks u chunks c c w) as (-> & _); [done|].
  destruct (run_chunks u [String.concat EmptyString chunks] c c w) as (Hone & _); [done|].
  cbn [map] in Hone. rewrite Hone, Hb.
  change EmptyString with (JS.trim EmptyString) at 1.
  rewrite (parsed_lines_chunks chunks EmptyString eq_refl eq_refl Hsafe).
  cbn [Cli.parsed_lines]. rewrite !append_nil.
  destruct (Cli.frames _). cbn. by rewrite app_nil_r.
Qed.

End Chunking.

(** ** A second start request for a session *)

Section RestartMore.
Context {J : Type} `{JsonApi J} `{Sdk.IdSource}.

Lemma cli_restart_of_unregistered_unit (u1 u2 : Cli.Unit) (X : string)
    (events : list Cli.Event) (w : Cli.World J) :
  sessionId (Cli.options u1) = Some X -> sessionId (Cli.options u2) = Some X ->
  JS.truthy (Some X) = true ->
  Cli.activeClaudeProcesses w !! X = None ->
  let s1 := Cli.run u1 events (Cli.spawn_registered u1 w) in
  snd (Cli.spawn_registered u2 (snd s1)) = snd s1 /\
  Cli.killed (snd s1) = Cli.killed w /\
  Cli.activeClaudeProcesses (snd s1) !! X = None.
Proof.
  intros Hid1 Hid2 Htruthy Hnone. cbv zeta.
  assert (snd (Cli.spawn_registered u1 w) = w) as Hw.
  { unfold Cli.spawn_registered. by rewrite Hid1, Htruthy, Hnone. }
  destruct (spawn_registered_frame u1 w) as (Hc & _).
  destruct (Cli.spawn_registered u1 w) as [c0 w0]. cbn [fst snd] in *. subst w0.
  destruct (run_registry u1 events c0 w) as (Hr & Hk & _).
  { left. by rewrite Hc, Hid1. }
  cbv zeta in Hr, Hk.
  assert (Cli.activeClaudeProcesses (Cli.run u1 events (c0, w)).2 !! X = None) as Hx
    by (by apply (lookup_weaken_None _ _ _ Hnone)).
  repeat split; try done.
  unfold Cli.spawn_registered. by rewrite Hid2, Htruthy, Hx.
Qed.

Lemma sdk_restart_replaces_entry (u : Sdk.Unit) (q : Handle) (X : string)
    (existing : Sdk.ActiveSession) (w : Sdk.World) :
  sessionId (Sdk.options u) = Some X -> JS.truthy (Some X) = true ->
  Sdk.activeSessions w !! X = Some existing ->
  Sdk.aborted (snd (sdk_during u q [] w)) =
    Sdk.aborted w ++ [Sdk.abortController existing] /\
  Sdk.activeSessions (snd (sdk_during u q [] w)) =
    <[X := Sdk.entry u q X]> (Sdk.activeSessions w).
Proof.
  intros Hid Htruthy Hreg. unfold sdk_during, sdk_loop.
  rewrite (sdk_sessionId_supplied _ X w Hid Htruthy).
  rewrite (sdk_abort_existing_registered X existing w Hreg). cbn.
  split; [done|]. apply insert_delete_eq.
Qed.

End RestartMore.

(** ** The model run on concrete inputs *)

Section Runs.
Import Samples.

Example json_parse_object :
  Json.parse (Json.dq "{'type':'system', 'session_id' : 'abc', 'n':[1,-2.5e3,true,null]}") =
  Some (Json.Obj [("type", Json.Str "system"); ("session_id", Json.Str "abc");
                  ("n", Json.Arr [Json.Number "1"; Json.Number "-2.5e3"; Json.Bool true; Json.Null])]).
Proof. vm_compute. reflexivity. Qed.

Example json_parse_rejects : Json.parse "{oops" = None /\ Json.parse "1 2" = None.
Proof. vm_compute. split; reflexivity. Qed.

Example split_lf_example :
  JS.split_lf ("a" +:+ JS.NL +:+ "b" +:+ JS.NL) = ["a"; "b"; EmptyString].
Proof. reflexivity. Qed.

Example trim_example : JS.trim ("  a b " +:+ JS.NL) = "a b".
Proof. reflexivity. Qed.

(** The boundary of [hello_chunks] is not safe: the carried text ends with
    a space. *)
Example hello_chunks_unsafe : Cli.boundaries_safe EmptyString hello_chunks = false.
Proof. reflexivity. Qed.

(** Two lines in two chunks, the boundary inside a key: the decoder relays
    the two messages as it does for one chunk. *)
Example chunks_with_safe_boundary :
  envelopes (Cli.sent (snd (cli_run new_session
    [Cli.StdoutData (Json.dq "{'a':1}" +:+ JS.NL +:+ Json.dq "{'b");
     Cli.StdoutData (Json.dq "':2}" +:+ JS.NL)]))) =
  [ClaudeResponse (Json.Obj [("a", Json.Number "1")]);
   ClaudeResponse (Json.Obj [("b", Json.Number "2")])].
Proof. vm_compute. reflexivity. Qed.

(** A spawn failure as Node reports it: [error], then [close]. *)
Example cli_spawn_failure_run :
  envelopes (Cli.sent (snd (cli_run new_session
    [Cli.SpawnError (Some "ENOENT") "spawn claude ENOENT"; Cli.Close (Some (-2)%Z)]))) =
  [ErrorEnvelope Cli.cli_not_found; ClaudeComplete (Some (-2)%Z) true].
Proof. vm_compute. reflexivity. Qed.


(** A new session over the SDK: [session-created], the responses, then the
    terminal envelope. *)
Example sdk_new_session_run :
  envelopes (Sdk.sent (Sdk.start (sdk_unit new_session)
    (Sdk.QueryReturns 300
       {| Sdk.messages := [Sdk.SystemMessage "init" "real-id" info;
                           Sdk.AssistantMessage (Json.Obj [("content", Json.Str "ok")]) "real-id"];
          Sdk.ending := Sdk.Done |}) Sdk.empty_world)) =
  [SessionCreated "real-id";
   ClaudeResponse (Sdk.SystemInit "real-id" info);
   ClaudeResponse (Sdk.AssistantData (Some (Json.Str "ok")) (Json.Obj [("content", Json.Str "ok")]) "real-id");
   ClaudeComplete (Some 0%Z) true].
Proof. vm_compute. reflexivity. Qed.

(** C1 (code at the failing input).  The call of [query] throws: the only
    envelope of the unit is an [error]; no [claude-complete] is sent. *)
Theorem sdk_launch_failure_sends_no_complete :
  envelopes (Sdk.sent (Sdk.start (sdk_unit new_session)
    (Sdk.QueryThrows "spawn claude ENOENT") Sdk.empty_world)) =
  [ErrorEnvelope "spawn claude ENOENT"] /\
  count is_claude_complete
    (envelopes (Sdk.sent (Sdk.start (sdk_unit new_session)
       (Sdk.QueryThrows "spawn claude ENOENT") Sdk.empty_world))) = 0.
Proof. vm_compute. split; reflexivity. Qed.

(** C3 (code at the failing input).  One line delivered whole is relayed
    with the text [hello world]; the same bytes delivered in two chunks,
    the first ending after the space, are relayed with the text
    [helloworld]: the text carried from the first chunk was trimmed, it is
    not the incomplete line as it arrived. *)
Theorem chunk_boundary_after_space_changes_message :
  envelopes (Cli.sent (snd (cli_run new_session [Cli.StdoutData hello_line]))) =
    [ClaudeResponse (Json.Obj [("type", Json.Str "assistant"); ("text", Json.Str "hello world")])] /\
  envelopes (Cli.sent (snd (cli_run new_session (map Cli.StdoutData hello_chunks)))) =
    [ClaudeResponse (Json.Obj [("type", Json.Str "assistant"); ("text", Json.Str "helloworld")])] /\
  String.concat EmptyString hello_chunks = hello_line /\
  Cli.currentJsonBuffer
    (fst (cli_run new_session
            [Cli.StdoutData (Json.dq "{'type':'assistant','text':'hello ")])) =
    Json.dq "{'type':'assistant','text':'hello".
Proof. vm_compute. repeat split; reflexivity. Qed.

(** C5 (code at the failing input).  A new session: the query is registered
    under a generated id, the unit reports [real-id], the stream ends.  The
    entry under the generated id is still in the registry after the unit
    has terminated: the id deleted on re-keying was generated anew. *)
Theorem sdk_provisional_entry_outlives_unit :
  let w := Sdk.start (sdk_unit new_session)
    (Sdk.QueryReturns 300
       {| Sdk.messages := [Sdk.SystemMessage "init" "real-id" info];
          Sdk.ending := Sdk.Done |}) Sdk.empty_world in
  Sdk.activeSessions w !! "temp-1700000000000-k3j9x2m1q" =
    Some {| Sdk.query := 300; Sdk.entry_sessionId := "temp-1700000000000-k3j9x2m1q";
            Sdk.ws := 1; Sdk.abortController := 200 |} /\
  Sdk.activeSessions w !! "real-id" = None /\
  count is_claude_complete (envelopes (Sdk.sent w)) = 1.
Proof. vm_compute. repeat split; reflexivity. Qed.

(** C2 (counterexample).  Two units that send no [session-created] at all:
    an SDK query aborted before its first message, and a resumed
    subprocess session, whose id is captured from the start, although its
    output carries a session id. *)
Lemma no_session_created_for_these_units :
  count is_session_created
    (envelopes (Sdk.sent (Sdk.start (sdk_unit new_session)
       (Sdk.QueryReturns 300
          {| Sdk.messages := []; Sdk.ending := Sdk.Throws "AbortError" "aborted" |})
       Sdk.empty_world))) = 0 /\
  envelopes (Cli.sent (snd (cli_run (resumed "session-1")
    [Cli.StdoutData (Json.dq "{'type':'result','session_id':'session-2'}" +:+ JS.NL);
     Cli.Close (Some 0%Z)]))) =
  [ClaudeResponse (Json.Obj [("type", Json.Str "result"); ("session_id", Json.Str "session-2")]);
   ClaudeComplete (Some 0%Z) false].
Proof. vm_compute. split; reflexivity. Qed.

(** C7 (counterexample).  A line that is not JSON: nothing is sent on the
    channel for it, neither a raw-unparsed envelope nor any other; the
    line goes to [console.error]. *)
Lemma unparsed_line_sends_no_envelope :
  Json.parse "Warning: no config" = None /\
  Cli.sent (snd (cli_run new_session [Cli.StdoutData ("Warning: no config" +:+ JS.NL)])) = [] /\
  Cli.console_error
    (snd (cli_run new_session [Cli.StdoutData ("Warning: no config" +:+ JS.NL)])) =
  [("Failed to parse Claude output line:", "Warning: no config")].
Proof. vm_compute. repeat split; reflexivity. Qed.

(** C8 (counterexample).  The subprocess decoder relays a message of kind
    user. *)
Lemma subprocess_relays_user_message :
  envelopes (Cli.sent (snd (cli_run (resumed "abc") [Cli.StdoutData user_line]))) =
    [ClaudeResponse user_message] /\
  Json.string_member "type" user_message = Some "user".
Proof. vm_compute. split; reflexivity. Qed.

(** C4.  The subprocess file at a second start request for the session
    [session-1] whose unit is live: the first unit, started with the
    caller's session id, has no entry in the registry, so the request finds
    nothing to cancel; no process is signalled, [abortClaudeSession] for the
    session answers [false], and both units go on relaying, each to its
    socket. *)
Theorem restart_leaves_resumed_unit_running :
  Cli.activeClaudeProcesses (snd Cases.first_running) !! "session-1" = None /\
  Cli.killed (snd Cases.second_spawned) = [] /\
  Cli.activeClaudeProcesses (snd Cases.second_spawned) !! "session-1" = None /\
  Cli.abortClaudeSession "session-1" (snd Cases.second_spawned) =
    (false, snd Cases.second_spawned) /\
  map fst
    (Cli.sent
       (snd (Cli.run Cases.second_unit [Cli.StdoutData Cases.answer_line]
               (fst Cases.second_spawned,
                snd (Cli.run (cli_unit (resumed "session-1"))
                       [Cli.StdoutData Cases.answer_line]
                       (fst Cases.first_running, snd Cases.second_spawned)))))) =
    [1; 1; 2].
Proof. vm_compute. repeat split; reflexivity. Qed.

(** C6 (witness): aborting a registered and an unregistered id. *)
Lemma abortClaudeSession_contract_witness :
  Cli.abortClaudeSession "session-2" cli_world_1 = (false, cli_world_1) /\
  fst (Cli.abortClaudeSession "session-1" cli_world_1) = true /\
  Sdk.abortClaudeSession "session-2" sdk_world_1 = (false, sdk_world_1) /\
  fst (Sdk.abortClaudeSession "session-1" sdk_world_1) = true.
Proof.
  destruct (abortClaudeSession_contract (J := Json.value) "session-2" cli_world_1 sdk_world_1)
    as (Hc2 & _ & Hs2 & _).
  destruct (abortClaudeSession_contract (J := Json.value) "session-1" cli_world_1 sdk_world_1)
    as (_ & Hc1 & _ & Hs1).
  assert (Cli.activeClaudeProcesses cli_world_1 !! "session-2" = None) as Hn1
    by (vm_compute; reflexivity).
  assert (Sdk.activeSessions sdk_world_1 !! "session-2" = None) as Hn2
    by (vm_compute; reflexivity).
  assert (Cli.activeClaudeProcesses cli_world_1 !! "session-1" = Some cli_entry) as Hc
    by (vm_compute; reflexivity).
  assert (Sdk.activeSessions sdk_world_1 !! "session-1" = Some sdk_entry) as Hs
    by (vm_compute; reflexivity).
  destruct (Hc1 cli_entry Hc) as (cw' & Hca & _).
  destruct (Hs1 sdk_entry Hs) as (sw' & Hsa & _).
  split; [exact (Hc2 Hn1)|]. split; [by rewrite Hca|].
  split; [exact (Hs2 Hn2)|]. by rewrite Hsa.
Defined.

(** C7 (witness): a line that is not JSON, followed by the empty last piece. *)
Lemma unparsed_line_is_logged_and_skipped_witness :
  Cli.on_lines (cli_unit new_session) ["Warning: no config"; EmptyString]
    (fst (cli_run new_session []), Cli.empty_world Json.value) =
  Cli.on_lines (cli_unit new_session) [EmptyString]
    (fst (cli_run new_session []),
     Cli.log_error "Failed to parse Claude output line:" "Warning: no config"
       (Cli.empty_world Json.value)).
Proof.
  assert ([EmptyString] <> []) as Hne by discriminate.
  assert (JS.is_empty (JS.trim "Warning: no config") = false) as Ht by reflexivity.
  assert (JSON_parse (JS.trim "Warning: no config") = None) as Hp by (vm_compute; reflexivity).
  exact (proj1 (unparsed_line_is_logged_and_skipped (cli_unit new_session)
                  "Warning: no config" [EmptyString] (fst (cli_run new_session []))
                  (Cli.empty_world Json.value) Hne Ht Hp)).
Defined.

(** C8 (witness): the user message on both back ends. *)
Lemma user_echo_suppressed_by_sdk_only_witness :
  Sdk.on_message (sdk_unit new_session) 300 (Sdk.UserMessage user_message "abc")
    ({| Sdk.capturedSessionId := "abc"; Sdk.sessionCreatedSent := true;
        Sdk.systemMessageSent := true |}, Sdk.empty_world) =
    ({| Sdk.capturedSessionId := "abc"; Sdk.sessionCreatedSent := true;
        Sdk.systemMessageSent := true |}, Sdk.empty_world) /\
  exists pre,
    Cli.sent (snd (Cli.on_line (cli_unit new_session) (JS.trim user_line)
                     (fst (cli_run new_session []), Cli.empty_world Json.value))) =
    Cli.sent (Cli.empty_world Json.value) ++ pre ++ [(1, ClaudeResponse user_message)].
Proof.
  destruct (user_echo_suppressed_by_sdk_only (J := Json.value)) as (Hsdk & Hcli).
  split; [apply Hsdk|].
  assert (JSON_parse (JS.trim user_line) = Some user_message) as Hp by (vm_compute; reflexivity).
  exact (Hcli (cli_unit new_session) (JS.trim user_line) user_message
           (fst (cli_run new_session [])) (Cli.empty_world Json.value) Hp eq_refl).
Defined.

(** C9 (witness): three attachments, the second without the base64 marker. *)
Lemma malformed_attachment_is_skipped_witness :
  Images.written (Images.saved
    (Images.process_images images_dir "describe these" three_images)) =
  [("/home/me/project/.tmp/images/1700000000000/image_0.png", "iVBORw0KGgo=");
   ("/home/me/project/.tmp/images/1700000000000/image_2.jpeg", "/9j/4AAQSkZJRg==")].
Proof.
  destruct (@malformed_attachment_is_skipped posix_fs temp_ids Json.value json_api
              images_dir "describe these" (with_images three_images))
    as (_ & _ & _ & _ & Hall).
  destruct (Hall eq_refl (fun _ => eq_refl)) as (Hw & _).
  cbv zeta in Hw. cbn [images with_images] in Hw. rewrite Hw. vm_compute. reflexivity.
Defined.

(** C10 (witness): output without a session id, in an empty registry. *)
Lemma unit_unregistered_until_session_id_witness :
  Cli.abortClaudeSession "session-1"
    (snd (cli_run new_session
            [Cli.StdoutData (Json.dq "{'type':'assistant','text':'hi'}" +:+ JS.NL);
             Cli.StderrData "warning"])) =
  (false,
   snd (cli_run new_session
          [Cli.StdoutData (Json.dq "{'type':'assistant','text':'hi'}" +:+ JS.NL);
           Cli.StderrData "warning"])).
Proof.
  destruct (unit_unregistered_until_session_id (J := Json.value) (cli_unit new_session))
    as (Hrun & _).
  assert (Forall (fun l => Cli.carries_session_id l = false)
            (Cli.parsed_lines EmptyString
               [Cli.StdoutData (Json.dq "{'type':'assistant','text':'hi'}" +:+ JS.NL);
                Cli.StderrData "warning"])) as Hno.
  { vm_compute. repeat constructor. }
  destruct (Hrun _ (Cli.empty_world Json.value) Hno) as (_ & _ & Hempty).
  exact (Hempty eq_refl "session-1").
Defined.


End Runs.

(** * Further properties of the two files *)

(** ** The subprocess decoder *)

Section DecoderMore.
Context {J : Type} `{JsonApi J}.
Implicit Types (u : Cli.Unit) (c : Cli.Closure) (w : Cli.World J).

Lemma raw_tail_ends_with_lf (s : string) : Cli.raw_tail (s +:+ JS.NL) = EmptyString.
Proof.
  unfold Cli.raw_tail at 1.
  rewrite split_lf_app, (split_lf_carry (Cli.raw_tail s) JS.NL (raw_tail_no_lf s)).
  change (JS.split_lf JS.NL) with [EmptyString; EmptyString].
  pose proof (List.last_last (removelast (JS.split_lf s) ++ [Cli.raw_tail s +:+ EmptyString])
                EmptyString EmptyString) as Hlast.
  by rewrite <- app_assoc in Hlast.
Qed.

Lemma line_aligned_boundaries_safe (chunks : list string) (r : string) :
  Forall ends_with_lf chunks -> Cli.boundaries_safe r chunks = true.
Proof.
  revert r. induction chunks as [|d ds IH]; intros r Hall; [done|].
  inversion Hall as [|? ? [d' ->] Hds]; subst.
  destruct ds as [|d2 ds]; [done|].
  change (Cli.boundaries_safe r ((d' +:+ JS.NL) :: d2 :: ds))
    with (Cli.safe (Cli.raw_tail (r +:+ (d' +:+ JS.NL))) &&
          Cli.boundaries_safe (Cli.raw_tail (r +:+ (d' +:+ JS.NL))) (d2 :: ds)).
  rewrite <- append_assoc, raw_tail_ends_with_lf. by rewrite (IH EmptyString Hds).
Qed.

(** X1.  Chunk boundaries that do not cut a line after white space do not
    matter: when no boundary leaves a carried text that ends with white
    space (in particular when every chunk ends with a line feed), the
    handlers leave the same world behind (the envelopes sent, the registry,
    the log) as when the whole output arrives in one chunk. *)
Theorem chunking_with_safe_boundaries u (chunks : list string) w :
  Cli.boundaries_safe EmptyString chunks = true \/ Forall ends_with_lf chunks ->
  snd (Cli.run u (map Cli.StdoutData chunks) (Cli.spawn_registered u w)) =
  snd (Cli.run u [Cli.StdoutData (String.concat EmptyString chunks)]
         (Cli.spawn_registered u w)).
Proof.
  intros Hsafe.
  assert (Cli.boundaries_safe EmptyString chunks = true) as Hb.
  { destruct Hsafe as [Hb|Hall]; [done | by apply line_aligned_boundaries_safe]. }
  destruct (spawn_registered_frame u w) as (_ & _ & Hbuf & _).
  destruct (Cli.spawn_registered u w) as [c0 w0]. cbn [fst] in Hbuf.
  by apply decode_chunking_invariant.
Qed.

(** X2.  A chunk that completes no line relays nothing: when the buffered
    text followed by the chunk has no line feed, the handler sends no
    envelope, logs nothing and leaves the registry alone; the text, trimmed,
    is what the buffer holds afterwards. *)
Theorem chunk_without_line_feed_relays_nothing u (data : string) c w :
  JS.no_lf (Cli.currentJsonBuffer c +:+ data) = true ->
  Cli.stdout_on_data u data (c, w) =
    ({| Cli.capturedSessionId := Cli.capturedSessionId c;
        Cli.sessionCreatedSent := Cli.sessionCreatedSent c;
        Cli.outputBuffer := Cli.outputBuffer c +:+ data;
        Cli.errorBuffer := Cli.errorBuffer c;
        Cli.currentJsonBuffer := JS.trim (Cli.currentJsonBuffer c +:+ data);
        Cli.promise := Cli.promise c |}, w).
Proof.
  intros Hno. unfold Cli.stdout_on_data.
  rewrite (split_lf_no_lf _ Hno), on_lines_last.
  by destruct (JS.trim (Cli.currentJsonBuffer c +:+ data)).
Qed.

Lemma on_line_relays u (l : string) c w :
  exists out,
    Cli.sent (snd (Cli.on_line u l (c, w))) = Cli.sent w ++ out /\
    filter (fun p => is_session_created (snd p) = false) out =
      match relayed l with
      | Some o => [(Cli.unit_ws u, ClaudeResponse o)]
      | None => []
      end.
Proof.
  unfold Cli.on_line, relayed.
  destruct (JSON_parse l) as [output|]; [|by exists []; rewrite app_nil_r].
  destruct (is_null output); [by exists []; rewrite app_nil_r|].
  destruct (session_id output) as [[|a sid]|], c as [[[|a' cap]|] [|] ? ? ? ?];
    cbn; try (by eexists [_]); by eexists [_; _]; rewrite <- app_assoc.
Qed.

Lemma fold_on_line_relays u (ls : list string) c w :
  exists out,
    Cli.sent (snd (fold_left (fun s l => Cli.on_line u l s) ls (c, w))) = Cli.sent w ++ out /\
    filter (fun p => is_session_created (snd p) = false) out =
      map (fun o => (Cli.unit_ws u, ClaudeResponse o)) (omap relayed ls).
Proof.
  revert c w. induction ls as [|l ls IH]; intros c w.
  - exists []. by rewrite app_nil_r.
  - cbn [fold_left]. destruct (on_line_relays u l c w) as (o1 & Hs1 & Hf1).
    destruct (Cli.on_line u l (c, w)) as [c1 w1]. cbn [snd] in Hs1.
    destruct (IH c1 w1) as (o2 & Hs2 & Hf2).
    exists (o1 ++ o2). rewrite Hs2, Hs1, <- app_assoc. split; [done|].
    rewrite filter_app, Hf1, Hf2. cbn [omap list_omap].
    by destruct (relayed l).
Qed.

Lemma frames_complete (l : list string) :
  fst (Cli.frames l) =
    filter (fun x => JS.is_empty x = false) (map JS.trim (removelast l)).
Proof.
  induction l as [|x [|y rest] IH]; [done|done|].
  rewrite frames_cons2. cbn [fst].
  change (removelast (x :: y :: rest)) with (x :: removelast (y :: rest)).
  cbn [map]. rewrite filter_cons, IH.
  destruct (JS.is_empty (JS.trim x)); by destruct (decide _).
Qed.

(** X3.  When no chunk boundary cuts a line right after white space (in
    particular when every chunk ends with a line feed), the responses are
    relayed in the order of the lines of the output, none lost and none
    repeated: apart from [session-created], the envelopes sent are one
    [claude-response] for each complete line of the whole output that,
    trimmed, is not blank and parses to a value other than [null]. *)
Theorem responses_follow_line_order u (chunks : list string) w :
  Cli.boundaries_safe EmptyString chunks = true \/ Forall ends_with_lf chunks ->
  exists out,
    Cli.sent (snd (Cli.run u (map Cli.StdoutData chunks) (Cli.spawn_registered u w))) =
      Cli.sent w ++ out /\
    filter (fun p => is_session_created (snd p) = false) out =
      map (fun o => (Cli.unit_ws u, ClaudeResponse o))
        (omap relayed (complete_lines (String.concat EmptyString chunks))).
Proof.
  intros Hsafe.
  assert (Cli.boundaries_safe EmptyString chunks = true) as Hb.
  { destruct Hsafe as [Hb|Hall]; [done | by apply line_aligned_boundaries_safe]. }
  pose proof (parsed_lines_chunks chunks EmptyString eq_refl eq_refl Hb) as Hlines.
  change (JS.trim EmptyString) with EmptyString in Hlines.
  rewrite append_nil, frames_complete in Hlines.
  unfold complete_lines. rewrite <- Hlines.
  destruct (spawn_registered_frame u w) as (_ & _ & Hbuf & Hs & _).
  destruct (Cli.spawn_registered u w) as [c0 w0]. cbn [fst snd] in *.
  destruct (run_chunks u chunks c0 c0 w0) as (-> & _); [done|].
  rewrite Hbuf, <- Hs. apply fold_on_line_relays.
Qed.

End DecoderMore.

(** ** The subprocess handlers *)

Section HandlersMore.
Context {J : Type} `{JsonApi J}.
Implicit Types (u : Cli.Unit) (c : Cli.Closure) (w : Cli.World J).

Lemma on_error_envelope u (code : option string) (message : string) c w :
  Cli.on_error u code message (c, w) =
    (Cli.settle (Cli.Rejected message) c,
     Cli.ws_send (Cli.unit_ws u)
       (ErrorEnvelope (if bool_decide (code = Some "ENOENT") then Cli.cli_not_found
                       else message))
       (let w1 := match Cli.unit_tempDir u with
                  | Some d =>
                      Cli.fs_rm d (Cli.log_error "Failed to start Claude process:" message w)
                  | None => Cli.log_error "Failed to start Claude process:" message w
                  end in
        match Cli.capturedSessionId c with
        | Some id => if JS.truthy (Some id) then Cli.registry_delete id w1 else w1
        | None => w1
        end)).
Proof.
  unfold Cli.on_error. cbv zeta. f_equal.
  case_bool_decide as Hcode; [by subst code|].
  repeat case_match; done.
Qed.

(** X4.  The unit sends one [claude-complete] per [close] event of its
    process and on no other event; the envelope of a [close] carries its
    exit code and is the last one sent when the event is handled. *)
Theorem one_complete_per_close u (events : list Cli.Event) w :
  (exists out,
     Cli.sent (snd (Cli.run u events (Cli.spawn_registered u w))) = Cli.sent w ++ out /\
     count is_claude_complete (map snd out) = closes events) /\
  (forall code, exists out,
     Cli.sent (snd (Cli.run u (events ++ [Cli.Close code]) (Cli.spawn_registered u w))) =
       Cli.sent w ++ out ++ [(Cli.unit_ws u, ClaudeComplete code (Cli.isNewSession u))] /\
     count is_claude_complete (map snd out) = closes events).
Proof.
  destruct (spawn_registered_frame u w) as (_ & _ & _ & Hs & _).
  destruct (Cli.spawn_registered u w) as [c0 w0]. cbn [fst snd] in Hs.
  assert (exists out,
     Cli.sent (snd (Cli.run u events (c0, w0))) = Cli.sent w ++ out /\
     count is_claude_complete (map snd out) = closes events) as Hcount.
  { destruct (run_prefix u events c0 w0) as [out Hout]. rewrite Hs in Hout.
    exists out. split; [done|].
    pose proof (run_completed u events c0 w0) as Hn. unfold cli_completed in Hn.
    rewrite Hout, Hs, map_app, count_app in Hn. lia. }
  split; [done|]. intros code.
  destruct Hcount as (out & Hout & Hn). exists out. split; [|done].
  rewrite run_app.
  destruct (Cli.run u events (c0, w0)) as [c1 w1]. cbn [snd] in Hout.
  cbn [Cli.run fold_left Cli.handle].
  destruct (on_close_frame u code c1 w1) as (_ & _ & _ & _ & _ & _ & _ & Hsent).
  cbv zeta in Hsent. by rewrite Hsent, Hout, <- app_assoc.
Qed.

Lemma fold_on_line_promise u (ls : list string) c w :
  Cli.promise (fst (fold_left (fun s l => Cli.on_line u l s) ls (c, w))) = Cli.promise c.
Proof.
  revert c w. induction ls as [|l ls IH]; intros c w; [done|]. cbn [fold_left].
  pose proof (on_line_buffers u l c w) as (_ & _ & Hp).
  destruct (Cli.on_line u l (c, w)) as [c1 w1]. cbn [fst] in Hp. by rewrite IH.
Qed.

Lemma run_promise u (events : list Cli.Event) c w :
  Cli.promise (fst (Cli.run u events (c, w))) =
    match Cli.promise c with
    | Some s => Some s
    | None => settlement events
    end.
Proof.
  revert c w. induction events as [|e events IH]; intros c w.
  - cbn. by destruct (Cli.promise c).
  - rewrite run_cons.
    destruct e as [data|data|code|code message]; cbn [Cli.handle].
    + rewrite stdout_on_data_frames.
      match goal with |- context [fold_left ?f ?ls (?c0, w)] =>
        pose proof (fold_on_line_promise u ls c0 w) as Hp;
        destruct (fold_left f ls (c0, w)) as [c1 w1]
      end.
      cbn [fst snd Cli.promise] in *. rewrite IH. cbn. by rewrite Hp.
    + unfold Cli.stderr_on_data.
      destruct (JS.includes "not found" data || JS.includes "command not found" data);
        by rewrite IH.
    + unfold Cli.on_close.
      destruct code as [[|p|p]|]; rewrite IH; cbn; by destruct (Cli.promise c).
    + unfold Cli.on_error. rewrite IH. cbn. by destruct (Cli.promise c).
Qed.

(** X5.  The promise of [spawnClaude] is settled by the first [close] or
    [error] event and by nothing else: it resolves when that event is a
    [close] with code 0, rejects otherwise, stays pending while neither
    has come, and later events do not change it. *)
Theorem promise_settled_by_first_close_or_error u (events : list Cli.Event) w :
  Cli.promise (fst (Cli.run u events (Cli.spawn_registered u w))) = settlement events.
Proof.
  destruct (Cli.spawn_registered u w) as [c0 w0] eqn:Hsp.
  rewrite run_promise.
  assert (Cli.promise c0 = None) as ->; [|done].
  unfold Cli.spawn_registered in Hsp. by injection Hsp as <- _.
Qed.

Lemma prefix_includes (p n h : string) :
  String.prefix (p +:+ n) h = true -> JS.includes n h = true.
Proof.
  revert h. induction p as [|b p IH]; intros h.
  - rewrite append_nil. intros Hp. destruct h; cbn [JS.includes]; by rewrite Hp.
  - rewrite append_cons. destruct h as [|a h]; [done|]. cbn [String.prefix].
    destruct (ascii_dec b a); [|done]. intros Hp. cbn [JS.includes].
    rewrite (IH h Hp). apply orb_true_r.
Qed.

Lemma includes_longer_needle (p n h : string) :
  JS.includes (p +:+ n) h = true -> JS.includes n h = true.
Proof.
  induction h as [|a h IH]; cbn [JS.includes].
  - rewrite orb_false_r. apply prefix_includes.
  - intros [Hp|Hi]%orb_true_iff.
    + apply (prefix_includes p n (String a h)) in Hp. exact Hp.
    + change (JS.includes n (String a h))
        with (String.prefix n (String a h) || JS.includes n h).
      rewrite (IH Hi). apply orb_true_r.
Qed.

(** X6.  Every chunk of stderr is relayed as exactly one [error] envelope:
    the installation hint when the chunk contains [not found], the chunk
    itself otherwise (the second test of the handler, [command not found],
    never decides); the handler changes neither the registry nor the
    captured id nor the promise.  An [error] event of the process sends
    exactly one [error] envelope too: the same hint when the code is
    [ENOENT], the message of the error otherwise. *)
Theorem error_reports u (data : string) (code : option string) (message : string) c w :
  let s' := Cli.stderr_on_data u data (c, w) in
  Cli.sent (snd s') =
    Cli.sent w ++
    [(Cli.unit_ws u,
      ErrorEnvelope (if JS.includes "not found" data then Cli.cli_not_found else data))] /\
  Cli.activeClaudeProcesses (snd s') = Cli.activeClaudeProcesses w /\
  Cli.capturedSessionId (fst s') = Cli.capturedSessionId c /\
  Cli.promise (fst s') = Cli.promise c /\
  Cli.sent (snd (Cli.on_error u code message (c, w))) =
    Cli.sent w ++
    [(Cli.unit_ws u,
      ErrorEnvelope (if bool_decide (code = Some "ENOENT") then Cli.cli_not_found
                     else message))].
Proof.
  cbv zeta. rewrite on_error_envelope.
  assert (forall e,
    Cli.sent (Cli.ws_send (Cli.unit_ws u) e
      (let w1 := match Cli.unit_tempDir u with
                 | Some d =>
                     Cli.fs_rm d (Cli.log_error "Failed to start Claude process:" message w)
                 | None => Cli.log_error "Failed to start Claude process:" message w
                 end in
       match Cli.capturedSessionId c with
       | Some id => if JS.truthy (Some id) then Cli.registry_delete id w1 else w1
       | None => w1
       end)) = Cli.sent w ++ [(Cli.unit_ws u, e)]) as Herr.
  { intros e. cbn. f_equal.
    by destruct (Cli.unit_tempDir u), (Cli.capturedSessionId c) as [[|? ?]|]. }
  cbn [snd]. rewrite Herr. clear Herr.
  unfold Cli.stderr_on_data.
  destruct (JS.includes "not found" data) eqn:Hnf; [done|]. cbn [orb].
  destruct (JS.includes "command not found" data) eqn:Hcnf; [|done].
  apply (includes_longer_needle "command " "not found" data) in Hcnf. congruence.
Qed.

(** X7.  A subprocess unit started with the caller's session id is never
    in the registry: whatever its process outputs, no entry is added, and
    [abortClaudeSession] on that id answers [false] at every point of its
    run. *)
Theorem resumed_unit_cannot_be_aborted u (X : string) (events : list Cli.Event) w :
  sessionId (Cli.options u) = Some X -> JS.truthy (Some X) = true ->
  let w' := snd (Cli.run u events (Cli.spawn_registered u w)) in
  Cli.activeClaudeProcesses w' ⊆ Cli.activeClaudeProcesses w /\
  Cli.activeClaudeProcesses w' !! X = None /\
  Cli.abortClaudeSession X w' = (false, w').
Proof.
  intros Hid Htruthy. cbv zeta.
  destruct (spawn_registered_frame u w) as (Hc & _ & _ & _ & Hsub).
  assert (Cli.activeClaudeProcesses (snd (Cli.spawn_registered u w)) !! X = None) as HX.
  { unfold Cli.spawn_registered. rewrite Hid, Htruthy.
    destruct (Cli.activeClaudeProcesses w !! X) eqn:Hreg; [|done].
    cbn. apply lookup_delete_eq. }
  destruct (Cli.spawn_registered u w) as [c0 w0]. cbn [fst snd] in *.
  destruct (run_registry u events c0 w0) as (Hr & _).
  { left. by rewrite Hc, Hid. }
  cbv zeta in Hr.
  assert (Cli.activeClaudeProcesses (Cli.run u events (c0, w0)).2 !! X = None) as Hnone
    by (by apply (lookup_weaken_None _ _ _ HX)).
  split; [by etrans|]. split; [done|]. by apply cli_abort_unregistered.
Qed.

Lemma only_own_refl u w : only_own u w w.
Proof. split; auto. Qed.

Lemma only_own_trans u w1 w2 w3 : only_own u w1 w2 -> only_own u w2 w3 -> only_own u w1 w3.
Proof.
  intros [Hk1 He1] [Hk2 He2]. split; [congruence|].
  intros k. destruct (He2 k) as [H2 | [H2 | H2]]; auto.
  rewrite H2. apply He1.
Qed.

Lemma only_own_subseteq u w w' :
  Cli.killed w' = Cli.killed w ->
  Cli.activeClaudeProcesses w' ⊆ Cli.activeClaudeProcesses w -> only_own u w w'.
Proof.
  intros Hk Hsub. split; [done|]. intros k.
  destruct (Cli.activeClaudeProcesses w' !! k) as [e|] eqn:Hke; auto.
  left. symmetry. by apply (lookup_weaken _ _ _ _ Hke).
Qed.

Lemma on_line_only_own u (l : string) c w : only_own u w (snd (Cli.on_line u l (c, w))).
Proof.
  on_line_cases l c; (split; [done|]); cbn; auto.
  all: intros k;
    match goal with
    | |- <[?sid:=_]> _ !! _ = _ \/ _ =>
        destruct (decide (sid = k)) as [<-|Hne];
        [ right; left; apply lookup_insert_eq
        | left; by apply lookup_insert_ne ]
    end.
Qed.

Lemma fold_on_line_only_own u (ls : list string) c w :
  only_own u w (snd (fold_left (fun s l => Cli.on_line u l s) ls (c, w))).
Proof.
  revert c w. induction ls as [|l ls IH]; intros c w; [apply only_own_refl|].
  cbn [fold_left]. pose proof (on_line_only_own u l c w) as H1.
  destruct (Cli.on_line u l (c, w)) as [c1 w1]. by eapply only_own_trans.
Qed.

Lemma handle_only_own u (e : Cli.Event) c w : only_own u w (snd (Cli.handle u e (c, w))).
Proof.
  destruct e as [data|data|code|code message]; cbn [Cli.handle].
  - rewrite stdout_on_data_frames. cbn [snd]. apply fold_on_line_only_own.
  - destruct (stderr_on_data_frame u data c w) as (_ & _ & _ & _ & _ & Hr & Hk & _).
    apply only_own_subseteq; [done|]. cbv zeta in Hr. by rewrite Hr.
  - destruct (on_close_frame u code c w) as (_ & _ & _ & _ & _ & Hr & Hk & _).
    by apply only_own_subseteq.
  - destruct (on_error_frame u code message c w) as (_ & _ & _ & _ & _ & Hr & Hk & _).
    by apply only_own_subseteq.
Qed.

(** X8.  The handlers of a unit signal no process and register nothing
    but the unit itself: after any events, every id of the registry holds
    what it held before, or the unit's own process and socket, or nothing. *)
Theorem unit_registers_only_itself u (events : list Cli.Event) c w :
  let w' := snd (Cli.run u events (c, w)) in
  Cli.killed w' = Cli.killed w /\
  forall k,
    Cli.activeClaudeProcesses w' !! k = Cli.activeClaudeProcesses w !! k \/
    Cli.activeClaudeProcesses w' !! k =
      Some {| Cli.process := Cli.claudeProcess u; Cli.entry_sessionId := k;
              Cli.ws := Cli.unit_ws u |} \/
    Cli.activeClaudeProcesses w' !! k = None.
Proof.
  cbv zeta. change (only_own u w (snd (Cli.run u events (c, w)))).
  revert c w. induction events as [|e events IH]; intros c w; [apply only_own_refl|].
  rewrite run_cons. pose proof (handle_only_own u e c w) as H1.
  destruct (Cli.handle u e (c, w)) as [c1 w1]. by eapply only_own_trans.
Qed.

End HandlersMore.

(** ** Aborting twice *)

Section AbortMore.
Context {J : Type} `{JsonApi J}.

(** X9.  [abortClaudeSession] deletes the entry under its id and no other,
    sends nothing on any channel, and a second call for the same id finds
    nothing: it answers [false] and changes nothing.  In both files. *)
Theorem abort_deletes_one_entry_once (id : string) (cw : Cli.World J) (sw : Sdk.World) :
  let cw1 := snd (Cli.abortClaudeSession id cw) in
  let sw1 := snd (Sdk.abortClaudeSession id sw) in
  (Cli.activeClaudeProcesses cw1 = delete id (Cli.activeClaudeProcesses cw) /\
   Cli.sent cw1 = Cli.sent cw /\
   Cli.abortClaudeSession id cw1 = (false, cw1)) /\
  (Sdk.activeSessions sw1 = delete id (Sdk.activeSessions sw) /\
   Sdk.sent sw1 = Sdk.sent sw /\
   Sdk.abortClaudeSession id sw1 = (false, sw1)).
Proof.
  cbv zeta.
  assert (Cli.activeClaudeProcesses (snd (Cli.abortClaudeSession id cw)) =
            delete id (Cli.activeClaudeProcesses cw) /\
          Cli.sent (snd (Cli.abortClaudeSession id cw)) = Cli.sent cw) as [Hcr Hcs].
  { unfold Cli.abortClaudeSession.
    destruct (Cli.activeClaudeProcesses cw !! id) eqn:Hreg; cbn; [done|].
    by rewrite delete_id. }
  assert (Sdk.activeSessions (snd (Sdk.abortClaudeSession id sw)) =
            delete id (Sdk.activeSessions sw) /\
          Sdk.sent (snd (Sdk.abortClaudeSession id sw)) = Sdk.sent sw) as [Hsr Hss].
  { unfold Sdk.abortClaudeSession.
    destruct (Sdk.activeSessions sw !! id) eqn:Hreg; cbn; [done|].
    by rewrite delete_id. }
  repeat split; try done.
  - apply cli_abort_unregistered. rewrite Hcr. apply lookup_delete_eq.
  - apply sdk_abort_unregistered. rewrite Hsr. apply lookup_delete_eq.
Qed.

End AbortMore.

(** ** The SDK loop *)

Section SdkMore.
Context `{Sdk.IdSource}.
Implicit Types (u : Sdk.Unit) (c : Sdk.Closure) (w : Sdk.World).

Lemma on_message_relays u (q : Handle) (m : Sdk.SDKMessage) c w :
  exists out,
    Sdk.sent (snd (Sdk.on_message u q m (c, w))) = Sdk.sent w ++ out /\
    filter (fun p => is_session_created (snd p) = false) out =
      match response m with
      | Some d => [(Sdk.unit_ws u, ClaudeResponse d)]
      | None => []
      end.
Proof.
  destruct m as [subtype sid info| | | |]; cbn [Sdk.on_message response];
    try (by exists []; rewrite app_nil_r); try (by eexists [_]).
  destruct (String.eqb subtype "init"); [|by exists []; rewrite app_nil_r].
  pose proof (sessionId_or_generated_frame (Sdk.options u) w) as (Hs & _).
  destruct (Sdk.sessionId_or_generated (Sdk.options u) w) as [old w1].
  cbn [snd] in Hs.
  destruct (String.eqb old sid), (Sdk.sessionCreatedSent c); cbn; rewrite Hs;
    try (by eexists [_]); by eexists [_; _]; rewrite <- app_assoc.
Qed.

Lemma on_ending_sent u (e : Sdk.Ending) w :
  Sdk.sent (Sdk.on_ending u e w) = Sdk.sent w ++ ending_envelopes (Sdk.unit_ws u) e.
Proof.
  destruct e as [|name message]; cbn; [by rewrite app_nil_r|].
  destruct (String.eqb name "AbortError"); cbn; [by rewrite app_nil_r|done].
Qed.

Lemma stderr_all_sent u (chunks : list string) w :
  Sdk.sent (SdkCall.stderr_all u chunks w) =
    Sdk.sent w ++ SdkCall.errors (Sdk.unit_ws u) chunks.
Proof.
  revert w. induction chunks as [|d ds IH]; intros w; cbn; [by rewrite app_nil_r|].
  unfold SdkCall.stderr_all in IH. rewrite IH. cbn. by rewrite <- app_assoc.
Qed.

Lemma handle_relays u (q : Handle) (e : SdkCall.Event) c w :
  exists out,
    Sdk.sent (snd (SdkCall.handle u q e (c, w))) = Sdk.sent w ++ out /\
    filter (fun p => is_session_created (snd p) = false) out =
      match SdkCall.relay (Sdk.unit_ws u) e with
      | Some p => [p]
      | None => []
      end.
Proof.
  destruct e as [m|data]; cbn [SdkCall.handle SdkCall.relay].
  - destruct (on_message_relays u q m c w) as (out & Hs & Hf).
    exists out. split; [done|]. rewrite Hf. by destruct (response m).
  - by eexists [_].
Qed.

Lemma fold_handle_relays u (q : Handle) (es : list SdkCall.Event) c w :
  exists out,
    Sdk.sent (snd (fold_left (fun s e => SdkCall.handle u q e s) es (c, w))) =
      Sdk.sent w ++ out /\
    filter (fun p => is_session_created (snd p) = false) out =
      omap (SdkCall.relay (Sdk.unit_ws u)) es.
Proof.
  revert c w. induction es as [|e es IH]; intros c w.
  - exists []. by rewrite app_nil_r.
  - cbn [fold_left]. destruct (handle_relays u q e c w) as (o1 & Hs1 & Hf1).
    destruct (SdkCall.handle u q e (c, w)) as [c1 w1]. cbn [snd] in Hs1.
    destruct (IH c1 w1) as (o2 & Hs2 & Hf2).
    exists (o1 ++ o2). rewrite Hs2, Hs1, <- app_assoc. split; [done|].
    rewrite filter_app, Hf1, Hf2. cbn [omap list_omap].
    by destruct (SdkCall.relay (Sdk.unit_ws u) e).
Qed.

Lemma fold_handle_yields u (q : Handle) (ms : list Sdk.SDKMessage)
    (s : Sdk.Closure * Sdk.World) :
  fold_left (fun s e => SdkCall.handle u q e s) (map SdkCall.Yields ms) s =
  fold_left (fun s m => Sdk.on_message u q m s) ms s.
Proof. revert s. induction ms as [|m ms IH]; intros s; [done|]. cbn. apply IH. Qed.

(** Without stderr the call is [Sdk.start] on the stream. *)
Lemma start_quiet u (q : Handle) (stream : Sdk.Stream) w :
  SdkCall.start u q (SdkCall.quiet stream) w = Sdk.start u (Sdk.QueryReturns q stream) w.
Proof.
  unfold SdkCall.start, Sdk.start, SdkCall.run, Sdk.run, SdkCall.quiet.
  destruct (Sdk.sessionId_or_generated (Sdk.options u) w) as [captured w0].
  cbn [SdkCall.events SdkCall.ending SdkCall.during_cleanup SdkCall.late].
  rewrite fold_handle_yields.
  destruct (fold_left _ (Sdk.messages stream) _) as [c1 w1].
  unfold Sdk.finish. by destruct (Sdk.unit_tempDir u).
Qed.

(** X10.  What a call of [startClaudeSession] whose query was created
    sends, in order: for each message of the stream and each chunk of
    stderr, as they come, one [claude-response] for a system-init,
    assistant or result message, one [error] for a chunk, nothing for the
    other messages; then one [error] if the iteration threw anything but
    an [AbortError]; then one [error] for each chunk that comes while the
    scratch directory is removed; then [claude-complete] with exit code 0;
    and one [error] for each chunk that comes later.  Apart from
    [session-created], nothing else is sent. *)
Theorem sdk_envelopes_follow_stream u (q : Handle) (k : SdkCall.Course) w :
  exists pre,
    Sdk.sent (SdkCall.start u q k w) =
      Sdk.sent w ++ pre ++
      ending_envelopes (Sdk.unit_ws u) (SdkCall.ending k) ++
      match Sdk.unit_tempDir u with
      | Some _ => SdkCall.errors (Sdk.unit_ws u) (SdkCall.during_cleanup k)
      | None => []
      end ++
      [(Sdk.unit_ws u, ClaudeComplete (Some 0%Z) (Sdk.isNewSession u))] ++
      SdkCall.errors (Sdk.unit_ws u) (SdkCall.late k) /\
    filter (fun p => is_session_created (snd p) = false) pre =
      omap (SdkCall.relay (Sdk.unit_ws u)) (SdkCall.events k).
Proof.
  unfold SdkCall.start, SdkCall.run.
  pose proof (sessionId_or_generated_frame (Sdk.options u) w) as (Hs & _).
  destruct (Sdk.sessionId_or_generated (Sdk.options u) w) as [captured w0].
  cbn [snd] in Hs.
  match goal with |- context [fold_left ?f ?es (?c0, ?w1)] =>
    destruct (fold_handle_relays u q es c0 w1) as (pre & Hpre & Hf);
    destruct (fold_left f es (c0, w1)) as [c2 w2]
  end.
  cbn [snd] in Hpre. exists pre. split; [|done].
  rewrite stderr_all_sent. cbn [Sdk.ws_send Sdk.registry_delete Sdk.with_registry Sdk.sent].
  assert (Sdk.sent w2 = Sdk.sent w ++ pre) as Hw2.
  { rewrite Hpre. cbn [Sdk.register Sdk.registry_set Sdk.with_registry Sdk.sent].
    by rewrite abort_existing_sent, Hs. }
  destruct (Sdk.unit_tempDir u) as [d|].
  - rewrite stderr_all_sent. cbn [Sdk.fs_rm Sdk.sent].
    rewrite on_ending_sent, Hw2. by rewrite <- !app_assoc.
  - rewrite on_ending_sent, Hw2. by rewrite <- !app_assoc.
Qed.

Lemma sessionId_or_generated_removed (opts : ClaudeSpawnOptions) w :
  Sdk.removed (snd (Sdk.sessionId_or_generated opts w)) = Sdk.removed w.
Proof.
  unfold Sdk.sessionId_or_generated.
  destruct (sessionId opts) as [id|]; [destruct (JS.truthy (Some id))|]; done.
Qed.

Lemma on_message_removed u (q : Handle) (m : Sdk.SDKMessage) c w :
  Sdk.removed (snd (Sdk.on_message u q m (c, w))) = Sdk.removed w.
Proof.
  destruct m as [subtype sid info| | | |]; cbn [Sdk.on_message]; try done.
  destruct (String.eqb subtype "init"); [|done].
  pose proof (sessionId_or_generated_removed (Sdk.options u) w) as Hr.
  destruct (Sdk.sessionId_or_generated (Sdk.options u) w) as [old w1].
  cbn [snd] in Hr.
  by destruct (String.eqb old sid), (Sdk.sessionCreatedSent c).
Qed.

Lemma fold_on_message_removed u (q : Handle) (ms : list Sdk.SDKMessage) c w :
  Sdk.removed (snd (fold_left (fun s m => Sdk.on_message u q m s) ms (c, w))) = Sdk.removed w.
Proof.
  revert c w. induction ms as [|m ms IH]; intros c w; [done|].
  cbn [fold_left]. pose proof (on_message_removed u q m c w) as Hr.
  destruct (Sdk.on_message u q m (c, w)) as [c1 w1]. cbn [snd] in Hr. by rewrite IH.
Qed.

Lemma abort_existing_removed (captured : string) w :
  Sdk.removed (Sdk.abort_existing captured w) = Sdk.removed w.
Proof. unfold Sdk.abort_existing. by destruct (Sdk.activeSessions w !! captured). Qed.

Lemma start_removed u (launch : Sdk.Launch) w :
  Sdk.removed (Sdk.start u launch w) = Sdk.removed w ++ cleanup (Sdk.unit_tempDir u).
Proof.
  unfold Sdk.start.
  pose proof (sessionId_or_generated_removed (Sdk.options u) w) as Hr.
  destruct (Sdk.sessionId_or_generated (Sdk.options u) w) as [captured w0].
  cbn [snd] in Hr.
  destruct launch as [message|q stream].
  - unfold Sdk.on_launch_failure. cbn.
    destruct (Sdk.unit_tempDir u); cbn; rewrite abort_existing_removed, Hr;
      [done|by rewrite app_nil_r].
  - unfold Sdk.run.
    match goal with |- context [fold_left ?f ?ms (?c0, ?w1)] =>
      pose proof (fold_on_message_removed u q ms c0 w1) as Hf;
      destruct (fold_left f ms (c0, w1)) as [c2 w2]
    end.
    cbn [snd] in Hf. unfold Sdk.finish. cbn.
    assert (Sdk.removed (Sdk.on_ending u (Sdk.ending stream) w2) = Sdk.removed w2) as He.
    { destruct (Sdk.ending stream) as [|name message]; [done|]. cbn.
      by destruct (String.eqb name "AbortError"). }
    destruct (Sdk.unit_tempDir u); cbn; rewrite He, Hf; cbn;
      rewrite abort_existing_removed, Hr; [done|by rewrite app_nil_r].
Qed.

End SdkMore.

(** ** The announced id and the scratch directory *)

Section Announce.
Context {J : Type} `{JsonApi J}.
Implicit Types (u : Cli.Unit) (c : Cli.Closure) (w : Cli.World J).

Lemma on_line_announced u (l : string) c w (out : list (Ws * Envelope J)) :
  Forall (announced u c w) out ->
  exists o,
    Cli.sent (snd (Cli.on_line u l (c, w))) = Cli.sent w ++ o /\
    Forall (announced u (fst (Cli.on_line u l (c, w))) (snd (Cli.on_line u l (c, w))))
      (out ++ o).
Proof.
  intros Hinv.
  assert (JS.truthy (Cli.capturedSessionId c) = false ->
          forall c' w', Forall (announced u c' w') out) as Hfresh.
  { intros Hf c' w'. eapply Forall_impl; [exact Hinv|].
    intros [to [sid| | |]] Hp; try done.
    destruct Hp as (Hc & Ht & _). rewrite Hc in Hf. congruence. }
  on_line_cases l c; cbn in Hfresh;
    try (exists []; rewrite !app_nil_r; by split);
    try (eexists [_]; split; [done|];
         apply Forall_app; split; [|by repeat constructor];
         first [exact Hinv | by apply Hfresh]);
    try (eexists [_; _]; split; [by rewrite <- app_assoc|];
         apply Forall_app; split; [by apply Hfresh|];
         repeat constructor; cbn; apply lookup_insert_eq).
Qed.

Lemma fold_on_line_announced u (ls : list string) c w (out : list (Ws * Envelope J)) :
  Forall (announced u c w) out ->
  exists o,
    Cli.sent (snd (fold_left (fun s l => Cli.on_line u l s) ls (c, w))) = Cli.sent w ++ o /\
    Forall (announced u (fst (fold_left (fun s l => Cli.on_line u l s) ls (c, w)))
              (snd (fold_left (fun s l => Cli.on_line u l s) ls (c, w))))
      (out ++ o).
Proof.
  revert c w out. induction ls as [|l ls IH]; intros c w out Hinv.
  - exists []. by rewrite !app_nil_r.
  - cbn [fold_left]. destruct (on_line_announced u l c w out Hinv) as (o1 & Hs1 & Hi1).
    destruct (Cli.on_line u l (c, w)) as [c1 w1]. cbn [fst snd] in Hs1, Hi1.
    destruct (IH c1 w1 (out ++ o1) Hi1) as (o2 & Hs2 & Hi2).
    exists (o1 ++ o2). rewrite Hs2, Hs1, <- app_assoc. split; [done|].
    by rewrite app_assoc.
Qed.

Lemma run_announced u (events : list Cli.Event) c w (out : list (Ws * Envelope J)) :
  closes_and_errors events = 0 ->
  Forall (announced u c w) out ->
  exists o,
    Cli.sent (snd (Cli.run u events (c, w))) = Cli.sent w ++ o /\
    Forall (announced u (fst (Cli.run u events (c, w))) (snd (Cli.run u events (c, w))))
      (out ++ o).
Proof.
  revert c w out. induction events as [|e events IH]; intros c w out Hn Hinv.
  - exists []. by rewrite !app_nil_r.
  - rewrite run_cons.
    assert (exists o1,
      Cli.sent (snd (Cli.handle u e (c, w))) = Cli.sent w ++ o1 /\
      Forall (announced u (fst (Cli.handle u e (c, w))) (snd (Cli.handle u e (c, w))))
        (out ++ o1) /\ closes_and_errors events = 0) as (o1 & Hs1 & Hi1 & Hn').
    { destruct e as [data|data|code|code message]; cbn [Cli.handle]; try done.
      - rewrite stdout_on_data_frames. cbn zeta. cbn [fst snd].
        match goal with |- context [fold_left ?f ?ls (?c0, w)] =>
          destruct (fold_on_line_announced u ls c0 w out Hinv) as (o1 & Hs1 & Hi1);
          destruct (fold_left f ls (c0, w)) as [c1 w1]
        end.
        exists o1. by repeat split.
      - unfold Cli.stderr_on_data.
        destruct (JS.includes "not found" data || JS.includes "command not found" data);
          (eexists [_]; repeat split; [|done];
           apply Forall_app; split; [exact Hinv|by repeat constructor]). }
    destruct (Cli.handle u e (c, w)) as [c1 w1]. cbn [fst snd] in Hs1, Hi1.
    destruct (IH c1 w1 (out ++ o1) Hn' Hi1) as (o2 & Hs2 & Hi2).
    exists (o1 ++ o2). rewrite Hs2, Hs1, <- app_assoc. split; [done|].
    by rewrite app_assoc.
Qed.

(** X11.  While its process has neither closed nor failed, the unit can be
    cancelled under the id it announced: for every [session-created] the
    unit has sent, [abortClaudeSession] on the announced id answers [true]
    and signals the unit's own process. *)
Theorem announced_id_aborts_the_unit u (events : list Cli.Event) w :
  closes_and_errors events = 0 ->
  let w' := snd (Cli.run u events (Cli.spawn_registered u w)) in
  exists out, Cli.sent w' = Cli.sent w ++ out /\ Forall (abortable u w') out.
Proof.
  intros Hn. cbv zeta.
  destruct (spawn_registered_frame u w) as (_ & _ & _ & Hs & _).
  destruct (Cli.spawn_registered u w) as [c0 w0]. cbn [fst snd] in Hs.
  destruct (run_announced u events c0 w0 [] Hn) as (out & Hout & Hinv); [done|].
  exists out. rewrite Hout, Hs. split; [done|].
  eapply Forall_impl; [exact Hinv|].
  intros [to [sid| | |]] Hp; try done.
  destruct Hp as (_ & _ & Hreg). unfold abortable, Cli.abortClaudeSession. cbn [snd].
  by rewrite Hreg.
Qed.

End Announce.

Section Scratch.
Context `{Images.FsEnv} `{Sdk.IdSource} {J : Type} `{JsonApi J}.

Lemma on_line_removed (u : Cli.Unit) (l : string) (c : Cli.Closure) (w : Cli.World J) :
  Cli.removed (snd (Cli.on_line u l (c, w))) = Cli.removed w.
Proof. by on_line_cases l c. Qed.

Lemma fold_on_line_removed (u : Cli.Unit) (ls : list string) (c : Cli.Closure)
    (w : Cli.World J) :
  Cli.removed (snd (fold_left (fun s l => Cli.on_line u l s) ls (c, w))) = Cli.removed w.
Proof.
  revert c w. induction ls as [|l ls IH]; intros c w; [done|].
  cbn [fold_left]. pose proof (on_line_removed u l c w) as Hr.
  destruct (Cli.on_line u l (c, w)) as [c1 w1]. cbn [snd] in Hr. by rewrite IH.
Qed.

Lemma run_removed (u : Cli.Unit) (events : list Cli.Event) (c : Cli.Closure)
    (w : Cli.World J) :
  Cli.removed (snd (Cli.run u events (c, w))) =
    Cli.removed w ++
    concat (replicate (closes_and_errors events) (cleanup (Cli.unit_tempDir u))).
Proof.
  revert c w. induction events as [|e events IH]; intros c w.
  - cbn. by rewrite app_nil_r.
  - rewrite run_cons.
    destruct e as [data|data|code|code message]; cbn [Cli.handle closes_and_errors].
    + rewrite stdout_on_data_frames. cbn zeta. rewrite IH. f_equal.
      apply fold_on_line_removed.
    + unfold Cli.stderr_on_data.
      destruct (JS.includes "not found" data || JS.includes "command not found" data);
        by rewrite IH.
    + unfold Cli.on_close.
      destruct code as [[|p|p]|]; rewrite IH; cbn [replicate concat];
        rewrite app_assoc; f_equal;
        destruct (Cli.unit_tempDir u), c as [[[|? ?]|] ? ? ? ? ?]; cbn;
        by rewrite ?app_nil_r.
    + rewrite on_error_envelope, IH. cbn [replicate concat].
      rewrite app_assoc. f_equal.
      destruct (Cli.unit_tempDir u), c as [[[|? ?]|] ? ? ? ? ?]; cbn;
        by rewrite ?app_nil_r.
Qed.

Lemma spawn_registered_removed (u : Cli.Unit) (w : Cli.World J) :
  Cli.removed (snd (Cli.spawn_registered u w)) = Cli.removed w.
Proof.
  unfold Cli.spawn_registered. cbn [snd].
  destruct (sessionId (Cli.options u)) as [id|]; [|done].
  destruct (JS.truthy (Some id)); [|done].
  by destruct (Cli.activeClaudeProcesses w !! id).
Qed.

Lemma files_from_inside (dir : string) (imgs : list string) (k : nat) :
  Forall (fun f => exists i mimeType,
            fst f = Images.path_join dir (Images.filename i mimeType))
    (Images.files_from dir k imgs).
Proof.
  revert k. induction imgs as [|data imgs IH]; intros k; [constructor|].
  rewrite files_from_cons. unfold Images.materialised.
  destruct (Images.match_data_uri data) as [[mimeType base64Data]|]; [|apply IH].
  constructor; [by exists k, mimeType|apply IH].
Qed.

(** X12.  The scratch directory of the attachments, chosen when the
    request has at least one attachment, holds every file the call writes
    (each one directly in it, under an [image_<index>.<extension>] name),
    and it is handed to [fs.rm]: by the SDK file exactly once on every
    path of the call, whether the query is created or not and however its
    stream ends; by the subprocess file once for each [close] and [error]
    event of the process, so not before the process ends. *)
Theorem scratch_directory_is_removed (dir cmd : string) (opts : ClaudeSpawnOptions)
    (to : Ws) (h : Handle) (query : string -> Sdk.Launch)
    (child : option string -> list Cli.Event) (sw : Sdk.World) (cw : Cli.World J) :
  let out := Images.process_images dir cmd (images opts) in
  Images.tempDir out = match images opts with [] => None | _ :: _ => Some dir end /\
  Forall (fun f => exists i mimeType,
            fst f = Images.path_join dir (Images.filename i mimeType))
    (Images.written (Images.saved out)) /\
  Sdk.removed (Sdk.startClaudeSession dir cmd opts to h query sw) =
    Sdk.removed sw ++ cleanup (Images.tempDir out) /\
  Cli.removed (snd (Cli.spawnClaude dir cmd opts to h child cw)) =
    Cli.removed cw ++
    concat (replicate (closes_and_errors (child (Cli.print_argument cmd out)))
              (cleanup (Images.tempDir out))).
Proof.
  cbv zeta. repeat split.
  - unfold Images.process_images. destruct (images opts); [done|].
    destruct (Images.mkdir_throws dir); [done|].
    by destruct (Images.save_images dir 0 _ Images.no_saved) as [[|] sv].
  - destruct (process_images_prefix dir cmd (images opts)) as (done & rest & Hf & Hw & _).
    rewrite Hw. pose proof (files_from_inside dir (images opts) 0) as Hall.
    rewrite Hf in Hall. by apply Forall_app in Hall as [? _].
  - unfold Sdk.startClaudeSession. by rewrite start_removed.
  - unfold Cli.spawnClaude.
    match goal with |- context [Cli.spawn_registered ?u cw] =>
      pose proof (spawn_registered_removed u cw) as Hs;
      destruct (Cli.spawn_registered u cw) as [c0 w0]
    end.
    cbn [snd] in Hs. by rewrite run_removed, Hs.
Qed.

End Scratch.

(** ** The SDK registry during and after a call *)

Section SdkRegistryMore.
Context `{Sdk.IdSource}.
Implicit Types (u : Sdk.Unit) (c : Sdk.Closure) (w : Sdk.World).

Lemma start_during u (q : Handle) (stream : Sdk.Stream) w :
  Sdk.start u (Sdk.QueryReturns q stream) w =
    Sdk.finish u (fst (sdk_during u q (Sdk.messages stream) w))
      (Sdk.on_ending u (Sdk.ending stream) (snd (sdk_during u q (Sdk.messages stream) w))).
Proof.
  unfold Sdk.start, sdk_during, sdk_loop, Sdk.run.
  destruct (Sdk.sessionId_or_generated (Sdk.options u) w) as [captured w0].
  by destruct (fold_left _ (Sdk.messages stream) _) as [c1 w1].
Qed.

Lemma on_message_filed u (q : Handle) (sid : string) (m : Sdk.SDKMessage) (seen : bool)
    (s : Sdk.Closure * Sdk.World) :
  JS.truthy (sessionId (Sdk.options u)) = true \/
    (forall n, Sdk.generateSessionId n <> sid) ->
  reports sid [m] ->
  sdk_filed u q sid seen s ->
  sdk_filed u q sid (seen || is_init m) (Sdk.on_message u q m s).
Proof.
  intros Hsrc Hrep Hinv. destruct s as [c w].
  unfold reports in Hrep. apply Forall_inv in Hrep.
  destruct m as [subtype sid' info| | | |]; cbn [Sdk.on_message is_init];
    try (rewrite orb_false_r; exact Hinv).
  destruct (String.eqb subtype "init") eqn:Hinit; [|rewrite orb_false_r; exact Hinv].
  specialize (Hrep eq_refl). subst sid'. rewrite orb_true_r.
  destruct Hinv as [_ Hown]. cbn [fst snd] in Hown.
  assert (forall old w1,
            Sdk.sessionId_or_generated (Sdk.options u) w = (old, w1) ->
            Sdk.activeSessions
              (if String.eqb old sid then w1
               else Sdk.registry_set sid (Sdk.entry u q sid) (Sdk.registry_delete old w1))
              !! sid = Some (Sdk.entry u q sid)) as Hreg.
  { intros old w1 Hold.
    destruct (String.eqb old sid) eqn:Heq; [|cbn; apply lookup_insert_eq].
    apply String.eqb_eq in Heq. subst old.
    unfold Sdk.sessionId_or_generated in Hold.
    destruct (sessionId (Sdk.options u)) as [[|a X]|] eqn:Hid; cbn in Hold.
    - destruct Hsrc as [Hsrc|Hsrc]; [done|].
      injection Hold as Hg _. by destruct (Hsrc (Sdk.generated w)).
    - injection Hold as Hx <-. subst sid. by apply Hown.
    - destruct Hsrc as [Hsrc|Hsrc]; [done|].
      injection Hold as Hg _. by destruct (Hsrc (Sdk.generated w)). }
  destruct (Sdk.sessionId_or_generated (Sdk.options u) w) as [old w1].
  specialize (Hreg old w1 eq_refl).
  split; intros; cbn [fst snd Sdk.capturedSessionId];
    destruct (Sdk.sessionCreatedSent c); cbn; by rewrite ?Hreg.
Qed.

Lemma fold_on_message_filed u (q : Handle) (sid : string) (ms : list Sdk.SDKMessage)
    (seen : bool) (s : Sdk.Closure * Sdk.World) :
  JS.truthy (sessionId (Sdk.options u)) = true \/
    (forall n, Sdk.generateSessionId n <> sid) ->
  reports sid ms ->
  sdk_filed u q sid seen s ->
  sdk_filed u q sid (seen || existsb is_init ms)
    (fold_left (fun s m => Sdk.on_message u q m s) ms s).
Proof.
  intros Hsrc. revert seen s.
  induction ms as [|m ms IH]; intros seen s Hrep Hinv; cbn [fold_left existsb].
  - by rewrite orb_false_r.
  - inversion Hrep as [|? ? Hm Hms]; subst. rewrite orb_assoc. apply IH; [done|].
    apply on_message_filed; try done. unfold reports. by repeat constructor.
Qed.

(** X13.  Once the stream has yielded a system-init message, the session
    can be cancelled under the id that message reported: the unit holds it
    as its captured id, and [abortClaudeSession] on it answers [true] and
    aborts the unit's own controller.  This holds when the caller supplied
    a session id, and otherwise when [generateSessionId] does not return
    the reported id. *)
Theorem reported_id_aborts_the_session u (q : Handle) (sid : string)
    (ms : list Sdk.SDKMessage) w :
  JS.truthy (sessionId (Sdk.options u)) = true \/
    (forall n, Sdk.generateSessionId n <> sid) ->
  reports sid ms -> existsb is_init ms = true ->
  let s := sdk_during u q ms w in
  Sdk.capturedSessionId (fst s) = sid /\
  fst (Sdk.abortClaudeSession sid (snd s)) = true /\
  Sdk.aborted (snd (Sdk.abortClaudeSession sid (snd s))) =
    Sdk.aborted (snd s) ++ [Sdk.unit_abortController u].
Proof.
  intros Hsrc Hrep Hinit. cbv zeta. unfold sdk_during, sdk_loop.
  destruct (Sdk.sessionId_or_generated (Sdk.options u) w) as [captured w0] eqn:Hcap.
  match goal with |- context [fold_left ?f ms ?s0] =>
    pose proof (fold_on_message_filed u q sid ms false s0 Hsrc Hrep) as Hinv
  end.
  rewrite Hinit in Hinv. cbn [orb] in Hinv.
  destruct Hinv as [Hseen _].
  - split; [done|]. intros Hid Htruthy.
    rewrite (sdk_sessionId_supplied _ sid w Hid Htruthy) in Hcap.
    injection Hcap as <- <-. cbn. apply lookup_insert_eq.
  - destruct (Hseen eq_refl) as [Hc Hreg]. split; [done|].
    unfold Sdk.abortClaudeSession. rewrite Hreg. by cbn.
Qed.

Lemma fold_on_message_same_id u (q : Handle) (X : string) (ms : list Sdk.SDKMessage)
    c w :
  sessionId (Sdk.options u) = Some X -> JS.truthy (Some X) = true ->
  reports X ms ->
  Sdk.capturedSessionId c = X ->
  let s' := fold_left (fun s m => Sdk.on_message u q m s) ms (c, w) in
  Sdk.capturedSessionId (fst s') = X /\ Sdk.activeSessions (snd s') = Sdk.activeSessions w.
Proof.
  intros Hid Htruthy. revert c w.
  induction ms as [|m ms IH]; intros c w Hrep Hc; [done|].
  inversion Hrep as [|? ? Hm Hms]; subst. cbn [fold_left].
  assert (exists c1 w1, Sdk.on_message u q m (c, w) = (c1, w1) /\
            Sdk.capturedSessionId c1 = Sdk.capturedSessionId c /\
            Sdk.activeSessions w1 = Sdk.activeSessions w) as (c1 & w1 & -> & Hc1 & Hw1).
  { destruct m as [subtype sid' info| | | |]; cbn [Sdk.on_message]; try by eauto.
    destruct (String.eqb subtype "init") eqn:Hinit; [|by eauto].
    specialize (Hm eq_refl). subst sid'.
    rewrite (sdk_sessionId_supplied _ _ w Hid Htruthy), String.eqb_refl.
    destruct (Sdk.sessionCreatedSent c); by eauto. }
  cbv zeta in IH. rewrite <- Hw1. by apply IH.
Qed.

(** X14.  A call made with the caller's session id leaves no entry of its
    own behind, on any path: when the query cannot be created the entry
    under that id is gone, and when the stream has ended the registry is
    the one before the call without the caller's id and without the id the
    stream reported. *)
Theorem supplied_id_leaves_no_entry u (q : Handle) (X sid : string)
    (stream : Sdk.Stream) (message : string) w :
  sessionId (Sdk.options u) = Some X -> JS.truthy (Some X) = true ->
  reports sid (Sdk.messages stream) ->
  Sdk.activeSessions (Sdk.start u (Sdk.QueryThrows message) w) =
    delete X (Sdk.activeSessions w) /\
  Sdk.activeSessions (Sdk.start u (Sdk.QueryReturns q stream) w) =
    if existsb is_init (Sdk.messages stream)
    then delete sid (delete X (Sdk.activeSessions w))
    else delete X (Sdk.activeSessions w).
Proof.
  intros Hid Htruthy Hrep. split.
  - unfold Sdk.start. rewrite (sdk_sessionId_supplied _ X w Hid Htruthy).
    unfold Sdk.on_launch_failure.
    destruct (Sdk.unit_tempDir u); cbn; apply abort_existing_registry.
  - destruct (decide (X = sid)) as [<-|Hne]; [|by apply sdk_rekey_supplied_id].
    unfold Sdk.start. rewrite (sdk_sessionId_supplied _ X w Hid Htruthy). unfold Sdk.run.
    match goal with |- context [fold_left ?f ?ms (?c0, ?w1)] =>
      pose proof (fold_on_message_same_id u q X ms c0 w1 Hid Htruthy Hrep eq_refl) as Hinv;
      destruct (fold_left f ms (c0, w1)) as [c2 w2]
    end.
    cbv zeta in Hinv. cbn [fst snd] in Hinv. destruct Hinv as [Hc Hw].
    rewrite finish_registry, on_ending_registry, Hc, Hw. cbn.
    rewrite delete_insert_eq, abort_existing_registry, delete_delete_eq.
    by destruct (existsb is_init (Sdk.messages stream)).
Qed.

End SdkRegistryMore.

(** ** The files of the attachments and the prompt *)

Section FilesMore.
Context `{Images.FsEnv}.

Lemma append_cancel_l (p a b : string) : p +:+ a = p +:+ b -> a = b.
Proof.
  induction p as [|c p IH]; [by rewrite !append_nil|].
  rewrite !append_cons. intros Heq. injection Heq as Heq. by apply IH.
Qed.

Lemma occurs_app (c : ascii) (a b : string) :
  JS.occurs c (a +:+ b) = JS.occurs c a || JS.occurs c b.
Proof.
  induction a as [|x a IH]; [by rewrite append_nil|].
  rewrite append_cons. cbn [JS.occurs]. by rewrite IH, orb_assoc.
Qed.

Lemma split_char_no_sep (sep : ascii) (s : string) :
  Forall (fun x => JS.occurs sep x = false) (JS.split_char sep s).
Proof.
  induction s as [|c r IH]; cbn [JS.split_char]; [by repeat constructor|].
  destruct (Ascii.eqb c sep) eqn:Hc; [by constructor|].
  destruct (JS.split_char sep r) as [|l ls]; [by repeat constructor; cbn; rewrite Hc|].
  inversion IH as [|? ? Hl Hls]; subst.
  constructor; [cbn; by rewrite Hc|done].
Qed.

Lemma extension_flat (mimeType : string) :
  JS.occurs "/" (Images.extension mimeType) = false /\
  Images.extension mimeType <> EmptyString.
Proof.
  unfold Images.extension.
  pose proof (split_char_no_sep "/" mimeType) as Hall.
  destruct (JS.split_char "/" mimeType) as [|x [|[|a e] rest]]; try done.
  inversion Hall as [|? ? _ Hrest]; subst. inversion Hrest as [|? ? He _]; subst.
  done.
Qed.

Lemma pretty_N_char_not (c : ascii) (d : N) :
  c = "/"%char \/ c = "."%char -> Ascii.eqb (pretty_N_char d) c = false.
Proof. intros [->| ->]; unfold pretty_N_char; by repeat case_match. Qed.

Lemma pretty_N_go_digits (c : ascii) (x : N) (s : string) :
  c = "/"%char \/ c = "."%char ->
  JS.occurs c s = false -> JS.occurs c (pretty_N_go x s) = false.
Proof.
  intros Hc. revert s. induction (N.lt_wf_0 x) as [x _ IH]; intros s Hs.
  destruct (decide (x = 0)%N) as [->|Hx]; [by rewrite pretty_N_go_0|].
  rewrite pretty_N_go_step by lia. apply IH.
  - apply N.div_lt; lia.
  - cbn [JS.occurs]. by rewrite pretty_N_char_not, Hs.
Qed.

Lemma pretty_nat_digits (c : ascii) (n : nat) :
  c = "/"%char \/ c = "."%char -> JS.occurs c (pretty n) = false.
Proof.
  intros Hc. unfold pretty, pretty_nat, pretty, pretty_N.
  destruct (decide (N.of_nat n = 0)%N); [by destruct Hc as [->| ->]|].
  by apply pretty_N_go_digits.
Qed.

Lemma filename_flat (index : nat) (mimeType : string) :
  JS.occurs "/" (Images.filename index mimeType) = false.
Proof.
  unfold Images.filename. rewrite !occurs_app.
  rewrite (pretty_nat_digits "/" index) by auto.
  by rewrite (proj1 (extension_flat mimeType)).
Qed.

Lemma first_separator (c : ascii) (s1 s2 e1 e2 : string) :
  JS.occurs c s1 = false -> JS.occurs c s2 = false ->
  s1 +:+ String c e1 = s2 +:+ String c e2 -> s1 = s2.
Proof.
  revert s2. induction s1 as [|a s1 IH]; intros [|b s2];
    rewrite ?append_nil, ?append_cons; cbn [JS.occurs]; intros H1 H2 Heq.
  - done.
  - injection Heq as <- _. by rewrite Ascii.eqb_refl in H2.
  - injection Heq as -> _. by rewrite Ascii.eqb_refl in H1.
  - injection Heq as <- Heq. apply orb_false_iff in H1 as [_ H1].
    apply orb_false_iff in H2 as [_ H2]. f_equal. by apply IH.
Qed.

Lemma filename_index (i j : nat) (m1 m2 : string) :
  Images.filename i m1 = Images.filename j m2 -> i = j.
Proof.
  unfold Images.filename. rewrite !append_cons, !append_nil. intros Heq.
  injection Heq as Heq.
  apply first_separator in Heq; try (apply pretty_nat_digits; auto).
  by apply (inj pretty).
Qed.

Lemma files_from_names (dir : string) (imgs : list string) (k : nat) :
  Forall (fun f => exists i mimeType,
            k <= i /\ fst f = Images.path_join dir (Images.filename i mimeType))
    (Images.files_from dir k imgs).
Proof.
  revert k. induction imgs as [|data imgs IH]; intros k; [constructor|].
  rewrite files_from_cons. unfold Images.materialised.
  assert (Forall (fun f => exists i mimeType,
            k <= i /\ fst f = Images.path_join dir (Images.filename i mimeType))
          (Images.files_from dir (S k) imgs)) as Htail.
  { eapply Forall_impl; [apply IH|].
    intros f (i & m & Hi & Hf). exists i, m. split; [lia|done]. }
  destruct (Images.match_data_uri data) as [[mimeType base64Data]|]; [|done].
  constructor; [by exists k, mimeType|done].
Qed.

Lemma files_from_distinct (dir : string) (imgs : list string) (k : nat) :
  (forall a b, Images.path_join dir a = Images.path_join dir b -> a = b) ->
  NoDup (map fst (Images.files_from dir k imgs)).
Proof.
  intros Hinj. revert k. induction imgs as [|data imgs IH]; intros k; [constructor|].
  rewrite files_from_cons. unfold Images.materialised.
  destruct (Images.match_data_uri data) as [[mimeType base64Data]|]; [|apply IH].
  cbn [map fst]. constructor; [|apply IH].
  intros Hin. apply list_elem_of_fmap in Hin as (f & Hf & Hin).
  pose proof (files_from_names dir imgs (S k)) as Hall.
  rewrite Forall_forall in Hall. destruct (Hall f Hin) as (i & m & Hi & Hfi).
  rewrite Hfi in Hf. apply Hinj, filename_index in Hf. lia.
Qed.

(** X15.  No attachment overwrites another and none leaves the scratch
    directory: the files a call writes have pairwise different paths, and
    each is the directory joined with a name that has no [/] (whatever
    the media type of the data URI says), provided [path.join] maps
    different names to different paths. *)
Theorem written_files_are_distinct_and_flat (dir cmd : string) (imgs : list string) :
  (forall a b, Images.path_join dir a = Images.path_join dir b -> a = b) ->
  let out := Images.process_images dir cmd imgs in
  NoDup (map fst (Images.written (Images.saved out))) /\
  Forall (fun f => exists name,
            fst f = Images.path_join dir name /\ JS.occurs "/" name = false)
    (Images.written (Images.saved out)).
Proof.
  intros Hinj. cbv zeta.
  destruct (process_images_prefix dir cmd imgs) as (done & rest & Hf & Hw & _).
  rewrite Hw. split.
  - pose proof (files_from_distinct dir imgs 0 Hinj) as Hnd.
    rewrite Hf, map_app in Hnd. by apply NoDup_app in Hnd as [? _].
  - pose proof (files_from_names dir imgs 0) as Hall.
    rewrite Hf in Hall. apply Forall_app in Hall as [Hall _].
    eapply Forall_impl; [exact Hall|].
    intros f (i & m & _ & Hfi). exists (Images.filename i m).
    split; [done|apply filename_flat].
Qed.

Lemma save_images_to_the_end (dir : string) (imgs : list string) (k : nat)
    (acc : Images.Saved) :
  fst (Images.save_images dir k imgs acc) = true ->
  Images.written (snd (Images.save_images dir k imgs acc)) =
    Images.written acc ++ Images.files_from dir k imgs.
Proof.
  revert k acc. induction imgs as [|data imgs IH]; intros k acc.
  - cbn. by rewrite app_nil_r.
  - rewrite files_from_cons. unfold Images.materialised. cbn [Images.save_images].
    destruct (Images.match_data_uri data) as [[mimeType base64Data]|].
    + destruct (Images.writeFile_throws _); [done|].
      intros Hend. rewrite (IH _ _ Hend). cbn. by rewrite <- app_assoc.
    + intros Hend. by rewrite (IH _ _ Hend).
Qed.

(** X16.  The note added to the prompt lists exactly the files that were
    written, in their order.  It is added only when the loop over the
    attachments ran to its end, at least one file was written and the
    command is not blank; it then follows the command as the caller gave
    it, and both files pass the same prompt.  Otherwise the subprocess
    file passes the trimmed command (no [--print] for a blank one) and the
    SDK file passes the command unchanged. *)
Theorem note_lists_the_written_files (dir cmd : string) (imgs : list string) :
  let out := Images.process_images dir cmd imgs in
  let paths := map fst (Images.written (Images.saved out)) in
  Images.tempImagePaths (Images.saved out) = paths /\
  match Images.modifiedCommand out with
  | Some p =>
      p = cmd +:+ Images.imageNote paths /\
      Images.written (Images.saved out) = Images.files_from dir 0 imgs /\
      paths <> [] /\ JS.is_empty (JS.trim cmd) = false /\
      Cli.print_argument cmd out = Some p /\ Sdk.enhancedPrompt cmd out = p
  | None =>
      Cli.print_argument cmd out =
        (if JS.is_empty (JS.trim cmd) then None else Some (JS.trim cmd)) /\
      Sdk.enhancedPrompt cmd out = cmd
  end.
Proof.
  cbv zeta.
  destruct (process_images_prefix dir cmd imgs) as (done & rest & _ & Hw & Hp).
  split; [by rewrite Hp, Hw|]. clear done rest Hw Hp.
  unfold Cli.print_argument, Sdk.enhancedPrompt, Images.process_images.
  destruct imgs as [|data imgs]; [done|].
  destruct (Images.mkdir_throws dir); [done|].
  pose proof (save_images_to_the_end dir (data :: imgs) 0 Images.no_saved) as Hend.
  pose proof (save_images_prefix dir (data :: imgs) 0 Images.no_saved)
    as (done & rest & _ & Hw & Hp).
  destruct (Images.save_images dir 0 (data :: imgs) Images.no_saved) as [[|] sv];
    cbn [fst snd Images.modifiedCommand Images.saved Images.written Images.tempImagePaths]
      in *; [|done].
  specialize (Hend eq_refl). cbn [Images.written Images.tempImagePaths Images.no_saved app]
    in Hw, Hp, Hend.
  destruct (JS.is_empty (JS.trim cmd)); cbn [negb]; [done|].
  rewrite Hp, Hw in *. clear Hp Hw.
  destruct (map fst done) as [|p ps] eqn:Hps; [done|].
  by repeat split.
Qed.

End FilesMore.

(** ** The launch parameters of the two files *)

Section LaunchParameters.

(** X17.  For the same request the command line of the subprocess file is
    the one the options of the SDK file give: [--resume] with the id the
    SDK resumes, [--config] exactly when the SDK gets MCP servers, the
    tool lists of the SDK joined by commas.  The permission mode is the
    SDK's when the caller names one; when the caller names none the two
    differ: the subprocess file passes [allow] where the SDK file passes
    [bypassPermissions], and no flag where the SDK file passes [default].
    [--print] comes first, and is passed exactly when [stdin] is closed. *)
Theorem command_line_follows_sdk_options (cmd : string) (out : Images.Outcome)
    (opts : ClaudeSpawnOptions) (path process_cwd : string) (config : option Json.value) :
  let o := Spawn.sdkOptions process_cwd opts config in
  Spawn.args (Cli.print_argument cmd out) opts path config =
    match Cli.print_argument cmd out with Some p => ["--print"; p] | None => [] end ++
    match Spawn.opt_resume o with Some id => ["--resume"; id] | None => [] end ++
    ["--output-format"; "stream-json"; "--verbose"] ++
    match Spawn.opt_mcpServers o with Some _ => ["--config"; path] | None => [] end ++
    (if JS.truthy (permissionMode opts) then ["--permission-mode"; Spawn.opt_permissionMode o]
     else if String.eqb (Spawn.opt_permissionMode o) "bypassPermissions"
          then ["--permission-mode"; "allow"] else []) ++
    match Spawn.opt_allowedTools o with
    | [] => []
    | _ :: _ => ["--allowed-tools"; JS.join "," (Spawn.opt_allowedTools o)]
    end ++
    match Spawn.opt_disallowedTools o with
    | [] => []
    | _ :: _ => ["--disallowed-tools"; JS.join "," (Spawn.opt_disallowedTools o)]
    end /\
  Spawn.stdin_ended cmd =
    bool_decide (head (Spawn.args (Cli.print_argument cmd out) opts path config) =
                 Some "--print").
Proof.
  cbv zeta. split.
  - unfold Spawn.args, Spawn.sdkOptions.
    cbn [Spawn.opt_resume Spawn.opt_mcpServers Spawn.opt_permissionMode
         Spawn.opt_allowedTools Spawn.opt_disallowedTools].
    destruct (Cli.print_argument cmd out) as [p|];
      destruct (sessionId opts) as [id|];
      try destruct (resume opts && JS.truthy (Some id));
      destruct (Spawn.mcp_servers config);
      destruct (permissionMode opts) as [[|a mode]|];
      try destruct (skipPermissions (Spawn.settings opts));
      destruct (allowedTools (Spawn.settings opts));
      destruct (disallowedTools (Spawn.settings opts));
      cbn [JS.truthy String.eqb app]; rewrite <- ?app_assoc; reflexivity.
  - unfold Spawn.stdin_ended, Spawn.args, Cli.print_argument.
    destruct (JS.is_empty (JS.trim cmd)); cbn [negb].
    + destruct (sessionId opts) as [id|];
        try destruct (resume opts && JS.truthy (Some id));
        destruct (Spawn.mcp_servers config);
        destruct (permissionMode opts) as [[|a mode]|];
        try destruct (skipPermissions (Spawn.settings opts));
        destruct (allowedTools (Spawn.settings opts));
        destruct (disallowedTools (Spawn.settings opts)); reflexivity.
    + destruct (Images.modifiedCommand out);
        destruct (sessionId opts) as [id|];
        try destruct (resume opts && JS.truthy (Some id));
        destruct (Spawn.mcp_servers config);
        destruct (permissionMode opts) as [[|a mode]|];
        try destruct (skipPermissions (Spawn.settings opts));
        destruct (allowedTools (Spawn.settings opts));
        destruct (disallowedTools (Spawn.settings opts)); reflexivity.
Qed.

End LaunchParameters.

(** ** After the process has ended *)

Section Ended.
Context {J : Type} `{JsonApi J}.
Implicit Types (u : Cli.Unit) (c : Cli.Closure) (w : Cli.World J).

Lemma terminal_unregisters u (e : Cli.Event) (sid : string) c w :
  closes_and_errors [e] = 1 ->
  Cli.capturedSessionId c = Some sid -> JS.truthy (Some sid) = true ->
  Cli.activeClaudeProcesses (snd (Cli.handle u e (c, w))) !! sid = None.
Proof.
  intros He Hc Ht. destruct e as [data|data|code|code message]; try done;
    cbn [Cli.handle].
  - unfold Cli.on_close. rewrite Hc, Ht.
    destruct code as [[|p|p]|]; cbn; apply lookup_delete_eq.
  - rewrite on_error_envelope, Hc, Ht. cbn. apply lookup_delete_eq.
Qed.

(** X18.  Once the process has closed or failed to start, the unit is no
    longer in the registry: [abortClaudeSession] answers [false] for every
    id the unit announced with [session-created], and changes nothing. *)
Theorem ended_unit_is_unregistered u (events : list Cli.Event) (e : Cli.Event) w :
  closes_and_errors events = 0 -> closes_and_errors [e] = 1 ->
  let w' := snd (Cli.run u (events ++ [e]) (Cli.spawn_registered u w)) in
  exists out, Cli.sent w' = Cli.sent w ++ out /\ Forall (unregistered w') out.
Proof.
  intros Hn He. cbv zeta. rewrite run_app.
  destruct (spawn_registered_frame u w) as (_ & _ & _ & Hs & _).
  destruct (Cli.spawn_registered u w) as [c0 w0]. cbn [fst snd] in Hs.
  destruct (run_announced u events c0 w0 [] Hn) as (out & Hout & Hinv); [done|].
  destruct (Cli.run u events (c0, w0)) as [c1 w1]. cbn [fst snd app] in Hout, Hinv.
  cbn [Cli.run fold_left].
  assert (exists o,
            Cli.sent (snd (Cli.handle u e (c1, w1))) = Cli.sent w1 ++ o /\
            Forall (fun p => is_session_created (snd p) = false) o) as (o & Ho & Hno).
  { destruct e as [data|data|code|code message]; try done; cbn [Cli.handle].
    - destruct (on_close_frame u code c1 w1) as (_ & _ & _ & _ & _ & _ & _ & Hsent).
      eexists [_]. split; [exact Hsent|by repeat constructor].
    - rewrite on_error_envelope.
      exists [(Cli.unit_ws u,
               ErrorEnvelope
                 (if bool_decide (code = Some "ENOENT") then Cli.cli_not_found else message))].
      split; [|by repeat constructor].
      cbn [snd Cli.ws_send Cli.sent]. f_equal.
      by destruct (Cli.unit_tempDir u), (Cli.capturedSessionId c1) as [[|? ?]|]. }
  exists (out ++ o). rewrite Ho, Hout, Hs, <- app_assoc. split; [done|].
  apply Forall_app. split.
  - eapply Forall_impl; [exact Hinv|].
    intros [to [sid| | |]] Hp; try done. destruct Hp as (Hc & Ht & _).
    apply cli_abort_unregistered.
    by apply terminal_unregisters.
  - eapply Forall_impl; [exact Hno|]. by intros [to [sid| | |]].
Qed.

End Ended.

(** ** The further properties on concrete runs *)

Section MoreRuns.
Import Samples Cases.

(** X1 (witness): a line cut inside a word, followed by a whole line. *)
Lemma chunking_with_safe_boundaries_witness :
  snd (Cli.run (cli_unit new_session) (map Cli.StdoutData cut_chunks)
         (Cli.spawn_registered (cli_unit new_session) (Cli.empty_world Json.value))) =
  snd (Cli.run (cli_unit new_session)
         [Cli.StdoutData (String.concat EmptyString cut_chunks)]
         (Cli.spawn_registered (cli_unit new_session) (Cli.empty_world Json.value))).
Proof.
  apply (chunking_with_safe_boundaries (J := Json.value)).
  left. vm_compute. reflexivity.
Defined.

(** X2 (witness): the middle of a line. *)
Lemma chunk_without_line_feed_relays_nothing_witness :
  snd (Cli.stdout_on_data (cli_unit new_session) (Json.dq "'assistant',")
         (holding (Json.dq "{'type':"), Cli.empty_world Json.value)) =
  Cli.empty_world Json.value.
Proof.
  rewrite (chunk_without_line_feed_relays_nothing (J := Json.value)); reflexivity.
Defined.

(** X3 (witness): a line cut inside a word, followed by a whole line. *)
Lemma responses_follow_line_order_witness :
  exists out,
    Cli.sent (snd (Cli.run (cli_unit new_session) (map Cli.StdoutData cut_chunks)
                     (Cli.spawn_registered (cli_unit new_session)
                        (Cli.empty_world Json.value)))) =
      Cli.sent (Cli.empty_world Json.value) ++ out /\
    filter (fun p => is_session_created (snd p) = false) out =
      map (fun o => (Cli.unit_ws (cli_unit new_session), ClaudeResponse o))
        (omap relayed (complete_lines (String.concat EmptyString cut_chunks))).
Proof.
  apply (responses_follow_line_order (J := Json.value)).
  left. vm_compute. reflexivity.
Defined.

(** X7 (witness): a resumed session whose process reports another id and
    closes; an older entry under the caller's id was killed at the spawn. *)
Lemma resumed_unit_cannot_be_aborted_witness :
  Cli.abortClaudeSession "session-1"
    (snd (Cli.run (cli_unit (resumed "session-1"))
            [Cli.StdoutData user_line; Cli.Close (Some 0%Z)]
            (Cli.spawn_registered (cli_unit (resumed "session-1")) cli_world_1))) =
  (false,
   snd (Cli.run (cli_unit (resumed "session-1"))
          [Cli.StdoutData user_line; Cli.Close (Some 0%Z)]
          (Cli.spawn_registered (cli_unit (resumed "session-1")) cli_world_1))).
Proof.
  destruct (resumed_unit_cannot_be_aborted (J := Json.value) (cli_unit (resumed "session-1"))
              "session-1" [Cli.StdoutData user_line; Cli.Close (Some 0%Z)] cli_world_1
              eq_refl eq_refl) as (_ & _ & Habort).
  exact Habort.
Defined.

(** X11 (witness): a new session whose first line carries the id [abc]. *)
Lemma announced_id_aborts_the_unit_witness :
  exists out,
    Cli.sent (snd (cli_run new_session [Cli.StdoutData user_line; Cli.StderrData "warning"])) =
      Cli.sent (Cli.empty_world Json.value) ++ out /\
    Forall (abortable (cli_unit new_session)
              (snd (cli_run new_session [Cli.StdoutData user_line; Cli.StderrData "warning"])))
      out.
Proof.
  apply (announced_id_aborts_the_unit (J := Json.value) (cli_unit new_session)
           [Cli.StdoutData user_line; Cli.StderrData "warning"]).
  reflexivity.
Defined.

(** X18 (witness): the same session once its process has closed. *)
Lemma ended_unit_is_unregistered_witness :
  exists out,
    Cli.sent (snd (cli_run new_session ([Cli.StdoutData user_line] ++ [Cli.Close (Some 0%Z)]))) =
      Cli.sent (Cli.empty_world Json.value) ++ out /\
    Forall (unregistered
              (snd (cli_run new_session ([Cli.StdoutData user_line] ++ [Cli.Close (Some 0%Z)]))))
      out.
Proof.
  apply (ended_unit_is_unregistered (J := Json.value) (cli_unit new_session)
           [Cli.StdoutData user_line] (Cli.Close (Some 0%Z))); reflexivity.
Defined.

Lemma real_id_reported : reports "real-id" real_id_messages.
Proof.
  unfold reports, real_id_messages.
  constructor; [intros _; reflexivity|].
  constructor; [exact I|]. constructor.
Defined.

(** X13 (witness): a new session, whose provisional ids start with [temp-]. *)
Lemma reported_id_aborts_the_session_witness :
  Sdk.capturedSessionId (fst (sdk_during (sdk_unit new_session) 300 real_id_messages
                                Sdk.empty_world)) = "real-id" /\
  fst (Sdk.abortClaudeSession "real-id"
         (snd (sdk_during (sdk_unit new_session) 300 real_id_messages Sdk.empty_world))) =
    true /\
  Sdk.aborted
    (snd (Sdk.abortClaudeSession "real-id"
            (snd (sdk_during (sdk_unit new_session) 300 real_id_messages Sdk.empty_world)))) =
    Sdk.aborted (snd (sdk_during (sdk_unit new_session) 300 real_id_messages Sdk.empty_world))
    ++ [Sdk.unit_abortController (sdk_unit new_session)].
Proof.
  apply (reported_id_aborts_the_session (sdk_unit new_session) 300 "real-id"
           real_id_messages Sdk.empty_world).
  - right. intros n Heq. cbv [Sdk.generateSessionId temp_ids] in Heq.
    rewrite append_cons in Heq. discriminate Heq.
  - exact real_id_reported.
  - reflexivity.
Defined.

(** X14 (witness): a resumed session over a registry that holds an older
    entry under the caller's id. *)
Lemma supplied_id_leaves_no_entry_witness :
  Sdk.activeSessions
    (Sdk.start (sdk_unit (resumed "session-1")) (Sdk.QueryThrows "spawn claude ENOENT")
       sdk_world_1) = delete "session-1" (Sdk.activeSessions sdk_world_1) /\
  Sdk.activeSessions
    (Sdk.start (sdk_unit (resumed "session-1"))
       (Sdk.QueryReturns 300 {| Sdk.messages := real_id_messages; Sdk.ending := Sdk.Done |})
       sdk_world_1) =
    delete "real-id" (delete "session-1" (Sdk.activeSessions sdk_world_1)).
Proof.
  apply (supplied_id_leaves_no_entry (sdk_unit (resumed "session-1")) 300 "session-1"
           "real-id" {| Sdk.messages := real_id_messages; Sdk.ending := Sdk.Done |}
           "spawn claude ENOENT" sdk_world_1 eq_refl eq_refl real_id_reported).
Defined.

(** X15 (witness): the three attachments on the POSIX file system. *)
Lemma written_files_are_distinct_and_flat_witness :
  NoDup (map fst (Images.written
                    (Images.saved (Images.process_images images_dir "look" three_images)))) /\
  Forall (fun f => exists name,
            fst f = Images.path_join images_dir name /\ JS.occurs "/" name = false)
    (Images.written (Images.saved (Images.process_images images_dir "look" three_images))).
Proof.
  apply (written_files_are_distinct_and_flat images_dir "look" three_images).
  intros a b Heq. cbn [Images.path_join posix_fs] in Heq.
  apply append_cancel_l in Heq. by apply append_cancel_l in Heq.
Defined.

End MoreRuns.
